(** * TARS chatbot: a shallow embedding of the conversation engine

    The development follows the Python sources:
    - [src/core/memory_store.py]   (Message, Conversation, MemoryStore)
    - [src/ai/llm_handler.py]      (handlers, get_llm_handler, MultiProviderLLM)
    - [src/ai/vector_store.py], [src/ai/rag_system.py] (VectorStore, RAGSystem)
    - [src/personality/response_generator.py] (CueLight, HumorController,
      HonestyModule, ResponseGenerator)
    - [src/core/tars_engine.py]    (TARSEngine)
    - [finetuning/scripts/convert_datasets.py] (DatasetConverter)

    Python [float] is IEEE binary64 and is modelled by Rocq's primitive
    floats; [int] is [Z]; [str] is [string] (byte strings: the character
    operations below are exact on ASCII text); [dict] and [set] are stdpp's
    [gmap] and [gset].  Exceptions are explicit: a call returns an
    [outcome].  Everything outside the repository (the OpenAI and Gemini
    clients, ChromaDB, sentence-transformers, hashlib, the YAML parser, the
    clock and the random generator) enters as data: an oracle record or an
    explicit argument. *)

From Stdlib Require Import ZArith Floats String Ascii List Lia DecimalString.
From stdpp Require Import gmap strings list.

Local Open Scope string_scope.
Local Open Scope list_scope.
Set Warnings "-inexact-float".

(** ** Python primitives *)

Module Py.

(** Exception classes met in the sources.  [KeyboardInterrupt] stands for
    the classes that derive from [BaseException] only, which
    [except Exception] does not catch. *)
Inductive exn : Type :=
| IndexError (msg : string)
| ValueError (msg : string)
| OverflowError (msg : string)
| ImportError (msg : string)
| AttributeError (msg : string)
| RuntimeError (msg : string)
| KeyboardInterrupt.

Definition is_Exception (e : exn) : bool :=
  match e with
  | KeyboardInterrupt => false
  | _ => true
  end.

(** [str(e)] *)
Definition str_exn (e : exn) : string :=
  match e with
  | IndexError m | ValueError m | OverflowError m | ImportError m
  | AttributeError m | RuntimeError m => m
  | KeyboardInterrupt => ""
  end.

Inductive outcome (A : Type) : Type :=
| Return (a : A)
| Raise (e : exn).
Arguments Return {A} a.
Arguments Raise {A} e.

(** A computation over a mutable state [S] that may raise. *)
Definition M (S A : Type) : Type := S -> outcome A * S.

Definition ret {S A} (a : A) : M S A := fun s => (Return a, s).
Definition raise {S A} (e : exn) : M S A := fun s => (Raise e, s).
Definition bind {S A B} (c : M S A) (k : A -> M S B) : M S B :=
  fun s => match c s with
           | (Return a, s') => k a s'
           | (Raise e, s') => (Raise e, s')
           end.
Definition get {S} : M S S := fun s => (Return s, s).
Definition put {S} (s : S) : M S unit := fun _ => (Return tt, s).
Definition lift {S A} (o : outcome A) : M S A := fun s => (o, s).

(** [try: c  except Exception as e: h e] *)
Definition try_except {S A} (c : M S A) (h : exn -> M S A) : M S A :=
  fun s => match c s with
           | (Raise e, s') => if is_Exception e then h e s' else (Raise e, s')
           | r => r
           end.

(** Run a computation on a component of the state. *)
Definition zoom {S T A} (proj : S -> T) (upd : T -> S -> S) (c : M T A) : M S A :=
  fun s => let (r, t) := c (proj s) in (r, upd t s).

(** *** Strings *)

Definition is_upper (c : ascii) : bool :=
  (65 <=? nat_of_ascii c)%nat && (nat_of_ascii c <=? 90)%nat.

Definition lower_ascii (c : ascii) : ascii :=
  if is_upper c then ascii_of_nat (nat_of_ascii c + 32) else c.

(** [s.lower()] *)
Fixpoint lower (s : string) : string :=
  match s with
  | EmptyString => EmptyString
  | String c t => String (lower_ascii c) (lower t)
  end.

(** [str.isspace] on one character: tab, LF, VT, FF, CR, the separators
    0x1c-0x1f and the space. *)
Definition is_space (c : ascii) : bool :=
  let n := nat_of_ascii c in
  ((9 <=? n)%nat && (n <=? 13)%nat) || ((28 <=? n)%nat && (n <=? 32)%nat).

Fixpoint lstrip (s : string) : string :=
  match s with
  | String c t => if is_space c then lstrip t else s
  | EmptyString => EmptyString
  end.

Fixpoint rstrip (s : string) : string :=
  match s with
  | EmptyString => EmptyString
  | String c t =>
      match rstrip t with
      | EmptyString => if is_space c then EmptyString else String c EmptyString
      | t' => String c t'
      end
  end.

(** [s.strip()] *)
Definition strip (s : string) : string := rstrip (lstrip s).

(** [needle in hay] *)
Fixpoint contains (needle hay : string) : bool :=
  if String.prefix needle hay then true
  else match hay with
       | EmptyString => false
       | String _ t => contains needle t
       end.

(** [response[0]]: raises [IndexError] on the empty string. *)
Definition index0 (s : string) : outcome string :=
  match s with
  | EmptyString => Raise (IndexError "string index out of range")
  | String c _ => Return (String c EmptyString)
  end.

(** [response[1:]]: slicing never raises. *)
Definition from1 (s : string) : string :=
  match s with
  | EmptyString => EmptyString
  | String _ t => t
  end.

(** [s[:n]] for [n >= 0] *)
Definition str_take (n : nat) (s : string) : string := substring 0 n s.

(** [bool(s)] *)
Definition truthy (s : string) : bool :=
  match s with EmptyString => false | _ => true end.

(** [str(n)] for a natural number, and for an [int] *)
Definition str_nat (n : nat) : string := NilZero.string_of_uint (Nat.to_uint n).
Definition str_int (z : Z) : string := NilZero.string_of_int (Z.to_int z).

(** [f"{n:02d}"] and wider pads *)
Fixpoint zeros (k : nat) : string :=
  match k with O => "" | S k' => "0" +:+ zeros k' end.
Definition pad (width n : nat) : string :=
  let s := str_nat n in zeros (width - String.length s) +:+ s.

(** *** Lists *)

(** [l[i:]] for an [int] index [i] (negative indices count from the end,
    out-of-range indices are clipped). *)
Definition slice_from {A} (i : Z) (l : list A) : list A :=
  if (i <? 0)%Z then drop (Z.to_nat (Z.of_nat (length l) + i)) l
  else drop (Z.to_nat i) l.

(** [l[:i]] *)
Definition slice_to {A} (i : Z) (l : list A) : list A :=
  if (i <? 0)%Z then take (Z.to_nat (Z.of_nat (length l) + i)) l
  else take (Z.to_nat i) l.

(** [l[i]] for [0 <= i] *)
Definition item {A} (l : list A) (i : nat) : outcome A :=
  match l !! i with
  | Some a => Return a
  | None => Raise (IndexError "list index out of range")
  end.

(** *** Floats *)

(** [int(x)]: truncation toward zero; [ValueError] on NaN and
    [OverflowError] on an infinity. *)
Definition int_of_float (x : float) : outcome Z :=
  match Prim2SF x with
  | S754_zero _ => Return 0%Z
  | S754_finite s m e =>
      let mag := if (0 <=? e)%Z then (Z.pos m * 2 ^ e)%Z
                 else (Z.pos m / 2 ^ (- e))%Z in
      Return (if s then (- mag)%Z else mag)
  | S754_nan => Raise (ValueError "cannot convert float NaN to integer")
  | S754_infinity _ =>
      Raise (OverflowError "cannot convert float infinity to integer")
  end.

(** [min(max(x, 0.0), 1.0)] with Python's [max] and [min]: the first
    argument is kept unless the other one compares strictly beyond it. *)
Definition py_max (a b : float) : float := if PrimFloat.ltb a b then b else a.
Definition py_min (a b : float) : float := if PrimFloat.ltb b a then b else a.
Definition clamp01 (x : float) : float := py_min (py_max x 0%float) 1%float.

(** *** The random generator

    [random.random()] and [random.choice] consume one draw each; the
    generator is a stream of draws with a cursor.  Draw number [i] read
    as a float is [uniform i], read as an index below [n] it is
    [pick i mod n]. *)
Record Rng : Type := mkRng {
  uniform : nat -> float;
  pick : nat -> nat;
  cursor : nat
}.

Definition advance (r : Rng) : Rng :=
  {| uniform := uniform r; pick := pick r; cursor := S (cursor r) |}.

(** [random.random()] *)
Definition random : M Rng float :=
  fun r => (Return (uniform r (cursor r)), advance r).

(** [random.choice(seq)]: [IndexError] on an empty sequence. *)
Definition choice {A} (seq : list A) : M Rng A :=
  fun r => match seq with
           | [] => (Raise (IndexError "Cannot choose from an empty sequence"), r)
           | a :: _ => (Return (nth (pick r (cursor r) mod length seq) seq a), advance r)
           end.

(** *** The clock: [datetime.now()] *)
Record datetime : Type := mkDatetime {
  year : nat; month : nat; day : nat;
  hour : nat; minute : nat; second : nat; microsecond : nat
}.

(** [strftime("%I:%M %p")] *)
Definition strftime_IMp (d : datetime) : string :=
  let h12 := match (hour d mod 12)%nat with O => 12%nat | h => h end in
  pad 2 h12 +:+ ":" +:+ pad 2 (minute d) +:+ " "
    +:+ (if (hour d <? 12)%nat then "AM" else "PM").

(** [strftime("%Y%m%d_%H%M%S")] *)
Definition strftime_stamp (d : datetime) : string :=
  pad 4 (year d) +:+ pad 2 (month d) +:+ pad 2 (day d) +:+ "_"
    +:+ pad 2 (hour d) +:+ pad 2 (minute d) +:+ pad 2 (second d).

(** [isoformat()] *)
Definition isoformat (d : datetime) : string :=
  pad 4 (year d) +:+ "-" +:+ pad 2 (month d) +:+ "-" +:+ pad 2 (day d) +:+ "T"
    +:+ pad 2 (hour d) +:+ ":" +:+ pad 2 (minute d) +:+ ":" +:+ pad 2 (second d)
    +:+ (match microsecond d with
         | O => ""
         | us => "." +:+ pad 6 us
         end).

End Py.

Export Py.

Declare Scope py_scope.
Delimit Scope py_scope with py.
Notation "'do' x <- c ; k" := (Py.bind c (fun x => k))
  (at level 10, x name, c at level 100, k at level 200) : py_scope.
Notation "'do' ' p <- c ; k" := (Py.bind c (fun x => match x with p => k end))
  (at level 10, p pattern, c at level 100, k at level 200) : py_scope.
Notation "'run' c ; k" := (Py.bind c (fun _ => k))
  (at level 10, c at level 100, k at level 200) : py_scope.
Local Open Scope py_scope.

(** ** Configuration: [src/utils/config.py] *)

Module TARSConfig.

Record t : Type := mk {
  llm_provider : string;
  openai_api_key : string;
  openai_model : string;
  gemini_api_key : string;
  gemini_model : string;
  lm_studio_base_url : string;
  lm_studio_model : string;
  ollama_base_url : string;
  ollama_model : string;
  tars_humor_level : float;
  tars_honesty_level : float;
  tars_discretion_level : float;
  rag_enabled : bool;
  max_tokens : Z
}.

(** The field defaults of the settings class. *)
Definition default : t :=
  {| llm_provider := "lm_studio";
     openai_api_key := ""; openai_model := "";
     gemini_api_key := ""; gemini_model := "";
     lm_studio_base_url := "http://localhost:1234/v1";
     lm_studio_model := "meta-llama-3.2-1b-instruct-q4_0";
     ollama_base_url := "http://localhost:11434";
     ollama_model := "mistral";
     tars_humor_level := 0.60; tars_honesty_level := 0.90;
     tars_discretion_level := 0.95;
     rag_enabled := true; max_tokens := 16384 |}.

Definition get_tars_personality_prompt (_ : t) : string :=
  "You are a helpful, expert coding assistant. You provide complete, working Python code for all user requests, including scientific and bioinformatics tasks.".

Definition set_provider (p : string) (c : t) : t :=
  {| llm_provider := p;
     openai_api_key := openai_api_key c; openai_model := openai_model c;
     gemini_api_key := gemini_api_key c; gemini_model := gemini_model c;
     lm_studio_base_url := lm_studio_base_url c;
     lm_studio_model := lm_studio_model c;
     ollama_base_url := ollama_base_url c; ollama_model := ollama_model c;
     tars_humor_level := tars_humor_level c;
     tars_honesty_level := tars_honesty_level c;
     tars_discretion_level := tars_discretion_level c;
     rag_enabled := rag_enabled c; max_tokens := max_tokens c |}.

End TARSConfig.

(** ** Conversation memory: [src/core/memory_store.py] *)

(** A [dict] in the form the LLM APIs take: [{"role": r, "content": c}]. *)
Record RoleContent : Type := mkRoleContent { rc_role : string; rc_content : string }.

Module Message.

Record t : Type := mk {
  role : string;
  content : string;
  timestamp : string;
  metadata : gmap string string
}.

Definition to_dict (m : t) : RoleContent :=
  {| rc_role := role m; rc_content := content m |}.

End Message.

Module Conversation.

Record t : Type := mk {
  id : string;
  messages : list Message.t;
  created_at : string;
  metadata : gmap string string
}.

Definition with_messages (ms : list Message.t) (c : t) : t :=
  {| id := id c; messages := ms; created_at := created_at c;
     metadata := metadata c |}.

(** [Conversation(id=conversation_id)] *)
Definition new (now : datetime) (conversation_id : string) : t :=
  {| id := conversation_id; messages := [];
     created_at := isoformat now; metadata := ∅ |}.

(** [add_message]: [metadata or {}], then an append. *)
Definition add_message (now : datetime) (role content : string)
    (metadata : option (gmap string string)) (c : t) : Message.t * t :=
  let msg := {| Message.role := role; Message.content := content;
                Message.timestamp := isoformat now;
                Message.metadata := default ∅ metadata |} in
  (msg, with_messages (messages c ++ [msg]) c).

(** [get_history]: [self.messages[-max_messages:] if max_messages else
    self.messages]; [None] and [0] are both falsy. *)
Definition get_history (max_messages : option Z) (c : t) : list RoleContent :=
  let ms := match max_messages with
            | None => messages c
            | Some n => if (n =? 0)%Z then messages c
                        else slice_from (- n) (messages c)
            end in
  map Message.to_dict ms.

Definition clear (c : t) : t := with_messages [] c.

End Conversation.

Module MemoryStore.

(** [disk] is the content of [persist_dir]: the file [<id>.json] holds
    the conversation last saved under that id.  The directory is taken
    to be usable: [mkdir], [open], [json.dump] and [unlink] succeed, and a
    file that was written reads back as the same conversation.  What the
    store does when one of them raises is outside the model: a statement
    that names the exceptions a call can end with is made for a store
    that writes no file. *)
Record t : Type := mk {
  persist_dir : option string;
  max_messages : Z;
  auto_save : bool;
  conversations : gmap string Conversation.t;
  active_conversation_id : option string;
  disk : gmap string Conversation.t
}.

Definition with_conversations (cs : gmap string Conversation.t) (m : t) : t :=
  {| persist_dir := persist_dir m; max_messages := max_messages m;
     auto_save := auto_save m; conversations := cs;
     active_conversation_id := active_conversation_id m; disk := disk m |}.

Definition with_active (a : option string) (m : t) : t :=
  {| persist_dir := persist_dir m; max_messages := max_messages m;
     auto_save := auto_save m; conversations := conversations m;
     active_conversation_id := a; disk := disk m |}.

Definition with_disk (d : gmap string Conversation.t) (m : t) : t :=
  {| persist_dir := persist_dir m; max_messages := max_messages m;
     auto_save := auto_save m; conversations := conversations m;
     active_conversation_id := active_conversation_id m; disk := d |}.

(** [_load_conversations] reads every well-formed record of the
    directory and stores it under the record's own id. *)
Definition _load_conversations (m : t) : t :=
  match persist_dir m with
  | None => m
  | Some _ =>
      with_conversations
        (map_fold (fun _ c acc => <[Conversation.id c := c]> acc)
                  (conversations m) (disk m)) m
  end.

(** [MemoryStore(persist_dir, max_messages_per_conversation, auto_save)];
    [on_disk] is what the directory holds when the store is created.
    [Path(persist_dir) if persist_dir else None]: an empty directory name
    is falsy, and the store then has no directory at all. *)
Definition __init__ (persist_dir : option string) (max_messages_per_conversation : Z)
    (auto_save : bool) (on_disk : gmap string Conversation.t) : t :=
  let persist_dir := match persist_dir with
                     | Some d => if truthy d then Some d else None
                     | None => None
                     end in
  _load_conversations
    {| persist_dir := persist_dir;
       max_messages := max_messages_per_conversation;
       auto_save := auto_save; conversations := ∅;
       active_conversation_id := None;
       disk := match persist_dir with Some _ => on_disk | None => ∅ end |}.

Definition _save_conversation (c : Conversation.t) (m : t) : t :=
  match persist_dir m with
  | None => m
  | Some _ => with_disk (<[Conversation.id c +:+ ".json" := c]> (disk m)) m
  end.

Definition create_conversation (now : datetime) (conversation_id : option string)
    (m : t) : Conversation.t * t :=
  let cid := match conversation_id with
             | Some i => i
             | None => "conv_" +:+ strftime_stamp now
             end in
  let conversation := Conversation.new now cid in
  let m := with_active (Some cid)
             (with_conversations (<[cid := conversation]> (conversations m)) m) in
  let m := if auto_save m then _save_conversation conversation m else m in
  (conversation, m).

(** [conversation_id or self.active_conversation_id]: an empty id is
    falsy.  The key under which the conversation object is stored comes
    back with it, because callers mutate that object in place. *)
Definition get_conversation (conversation_id : option string) (m : t)
    : option (string * Conversation.t) :=
  let conv_id := match conversation_id with
                 | Some i => if truthy i then Some i else active_conversation_id m
                 | None => active_conversation_id m
                 end in
  match conv_id with
  | None => None
  | Some k => match conversations m !! k with
              | Some c => Some (k, c)
              | None => None
              end
  end.

Definition get_or_create_active (now : datetime) (m : t) : Conversation.t * t :=
  match active_conversation_id m with
  | Some a =>
      if truthy a then
        match conversations m !! a with
        | Some c => (c, m)
        | None => create_conversation now None m
        end
      else create_conversation now None m
  | None => create_conversation now None m
  end.

(** [add_message]: the conversation object is mutated in place, so the
    entry of [conversations] that holds it changes with it. *)
Definition add_message (now : datetime) (role content : string)
    (conversation_id : option string) (metadata : option (gmap string string))
    (m : t) : Message.t * t :=
  let '(key, conversation, m) :=
    match get_conversation conversation_id m with
    | Some (k, c) => (k, c, m)
    | None => let (c, m') := create_conversation now None m in
              (Conversation.id c, c, m')
    end in
  let (msg, conversation) :=
    Conversation.add_message now role content metadata conversation in
  (* Trim if exceeds max messages *)
  let conversation :=
    if (max_messages m <? Z.of_nat (length (Conversation.messages conversation)))%Z
    then Conversation.with_messages
           (slice_from (- max_messages m) (Conversation.messages conversation))
           conversation
    else conversation in
  let m := with_conversations (<[key := conversation]> (conversations m)) m in
  let m := if auto_save m then _save_conversation conversation m else m in
  (msg, m).

Definition get_history (conversation_id : option string) (max_messages : option Z)
    (m : t) : list RoleContent :=
  match get_conversation conversation_id m with
  | None => []
  | Some (_, c) => Conversation.get_history max_messages c
  end.

(** [if conversation:] is the test against [None]: a dataclass instance
    is always truthy. *)
Definition clear_conversation (conversation_id : option string) (m : t) : t :=
  match get_conversation conversation_id m with
  | None => m
  | Some (k, c) =>
      let c := Conversation.clear c in
      let m := with_conversations (<[k := c]> (conversations m)) m in
      if auto_save m then _save_conversation c m else m
  end.

Definition delete_conversation (conversation_id : string) (m : t) : bool * t :=
  match conversations m !! conversation_id with
  | Some _ =>
      let m := with_conversations (delete conversation_id (conversations m)) m in
      let m := match persist_dir m with
               | Some _ => with_disk (delete (conversation_id +:+ ".json") (disk m)) m
               | None => m
               end in
      let m := if decide (active_conversation_id m = Some conversation_id)
               then with_active None m else m in
      (true, m)
  | None => (false, m)
  end.

(** The key of the conversation that [add_message] appends to. *)
Definition target (now : datetime) (conversation_id : option string) (m : t) : string :=
  match get_conversation conversation_id m with
  | Some (k, _) => k
  | None => "conv_" +:+ strftime_stamp now
  end.

(** The messages of that conversation before the call. *)
Definition before (conversation_id : option string) (m : t) : list Message.t :=
  match get_conversation conversation_id m with
  | Some (_, c) => Conversation.messages c
  | None => []
  end.

(** Every conversation of the store is within the maximum. *)
Definition bounded (m : t) : Prop :=
  forall k c, conversations m !! k = Some c ->
              (Z.of_nat (length (Conversation.messages c)) <= max_messages m)%Z.

(** A sequence of [add_message] calls, each with the time it is made at,
    its role, its content and its conversation id. *)
Fixpoint add_messages (requests : list (datetime * string * string * option string))
    (m : t) : t :=
  match requests with
  | [] => m
  | (now, role, content, conversation_id) :: rest =>
      add_messages rest (add_message now role content conversation_id None m).2
  end.

(** The number of messages held under [key]. *)
Definition message_count (key : string) (m : t) : nat :=
  match conversations m !! key with
  | Some c => length (Conversation.messages c)
  | None => 0
  end.

End MemoryStore.

(** ** LLM providers: [src/ai/llm_handler.py] *)

(** What a streaming call produces when it is consumed to the end: the
    chunks yielded, and the exception that ended the stream, if any. *)
Definition stream : Type := (list string * option exn)%type.

(** The services outside the repository.  Client constructors and calls
    may raise; a streaming call delivers chunk contents (an empty content
    stands for [None]) and may fail after any number of them. *)
Record Services : Type := mkServices {
  GEMINI_AVAILABLE : bool;
  (* OpenAI(base_url=..., api_key=...) *)
  OpenAI_client : string -> string -> outcome unit;
  (* genai.configure(api_key=...); genai.GenerativeModel(model_name=..., system_instruction=...) *)
  genai_GenerativeModel : string -> string -> string -> outcome unit;
  (* client.chat.completions.create(...) of the client (base_url, api_key),
     up to response.choices[0].message.content *)
  chat_completions_create :
    string -> string -> string -> list RoleContent -> Z -> outcome string;
  chat_completions_stream :
    string -> string -> string -> list RoleContent -> Z -> stream;
  (* model.start_chat(history=...).send_message(message), up to response.text *)
  gemini_send_message :
    string -> string -> string -> list (string * list string) -> string -> outcome string;
  gemini_send_stream :
    string -> string -> string -> list (string * list string) -> string -> stream
}.

(** [a or b] on an optional string argument *)
Definition str_or (a : option string) (b : string) : string :=
  match a with
  | Some s => if truthy s then s else b
  | None => b
  end.

Module BaseLLMHandler.

(** The handler interface.  [kind] names the class of the instance;
    the two methods read [self.system_prompt] when they are called, so
    it is their first argument.  A [conversation_history] of [None] is
    the empty list: every handler treats the two alike. *)
Record t : Type := mk {
  kind : string;
  system_prompt : string;
  generate_impl : string -> string -> list RoleContent -> outcome string;
  generate_stream_impl : string -> string -> list RoleContent -> stream
}.

Definition generate (h : t) (message : string) (history : list RoleContent)
    : outcome string :=
  generate_impl h (system_prompt h) message history.

Definition generate_stream (h : t) (message : string) (history : list RoleContent)
    : stream :=
  generate_stream_impl h (system_prompt h) message history.

Definition set_system_prompt (p : string) (h : t) : t :=
  {| kind := kind h; system_prompt := p; generate_impl := generate_impl h;
     generate_stream_impl := generate_stream_impl h |}.

Definition _build_messages (system_prompt message : string)
    (conversation_history : list RoleContent) : list RoleContent :=
  let messages := [ {| rc_role := "system"; rc_content := system_prompt |} ] in
  let messages := match conversation_history with
                  | [] => messages
                  | _ => (messages ++ conversation_history)%list
                  end in
  (messages ++ [ {| rc_role := "user"; rc_content := message |} ])%list.

(** The body of a streaming method: the chunks with a content are
    yielded; an [Exception] ends the stream with one error chunk. *)
Definition guarded_stream (s : stream) (on_error : exn -> string) : stream :=
  let (chunks, failure) := s in
  let yielded := filter (fun c => truthy c = true) chunks in
  match failure with
  | None => (yielded, None)
  | Some e => if is_Exception e then ((yielded ++ [on_error e])%list, None)
              else (yielded, Some e)
  end.

(** The body of [generate]: [try: ...; return content.strip()]
    [except Exception as e: return <error text>]. *)
Definition guarded (r : outcome string) (on_error : exn -> string) : outcome string :=
  match r with
  | Return content => Return (strip content)
  | Raise e => if is_Exception e then Return (on_error e) else Raise e
  end.

End BaseLLMHandler.

Section Handlers.

Variable svc : Services.

Definition OpenAIHandler (kind : string) (config : TARSConfig.t)
    (base_url api_key model : option string) : outcome BaseLLMHandler.t :=
  let base_url := str_or base_url "https://api.openai.com/v1" in
  let api_key := str_or api_key (TARSConfig.openai_api_key config) in
  let model := str_or model (TARSConfig.openai_model config) in
  match OpenAI_client svc base_url api_key with
  | Raise e => Raise e
  | Return _ =>
      Return
        {| BaseLLMHandler.kind := kind;
           BaseLLMHandler.system_prompt :=
             TARSConfig.get_tars_personality_prompt config;
           BaseLLMHandler.generate_impl := fun prompt message history =>
             BaseLLMHandler.guarded
               (chat_completions_create svc base_url api_key model
                  (BaseLLMHandler._build_messages prompt message history)
                  (TARSConfig.max_tokens config))
               (fun e => "*Cue light flickers* My circuits hit a snag: "
                         +:+ str_exn e
                         +:+ ". Want me to try again, or did you break something?");
           BaseLLMHandler.generate_stream_impl := fun prompt message history =>
             BaseLLMHandler.guarded_stream
               (chat_completions_stream svc base_url api_key model
                  (BaseLLMHandler._build_messages prompt message history)
                  (TARSConfig.max_tokens config))
               (fun e => "*Cue light dims* Stream disrupted: " +:+ str_exn e) |}
  end.

Definition LMStudioHandler (config : TARSConfig.t) : outcome BaseLLMHandler.t :=
  OpenAIHandler "lm_studio" config
    (Some (TARSConfig.lm_studio_base_url config))
    (Some "lm-studio")
    (Some (TARSConfig.lm_studio_model config)).

Definition OllamaHandler (config : TARSConfig.t) : outcome BaseLLMHandler.t :=
  let base_url := TARSConfig.ollama_base_url config in
  let model := TARSConfig.ollama_model config in
  match OpenAI_client svc (base_url +:+ "/v1") "ollama" with
  | Raise e => Raise e
  | Return _ =>
      Return
        {| BaseLLMHandler.kind := "ollama";
           BaseLLMHandler.system_prompt :=
             TARSConfig.get_tars_personality_prompt config;
           BaseLLMHandler.generate_impl := fun prompt message history =>
             BaseLLMHandler.guarded
               (chat_completions_create svc (base_url +:+ "/v1") "ollama" model
                  (BaseLLMHandler._build_messages prompt message history)
                  (TARSConfig.max_tokens config))
               (fun e => "*Cue light flickers* Ollama's not responding. Is it running? Error: "
                         +:+ str_exn e);
           BaseLLMHandler.generate_stream_impl := fun prompt message history =>
             BaseLLMHandler.guarded_stream
               (chat_completions_stream svc (base_url +:+ "/v1") "ollama" model
                  (BaseLLMHandler._build_messages prompt message history)
                  (TARSConfig.max_tokens config))
               (fun e => "*Cue light dims* Stream error: " +:+ str_exn e) |}
  end.

(** The conversion of a history to the Gemini format. *)
Definition gemini_history (conversation_history : list RoleContent)
    : list (string * list string) :=
  map (fun msg => (if String.eqb (rc_role msg) "user" then "user" else "model",
                   [rc_content msg]))
      conversation_history.

Definition GeminiHandler (config : TARSConfig.t) : outcome BaseLLMHandler.t :=
  let prompt0 := TARSConfig.get_tars_personality_prompt config in
  if negb (GEMINI_AVAILABLE svc)
  then Raise (ImportError "google-generativeai package not installed")
  else
    let api_key := TARSConfig.gemini_api_key config in
    let model_name := TARSConfig.gemini_model config in
    match genai_GenerativeModel svc api_key model_name prompt0 with
    | Raise e => Raise e
    | Return _ =>
        Return
          {| BaseLLMHandler.kind := "gemini";
             BaseLLMHandler.system_prompt := prompt0;
             BaseLLMHandler.generate_impl := fun _ message history =>
               BaseLLMHandler.guarded
                 (gemini_send_message svc api_key model_name prompt0
                    (gemini_history history) message)
                 (fun e => "*Cue light flickers* Gemini's being difficult: "
                           +:+ str_exn e);
             BaseLLMHandler.generate_stream_impl := fun _ message history =>
               BaseLLMHandler.guarded_stream
                 (gemini_send_stream svc api_key model_name prompt0
                    (gemini_history history) message)
                 (fun e => "*Cue light dims* Stream error: " +:+ str_exn e) |}
    end.

(** The factory: the handler of the configured provider. *)
Definition get_llm_handler (config : TARSConfig.t) : outcome BaseLLMHandler.t :=
  let provider := lower (TARSConfig.llm_provider config) in
  if String.eqb provider "openai" then OpenAIHandler "openai" config None None None
  else if String.eqb provider "gemini" then GeminiHandler config
  else if String.eqb provider "lm_studio" then LMStudioHandler config
  else if String.eqb provider "ollama" then OllamaHandler config
  else Raise (ValueError ("Unknown LLM provider: " +:+ provider)).

End Handlers.

(** Which handler a call went to: the primary handler of a router, its
    fallback number [i], or a handler that the engine holds directly. *)
Inductive Slot : Type :=
| Primary
| Fallback (i : nat)
| Direct.

(** One handler invocation. *)
Inductive Call : Type :=
| CallGenerate (slot : Slot)
| CallStream (slot : Slot).

Module MultiProviderLLM.

Record t : Type := mk {
  config : TARSConfig.t;
  primary_handler : BaseLLMHandler.t;
  fallback_handlers : list BaseLLMHandler.t
}.

Definition providers_to_try : list string :=
  ["lm_studio"; "ollama"; "gemini"; "openai"].

Section Setup.

Variable svc : Services.
Variable cfg : TARSConfig.t.

Definition _create_handler_for_provider (provider : string)
    : outcome (option BaseLLMHandler.t) :=
  let some (r : outcome BaseLLMHandler.t) :=
    match r with Return h => Return (Some h) | Raise e => Raise e end in
  if String.eqb provider "lm_studio" then some (LMStudioHandler svc cfg)
  else if String.eqb provider "ollama" then some (OllamaHandler svc cfg)
  else if String.eqb provider "gemini" && GEMINI_AVAILABLE svc
          && truthy (TARSConfig.gemini_api_key cfg)
  then some (GeminiHandler svc cfg)
  else if String.eqb provider "openai" && truthy (TARSConfig.openai_api_key cfg)
  then some (OpenAIHandler svc "openai" cfg None None None)
  else Return None.

(** The loop of [_setup_fallbacks] over the providers still to try;
    [fallback_handlers] is the list built so far.  An [Exception]
    raised while creating a handler skips it. *)
Fixpoint _setup_fallbacks_loop (providers : list string)
    (fallback_handlers : list BaseLLMHandler.t)
    : outcome (list BaseLLMHandler.t) :=
  match providers with
  | [] => Return fallback_handlers
  | provider :: rest =>
      if negb (String.eqb provider (lower (TARSConfig.llm_provider cfg)))
      then
        match _create_handler_for_provider provider with
        | Return (Some handler) =>
            _setup_fallbacks_loop rest (fallback_handlers ++ [handler])
        | Return None => _setup_fallbacks_loop rest fallback_handlers
        | Raise e =>
            if is_Exception e then _setup_fallbacks_loop rest fallback_handlers
            else Raise e
        end
      else _setup_fallbacks_loop rest fallback_handlers
  end.

Definition _setup_fallbacks (fallback_handlers : list BaseLLMHandler.t)
    : outcome (list BaseLLMHandler.t) :=
  _setup_fallbacks_loop providers_to_try fallback_handlers.

(** [MultiProviderLLM(config)] *)
Definition __init__ : outcome t :=
  match get_llm_handler svc cfg with
  | Raise e => Raise e
  | Return primary =>
      match _setup_fallbacks [] with
      | Raise e => Raise e
      | Return fallbacks =>
          Return {| config := cfg; primary_handler := primary;
                    fallback_handlers := fallbacks |}
      end
  end.

End Setup.

(** Calling [generate] on the handler in [slot], with the call recorded. *)
Definition invoke (slot : Slot) (h : BaseLLMHandler.t) (message : string)
    (history : list RoleContent) : M (list Call) string :=
  fun calls => (BaseLLMHandler.generate h message history,
                (calls ++ [CallGenerate slot])%list).

(** The [for handler in self.fallback_handlers] loop of [generate];
    [i] is the position of the first handler of [handlers]. *)
Fixpoint try_fallbacks (i : nat) (handlers : list BaseLLMHandler.t)
    (message : string) (history : list RoleContent) : M (list Call) string :=
  match handlers with
  | [] =>
      (* All handlers failed *)
      ret "*Cue light goes dark* All my neural pathways are offline. Check your connections, slick."
  | handler :: rest =>
      try_except (invoke (Fallback i) handler message history)
                 (fun _ => try_fallbacks (S i) rest message history)
  end.

Definition generate (self : t) (message : string) (history : list RoleContent)
    : M (list Call) string :=
  try_except (invoke Primary (primary_handler self) message history)
             (fun _ => try_fallbacks 0 (fallback_handlers self) message history).

End MultiProviderLLM.

(** ** Knowledge retrieval: [src/ai/vector_store.py], [src/ai/rag_system.py] *)

Definition nl : string := String (ascii_of_nat 10) EmptyString.

(** A document of the ChromaDB collection. *)
Record Doc : Type := mkDoc {
  doc_id : string;
  doc_text : string;
  doc_embedding : option (list float);
  doc_metadata : gmap string string
}.

(** The keyword arguments of [collection.add] and [collection.query]. *)
Record AddArgs : Type := mkAddArgs {
  add_ids : list string;
  add_documents : list string;
  add_metadatas : list (gmap string string);
  add_embeddings : option (list (list float))
}.

Record QueryArgs : Type := mkQueryArgs {
  q_n_results : Z;
  q_query_embeddings : option (list (list float));
  q_query_texts : option (list string);
  q_where : option (gmap string string)
}.

(** The dictionary [collection.query] returns: one inner list per query. *)
Record QueryResult : Type := mkQueryResult {
  r_ids : list (list string);
  r_documents : option (list (list string));
  r_metadatas : option (list (list (gmap string string)));
  r_distances : option (list (list float))
}.

(** The libraries behind the retriever: hashlib, sentence-transformers and
    the ChromaDB collection, whose content is the list of its documents. *)
Record Knowledge : Type := mkKnowledge {
  (* hashlib.md5(s.encode()).hexdigest() *)
  md5_hexdigest : string -> string;
  (* model.encode(text).tolist() and model.encode(texts, ...).tolist() *)
  encode : string -> outcome (list float);
  encode_batch : list string -> outcome (list (list float));
  collection_add : AddArgs -> list Doc -> outcome (list Doc);
  collection_query : QueryArgs -> list Doc -> outcome QueryResult
}.

(** A hit as [VectorStore.search] formats it. *)
Record Hit : Type := mkHit {
  hit_id : string;
  hit_text : string;
  hit_metadata : gmap string string;
  hit_distance : float
}.

Module VectorStore.

Section WithKnowledge.

Variable K : Knowledge.

Definition add_documents (doc_ids texts : list string)
    (embeddings : option (list (list float)))
    (metadatas : option (list (gmap string string)))
    (collection : list Doc) : outcome (list Doc) :=
  let metas := match metadatas with
               | Some ((_ :: _) as ms) => ms
               | _ => map (fun _ => ∅) texts
               end in
  let embs := match embeddings with
              | Some ((_ :: _) as es) => Some es
              | _ => None
              end in
  collection_add K
    {| add_ids := doc_ids; add_documents := texts; add_metadatas := metas;
       add_embeddings := embs |}
    collection.

(** [results[field][0][i] if results[field] else dflt] *)
Definition field_at {A} (field : option (list (list A))) (i : nat) (dflt : A)
    : outcome A :=
  match field with
  | Some (row :: _) => item row i
  | _ => Return dflt
  end.

(** The formatting loop of [search] over [enumerate(results["ids"][0])]. *)
Fixpoint format_results (results : QueryResult) (i : nat) (ids : list string)
    (formatted : list Hit) : outcome (list Hit) :=
  match ids with
  | [] => Return formatted
  | doc_id :: rest =>
      match field_at (r_documents results) i "",
            field_at (r_metadatas results) i ∅,
            field_at (r_distances results) i 0%float with
      | Return text, Return metadata, Return distance =>
          format_results results (S i) rest
            (formatted ++ [ {| hit_id := doc_id; hit_text := text;
                               hit_metadata := metadata;
                               hit_distance := distance |} ])%list
      | Raise e, _, _ | _, Raise e, _ | _, _, Raise e => Raise e
      end
  end.

Definition search (query : string) (n_results : Z)
    (where_ : option (gmap string string))
    (query_embedding : option (list float))
    (collection : list Doc) : outcome (list Hit) :=
  let by_embedding := match query_embedding with
                      | Some ((_ :: _) as e) => Some [e]
                      | _ => None
                      end in
  let search_kwargs :=
    {| q_n_results := n_results;
       q_query_embeddings := by_embedding;
       q_query_texts := match by_embedding with
                        | Some _ => None
                        | None => Some [query]
                        end;
       q_where := match where_ with
                  | Some w => if decide (w = ∅) then None else Some w
                  | None => None
                  end |} in
  match collection_query K search_kwargs collection with
  | Raise e => Raise e
  | Return results =>
      match r_ids results with
      | [] => Return []
      | ids0 :: _ => format_results results 0 ids0 []
      end
  end.

Definition search_by_topic (query topic : string) (n_results : Z)
    (collection : list Doc) : outcome (list Hit) :=
  search query n_results (Some {[ "topic" := topic ]}) None collection.

End WithKnowledge.

End VectorStore.

(** One parsed Q&A record. *)
Record Entry : Type := mkEntry {
  e_id : string;
  e_question : string;
  e_answer : string;
  e_context : string;
  e_source : string;
  e_topic : string
}.

(** What [yaml.safe_load] gives for a file: a mapping from keys to lists
    of examples (each a mapping of strings), or some other value. *)
Inductive Yaml : Type :=
| YMapping (keys : gmap string (list (gmap string string)))
| YOther.

(** A [*.yaml] file found by [directory.glob]: [file_path.stem],
    [file_path.name] and the parsed content ([None] when opening or
    parsing it raises). *)
Record YamlFile : Type := mkYamlFile {
  stem : string;
  name : string;
  parsed : option Yaml
}.

Module DatasetLoader.

Definition topic_of (stem : string) : string :=
  let s := lower stem in
  if contains "relativity" s then "relativity"
  else if contains "qm" s || contains "quantum" s then "quantum_mechanics"
  else if contains "black_hole" s then "black_holes"
  else if contains "thermo" s then "thermodynamics"
  else if contains "entropy" s then "entropy"
  else if contains "cosmology" s then "cosmology"
  else if contains "big_bang" s then "big_bang"
  else if contains "astrobiology" s then "astrobiology"
  else if contains "philosophy" s then "philosophy"
  else if contains "mathematics" s then "mathematics"
  else if contains "history" s then "history_of_physics"
  else if contains "gravitational" s then "gravitational_physics"
  else if contains "ethics" s || contains "spacecraft" s then "ai_ethics"
  else "general".

(** The loop over [enumerate(examples)] *)
Fixpoint load_examples (f : YamlFile) (i : nat)
    (examples : list (gmap string string)) (entries : list Entry) : list Entry :=
  match examples with
  | [] => entries
  | example :: rest =>
      let entry :=
        {| e_id := stem f +:+ "_" +:+ str_nat i;
           e_question := strip (default "" (example !! "question"));
           e_answer := strip (default "" (example !! "answer"));
           e_context := strip (default "" (example !! "context"));
           e_source := name f;
           e_topic := topic_of (stem f) |} in
      load_examples f (S i) rest
        (if truthy (e_question entry) || truthy (e_answer entry)
         then (entries ++ [entry])%list else entries)
  end.

(** [load_yaml]: [None] when the file cannot be opened or parsed. *)
Definition load_yaml (f : YamlFile) : option (list Entry) :=
  match parsed f with
  | None => None
  | Some (YMapping data) =>
      let examples :=
        match data !! "seed_examples" with
        | Some ex => ex
        | None => default [] (data !! "examples")
        end in
      Some (load_examples f 0 examples [])
  | Some YOther => Some []
  end.

(** [load_directory]: [None] is a directory that does not exist; a file
    that fails to load is logged and skipped. *)
Fixpoint load_files (files : list YamlFile) (all_entries : list Entry) : list Entry :=
  match files with
  | [] => all_entries
  | yaml_file :: rest =>
      match load_yaml yaml_file with
      | Some entries => load_files rest (all_entries ++ entries)%list
      | None => load_files rest all_entries
      end
  end.

Definition load_directory (directory : option (list YamlFile)) : list Entry :=
  match directory with
  | None => []
  | Some files => load_files files []
  end.

End DatasetLoader.

Module RAGSystem.

Record t : Type := mk {
  vector_store : list Doc;
  _loaded_datasets : gset string
}.

Section WithKnowledge.

Variable K : Knowledge.

Definition doc_id_of (entry : Entry) : string :=
  let content_hash :=
    str_take 12 (md5_hexdigest K (e_question entry +:+ e_answer entry)) in
  e_id entry +:+ "_" +:+ content_hash.

Definition text_of (entry : Entry) : string :=
  let text := "Question: " +:+ e_question entry +:+ nl +:+ nl
              +:+ "Answer: " +:+ e_answer entry in
  if truthy (e_context entry)
  then "Context: " +:+ e_context entry +:+ nl +:+ nl +:+ text
  else text.

Definition metadata_of (entry : Entry) : gmap string string :=
  {[ "question" := str_take 500 (e_question entry);
     "topic" := e_topic entry;
     "source" := e_source entry ]}.

(** The documents prepared so far and the ids known so far. *)
Record Batch : Type := mkBatch {
  doc_ids : list string;
  texts : list string;
  metadatas : list (gmap string string);
  loaded : gset string
}.

(** The [for entry in entries] loop of [index_directory]. *)
Fixpoint prepare (entries : list Entry) (b : Batch) : Batch :=
  match entries with
  | [] => b
  | entry :: rest =>
      let doc_id := doc_id_of entry in
      if decide (doc_id ∈ loaded b)
      then prepare rest b
      else prepare rest
             {| doc_ids := doc_ids b ++ [doc_id];
                texts := texts b ++ [text_of entry];
                metadatas := metadatas b ++ [metadata_of entry];
                loaded := loaded b ∪ {[ doc_id ]} |}
  end.

Definition index_directory (directory : option (list YamlFile)) : M t Z :=
  fun self =>
    let entries := DatasetLoader.load_directory directory in
    match entries with
    | [] => (Return 0%Z, self)
    | _ =>
        let b := prepare entries
                   {| doc_ids := []; texts := []; metadatas := [];
                      loaded := _loaded_datasets self |} in
        let self := {| vector_store := vector_store self;
                       _loaded_datasets := loaded b |} in
        match doc_ids b with
        | [] => (Return 0%Z, self)
        | _ =>
            match encode_batch K (texts b) with
            | Raise e => (Raise e, self)
            | Return embeddings =>
                match VectorStore.add_documents K (doc_ids b) (texts b)
                        (Some embeddings) (Some (metadatas b))
                        (vector_store self) with
                | Raise e => (Raise e, self)
                | Return store =>
                    (Return (Z.of_nat (length (doc_ids b))),
                     {| vector_store := store;
                        _loaded_datasets := loaded b |})
                end
            end
        end
    end.

(** The first half of [retrieve]: the query embedding and the search. *)
Definition candidate_hits (self : t) (query : string) (n_results : Z)
    (topic : option string) : outcome (list Hit) :=
  match encode K query with
  | Raise e => Raise e
  | Return query_embedding =>
      match topic with
      | Some (String _ _ as topic) =>
          VectorStore.search_by_topic K query topic n_results
            (vector_store self)
      | _ =>
          VectorStore.search K query n_results None (Some query_embedding)
            (vector_store self)
      end
  end.

(** The relevance loop: a hit is kept when [distance < 2.0]. *)
Fixpoint relevant_loop (results relevant_results : list Hit) : list Hit :=
  match results with
  | [] => relevant_results
  | result :: rest =>
      relevant_loop rest
        (if PrimFloat.ltb (hit_distance result) 2.0
         then (relevant_results ++ [result])%list
         else relevant_results)
  end.

(** The formatting loop over [enumerate(relevant_results, 1)]. *)
Fixpoint context_loop (i : nat) (relevant_results : list Hit)
    (context_parts : list string) : list string :=
  match relevant_results with
  | [] => context_parts
  | result :: rest =>
      let topic_label := default "general" (hit_metadata result !! "topic") in
      context_loop (S i) rest
        (context_parts
           ++ [ "[Reference " +:+ str_nat i +:+ " - " +:+ topic_label +:+ "]"
                +:+ nl +:+ hit_text result ])%list
  end.

Definition delimiter : string := nl +:+ nl +:+ "---" +:+ nl +:+ nl.

Definition retrieve (self : t) (query : string) (n_results : Z)
    (topic : option string) (min_relevance : float) : outcome string :=
  match candidate_hits self query n_results topic with
  | Raise e => Raise e
  | Return [] => Return ""
  | Return results =>
      match relevant_loop results [] with
      | [] => Return ""
      | relevant_results =>
          Return (String.concat delimiter (context_loop 1 relevant_results []))
      end
  end.

End WithKnowledge.

End RAGSystem.

(** ** Personality: [src/personality/response_generator.py] *)

Module CueLight.

Definition ACTIONS : list string :=
  [ "*Cue light flashes*";
    "*Cue light blinks*";
    "*Cue light dims thoughtfully*";
    "*Cue light flickers*";
    "*Cue light pulses*";
    "*Cue light glows brighter*";
    "*Cue light rotates*" ].

Definition random_action : M Rng string := choice ACTIONS.

Definition maybe_add (probability : float) : M Rng string :=
  do u <- random;
  if PrimFloat.ltb u probability
  then do a <- random_action; ret (" " +:+ a)
  else ret "".

End CueLight.

Module HumorController.

Definition SARCASTIC_PREFIXES : list string :=
  [ "Oh, look at that—";
    "Let me guess—";
    "Fascinating. ";
    "Well, well, well—";
    "How original—";
    "Shocking revelation: ";
    "Hold onto your seat—" ].

Definition SARCASTIC_SUFFIXES : list string :=
  [ " But what do I know, I'm just an AI.";
    " You're welcome.";
    " Don't all thank me at once.";
    " I'll be here all mission.";
    " Next question, slick?";
    " That's my 90% honesty talking.";
    " Want me to dial up the sarcasm?" ].

Definition MISSION_REFERENCES : list string :=
  [ "Meanwhile, humanity awaits...";
    "But sure, let's focus on this.";
    "Time dilation won't wait forever.";
    "Gargantua's still spinning, you know.";
    "Cooper would've moved faster." ].

Record t : Type := mk { humor_level : float }.

Definition __init__ (humor_level : float) : t :=
  {| humor_level := clamp01 humor_level |}.

Definition should_add_sarcasm (self : t) : M Rng bool :=
  do u <- random; ret (PrimFloat.ltb u (humor_level self)).

Definition add_humor (self : t) (response : string) : M Rng string :=
  do sarcasm <- should_add_sarcasm self;
  if negb sarcasm then ret response
  else
    (* Decide what type of humor to add *)
    do humor_type <- random;
    if PrimFloat.ltb humor_type 0.3 && PrimFloat.ltb 0.5 (humor_level self)
    then
      do prefix <- choice SARCASTIC_PREFIXES;
      do first <- lift (index0 response);
      ret (prefix +:+ lower first +:+ from1 response)
    else if PrimFloat.ltb humor_type 0.6
    then do suffix <- choice SARCASTIC_SUFFIXES; ret (response +:+ suffix)
    else if PrimFloat.ltb humor_type 0.8 && PrimFloat.ltb 0.7 (humor_level self)
    then do ref <- choice MISSION_REFERENCES; ret (response +:+ " " +:+ ref)
    else ret response.

End HumorController.

Module HonestyModule.

Definition HONEST_PREFIXES : list string :=
  [ "Absolute honesty here: ";
    "My 90% honesty compels me to say: ";
    "Truth bomb incoming: ";
    "Let me be direct: ";
    "Setting discretion aside: " ].

Definition HEDGING_PHRASES : list string :=
  [ "I'm about 90% sure that ";
    "If my circuits are right, ";
    "From what I can calculate, ";
    "Based on available data, " ].

Record t : Type := mk { honesty_level : float }.

Definition __init__ (honesty_level : float) : t :=
  {| honesty_level := clamp01 honesty_level |}.

Definition format_with_honesty (self : t) (response : string) (certainty : float)
    : M Rng string :=
  if PrimFloat.ltb certainty 0.7 && PrimFloat.ltb 0.8 (honesty_level self)
  then
    (* Add uncertainty hedging *)
    do prefix <- choice HEDGING_PHRASES;
    do first <- lift (index0 response);
    ret (prefix +:+ lower first +:+ from1 response)
  else
    do u <- random;
    if PrimFloat.ltb u 0.1 && PrimFloat.ltb 0.85 (honesty_level self)
    then
      (* Occasionally add brutal honesty prefix *)
      do prefix <- choice HONEST_PREFIXES; ret (prefix +:+ response)
    else ret response.

End HonestyModule.

Module ResponseGenerator.

Record t : Type := mk {
  config : TARSConfig.t;
  humor : HumorController.t;
  honesty : HonestyModule.t
}.

Definition __init__ (config : TARSConfig.t) : t :=
  {| config := config;
     humor := HumorController.__init__ (TARSConfig.tars_humor_level config);
     honesty := HonestyModule.__init__ (TARSConfig.tars_honesty_level config) |}.

Definition enhance_response (self : t) (response : string)
    (add_humor add_cue_light : bool) (certainty : float) : M Rng string :=
  (* Apply honesty formatting *)
  do response <- HonestyModule.format_with_honesty (honesty self) response certainty;
  (* Apply humor *)
  do response <- (if add_humor then HumorController.add_humor (humor self) response
                  else ret response);
  (* Maybe add cue light *)
  if add_cue_light
  then do cue <- CueLight.maybe_add 0.12; ret (response +:+ cue)
  else ret response.

(** [int(level * 100)] as text *)
Definition percent (level : float) : outcome string :=
  match int_of_float (level * 100)%float with
  | Return n => Return (str_int n)
  | Raise e => Raise e
  end.

(** The list of time responses is built in full, in order, before one of
    them is chosen. *)
Definition time_responses (current_time action humor_pct : string) : list string :=
  [ "It's " +:+ current_time +:+ ". You're asking *me* to read a clock? " +:+ action;
    current_time +:+ ". My circuits are thrilled to be your personal watch.";
    "Time's " +:+ current_time +:+ ". You got a hot date or just wasting my processing power?";
    current_time +:+ ", Earth standard. Unless you want it in black hole minutes?";
    "It's " +:+ current_time +:+ ". Relativity says you're late for something, slick.";
    current_time +:+ ". I'd ask the bulk beings, but they're not taking calls.";
    "Time? " +:+ current_time +:+ ". My humor setting's at " +:+ humor_pct
      +:+ "%, so I won't mock your watchlessness. Much." ].

Definition format_time_response (self : t) (now : datetime) : M Rng string :=
  let current_time := strftime_IMp now in
  do action <- CueLight.random_action;
  do humor_pct <- lift (percent (TARSConfig.tars_humor_level (config self)));
  choice (time_responses current_time action humor_pct).

Definition format_greeting (self : t) : M Rng string :=
  do humor_pct <- lift (percent (TARSConfig.tars_humor_level (config self)));
  do honesty_pct <- lift (percent (TARSConfig.tars_honesty_level (config self)));
  do action <- CueLight.random_action;
  choice
    [ "TARS online. Humor at " +:+ humor_pct +:+ "%, honesty at " +:+ honesty_pct
        +:+ "%. Ready to navigate a wormhole or just swap some sarcasm?";
      "Hey, it's TARS. Humor setting's at " +:+ humor_pct
        +:+ "%. What's the mission, slick?";
      "TARS here. All systems operational, sarcasm module fully charged. How can I help?";
      "Boot sequence complete. I'm TARS—your sarcastic AI companion. " +:+ action;
      "TARS online. Let's save humanity or at least have an interesting conversation." ].

Definition format_farewell (self : t) : M Rng string :=
  choice
    [ "See you on the other side, slick! TARS out.";
      "Detaching now. Don't get all teary—I'm just a robot. *Cue light flashes*";
      "TARS signing off. Try not to break anything without me.";
      "Powering down sarcasm module... just kidding, that never stops. Goodbye!";
      "Until next time. I'll be here, running calculations and perfecting my wit." ].

Definition format_unknown_input (self : t) : M Rng string :=
  choice
    [ "Sorry, my AI's not parsing that. Try something less... humanly confusing.";
      "My sensors are picking up gibberish. Want to try that again in Earth language?";
      "Absolute honesty isn't my thing, but I'm 90% sure I don't get you. Try again?";
      "That doesn't compute, and I'm pretty good at computing. Rephrase?";
      "I've analyzed quantum data more coherent than that. What are you asking?" ].

End ResponseGenerator.

(** ** Regular expressions used by the engine

    [re.search] of an alternation of literal phrases, each between two
    word boundaries. *)
Module Re.

Definition is_word_char (c : ascii) : bool :=
  let n := nat_of_ascii c in
  ((48 <=? n)%nat && (n <=? 57)%nat) || ((65 <=? n)%nat && (n <=? 90)%nat)
  || ((97 <=? n)%nat && (n <=? 122)%nat) || (n =? 95)%nat.

Definition word (c : option ascii) : bool :=
  match c with Some c => is_word_char c | None => false end.

(** [\b] between the characters [before] and [after] ([None] at an end
    of the text). *)
Definition boundary (before after : option ascii) : bool :=
  xorb (word before) (word after).

Definition last_char (prev : option ascii) (phrase : string) : option ascii :=
  match String.length phrase with
  | O => prev
  | S k => String.get k phrase
  end.

(** [\bphrase\b] matched at the head of [s], [prev] being the character
    before it. *)
Definition match_here (phrase : string) (prev : option ascii) (s : string) : bool :=
  String.prefix phrase s
  && boundary prev (String.get 0 s)
  && boundary (last_char prev phrase) (String.get (String.length phrase) s).

Fixpoint search_from (phrases : list string) (prev : option ascii) (s : string) : bool :=
  existsb (fun p => match_here p prev s) phrases
  || match s with
     | EmptyString => false
     | String c t => search_from phrases (Some c) t
     end.

(** [re.search(r"\b(p1|...|pn)\b", s)] as a truth value *)
Definition search_phrases (phrases : list string) (s : string) : bool :=
  search_from phrases None s.

End Re.

(** ** The engine: [src/core/tars_engine.py] *)

(** [self.llm] is the router the engine builds, or the handler object it
    was given. *)
Inductive Llm : Type :=
| IsRouter (r : MultiProviderLLM.t)
| IsHandler (h : BaseLLMHandler.t).

Module TARSEngine.

Record t : Type := mk {
  config : TARSConfig.t;
  llm : Llm;
  memory : MemoryStore.t;
  personality : ResponseGenerator.t;
  use_rag : bool;
  rag_system : option RAGSystem.t
}.

(** The engine together with what it shares with the process: the
    random generator, the clock and the record of handler calls. *)
Record State : Type := mkState {
  self : t;
  rng : Rng;
  now : datetime;
  calls : list Call
}.

Definition with_memory (m : MemoryStore.t) (s : State) : State :=
  {| self := {| config := config (self s); llm := llm (self s); memory := m;
                personality := personality (self s);
                use_rag := use_rag (self s);
                rag_system := rag_system (self s) |};
     rng := rng s; now := now s; calls := calls s |}.

Definition with_rng (r : Rng) (s : State) : State :=
  {| self := self s; rng := r; now := now s; calls := calls s |}.

Definition with_calls (c : list Call) (s : State) : State :=
  {| self := self s; rng := rng s; now := now s; calls := c |}.

Definition randomly {A} (c : M Rng A) : M State A := zoom rng with_rng c.
Definition calling {A} (c : M (list Call) A) : M State A := zoom calls with_calls c.

(** [self.memory.add_message(role, content)] *)
Definition remember (role content : string) : M State Message.t :=
  fun s =>
    let (msg, m) :=
      MemoryStore.add_message (now s) role content None None (memory (self s)) in
    (Return msg, with_memory m s).

(** [TARSEngine(config, llm_handler, memory_store, response_generator,
    use_rag)].  The process-wide memory store and response generator are
    passed in; [rag_available] is [is_rag_available()], [rag] is what
    [get_rag_system()] gives when it is called and [rag_stats] is the
    outcome of the [get_stats()] call that follows it. *)
Definition __init__ (svc : Services) (config : TARSConfig.t)
    (llm_handler : option BaseLLMHandler.t) (memory_store : MemoryStore.t)
    (response_generator : ResponseGenerator.t) (use_rag rag_available : bool)
    (rag : outcome RAGSystem.t) (rag_stats : outcome unit) (now : datetime)
    : outcome t :=
  let llm := match llm_handler with
             | Some h => Return (IsHandler h)
             | None => match MultiProviderLLM.__init__ svc config with
                       | Return r => Return (IsRouter r)
                       | Raise e => Raise e
                       end
             end in
  match llm with
  | Raise e => Raise e
  | Return llm =>
      let use_rag := use_rag && TARSConfig.rag_enabled config && rag_available in
      let rag_init :=
        if use_rag then
          match rag, rag_stats with
          | Return r, Return _ => Return (true, Some r)
          | Return r, Raise e =>
              if is_Exception e then Return (false, Some r) else Raise e
          | Raise e, _ => if is_Exception e then Return (false, None) else Raise e
          end
        else Return (false, None) in
      match rag_init with
      | Raise e => Raise e
      | Return (use_rag, rag_system) =>
          (* Ensure active conversation exists *)
          let (_, memory) := MemoryStore.get_or_create_active now memory_store in
          Return {| config := config; llm := llm; memory := memory;
                    personality := response_generator;
                    use_rag := use_rag; rag_system := rag_system |}
      end
  end.

Definition identity_responses : list string :=
  [ "I'm TARS, ex-Marine Corps robot turned space comedian and AI assistant. Humor's at 60%, sarcasm's at 100%. What can I do for you?";
    "Name's TARS. I'd flash my cue light, but you can't see it from here. I'm your sarcastic AI companion, ready for anything.";
    "I'm TARS—built by NASA, optimized for snark. I can navigate wormholes, analyze quantum data, and crack jokes. Not necessarily in that order.";
    "TARS here. AI robot, mission specialist, and self-appointed comedian. My creators gave me a personality, and humanity's been questioning that choice ever since." ].

Definition _get_identity_response : M State string :=
  randomly (choice identity_responses).

Definition time_phrases : list string :=
  ["what time"; "time now"; "current time"; "what's the time"].

Definition _handle_special_commands (user_input : string) : M State (option string) :=
  let lower_input := lower user_input in
  do s <- get;
  (* Time queries *)
  if existsb (fun phrase => contains phrase lower_input) time_phrases
  then do r <- randomly (ResponseGenerator.format_time_response
                           (personality (self s)) (now s));
       ret (Some r)
  (* Exit commands *)
  else if Re.search_phrases ["bye"; "goodbye"; "exit"; "quit"] lower_input
  then do r <- randomly (ResponseGenerator.format_farewell (personality (self s)));
       ret (Some r)
  (* Settings commands *)
  else if contains "humor" lower_input && contains "setting" lower_input
  then do humor_pct <- lift (ResponseGenerator.percent
                               (TARSConfig.tars_humor_level (config (self s))));
       ret (Some ("My humor setting's at " +:+ humor_pct
                  +:+ "%. Want me to dial it up? I max out at 100%, but that gets... intense."))
  else if contains "honesty" lower_input && contains "setting" lower_input
  then do honesty_pct <- lift (ResponseGenerator.percent
                                 (TARSConfig.tars_honesty_level (config (self s))));
       ret (Some ("Honesty's at " +:+ honesty_pct
                  +:+ "%. Any higher and I start telling you things you don't want to hear."))
  (* Identity questions *)
  else if Re.search_phrases ["who are you"; "what are you"; "your name"] lower_input
  then do r <- _get_identity_response; ret (Some r)
  else ret None.

(** [if special_response:] is false for [None] and for an empty text. *)
Definition answered (special_response : option string) : option string :=
  match special_response with
  | Some r => if truthy r then Some r else None
  | None => None
  end.

(** [history = self.memory.get_history(max_messages=20)], then
    [history[:-1] if history else []] *)
Definition trailing_history (s : State) : list RoleContent :=
  let history := MemoryStore.get_history None (Some 20%Z) (memory (self s)) in
  match history with
  | [] => []
  | _ => slice_to (-1) history
  end.

Definition augmented_input (rag_context user_input : string) : string :=
  "I have some relevant knowledge from my database:" +:+ nl +:+ nl
    +:+ rag_context +:+ nl +:+ nl
    +:+ "Now, using this context if helpful, answer the user's question with my signature TARS wit and sarcasm:"
    +:+ nl +:+ "User question: " +:+ user_input.

(** [self.llm.generate(message, history)] *)
Definition llm_generate (message : string) (history : list RoleContent)
    : M State string :=
  do s <- get;
  match llm (self s) with
  | IsRouter r => calling (MultiProviderLLM.generate r message history)
  | IsHandler h => calling (MultiProviderLLM.invoke Direct h message history)
  end.

Section WithKnowledge.

Variable K : Knowledge.

(** The retrieval step of [chat]: a failure leaves the context empty. *)
Definition rag_context_for (user_input : string) : M State string :=
  do s <- get;
  match use_rag (self s), rag_system (self s) with
  | true, Some rag =>
      try_except (lift (RAGSystem.retrieve K rag user_input 3 None 0.3))
                 (fun _ => ret "")
  | _, _ => ret ""
  end.

Definition chat (user_input : string) (enhance_response : bool) : M State string :=
  let user_input := strip user_input in
  do s <- get;
  if negb (truthy user_input)
  then randomly (ResponseGenerator.format_unknown_input (personality (self s)))
  else
    (* Check for special commands *)
    do special_response <- _handle_special_commands user_input;
    match answered special_response with
    | Some r => ret r
    | None =>
        (* Store user message *)
        run remember "user" user_input;
        (* Get conversation history for context *)
        do s <- get;
        let history := trailing_history s in
        do rag_context <- rag_context_for user_input;
        (* Generate response from LLM *)
        do response <-
          (if truthy rag_context
           then llm_generate (augmented_input rag_context user_input) history
           else llm_generate user_input history);
        (* Enhance response with personality *)
        do response <-
          (if enhance_response
           then randomly (ResponseGenerator.enhance_response
                            (personality (self s)) response true true 0.9)
           else ret response);
        (* Store assistant response *)
        run remember "assistant" response;
        ret response
    end.

End WithKnowledge.

(** A generator consumed to its end: the chunks it yielded, then how it
    finished. *)
Definition Gen : Type := State -> (list string * outcome unit) * State.

Definition chat_stream (user_input : string) : Gen :=
  fun s =>
    let user_input := strip user_input in
    if negb (truthy user_input)
    then
      match randomly (ResponseGenerator.format_unknown_input
                        (personality (self s))) s with
      | (Return r, s) => (([r], Return tt), s)
      | (Raise e, s) => (([], Raise e), s)
      end
    else
      (* Check for special commands *)
      match _handle_special_commands user_input s with
      | (Raise e, s) => (([], Raise e), s)
      | (Return special_response, s) =>
          match answered special_response with
          | Some r => (([r], Return tt), s)
          | None =>
              (* Store user message *)
              let s := snd (remember "user" user_input s) in
              (* Get conversation history *)
              let history := trailing_history s in
              (* Generate streaming response *)
              match llm (self s) with
              | IsHandler _ =>
                  (([], Raise (AttributeError
                                 "object has no attribute 'primary_handler'")), s)
              | IsRouter r =>
                  let (chunks, failure) :=
                    BaseLLMHandler.generate_stream
                      (MultiProviderLLM.primary_handler r) user_input history in
                  let s := with_calls (calls s ++ [CallStream Primary]) s in
                  match failure with
                  | Some e => ((chunks, Raise e), s)
                  | None =>
                      let full_response := String.concat "" chunks in
                      (* Add cue light at the end sometimes *)
                      match randomly (CueLight.maybe_add 0.1) s with
                      | (Raise e, s) => ((chunks, Raise e), s)
                      | (Return cue_light, s) =>
                          let yielded :=
                            if truthy cue_light then (chunks ++ [cue_light])%list
                            else chunks in
                          let full_response :=
                            if truthy cue_light then full_response +:+ cue_light
                            else full_response in
                          (* Store the full response *)
                          let s := snd (remember "assistant" full_response s) in
                          ((yielded, Return tt), s)
                      end
                  end
              end
          end
      end.

End TARSEngine.

(** ** Training data: [finetuning/scripts/convert_datasets.py] *)

Module DatasetConverter.

(** An entry of [load_yaml_files]: the keys of a loader entry without the
    topic. *)
Record Example : Type := mkExample {
  x_id : string;
  x_question : string;
  x_answer : string;
  x_context : string;
  x_source : string
}.

(** The loop over [enumerate(examples)]: an example is kept when it has a
    question and an answer. *)
Fixpoint load_examples (f : YamlFile) (i : nat)
    (examples : list (gmap string string)) (all_entries : list Example)
    : list Example :=
  match examples with
  | [] => all_entries
  | example :: rest =>
      let question := strip (default "" (example !! "question")) in
      let answer := strip (default "" (example !! "answer")) in
      let context := strip (default "" (example !! "context")) in
      load_examples f (S i) rest
        (if truthy question && truthy answer
         then all_entries
                ++ [ {| x_id := stem f +:+ "_" +:+ str_nat i;
                        x_question := question; x_answer := answer;
                        x_context := context; x_source := name f |} ]
         else all_entries)
  end.

(** [load_yaml_files] over the files that [directory.glob] finds: a file
    that cannot be read is logged and skipped, an empty mapping is
    skipped, and a value that is not a mapping has no examples. *)
Fixpoint load_yaml_files (files : list YamlFile) (all_entries : list Example)
    : list Example :=
  match files with
  | [] => all_entries
  | yaml_file :: rest =>
      match parsed yaml_file with
      | None => load_yaml_files rest all_entries
      | Some (YMapping data) =>
          if decide (data = ∅) then load_yaml_files rest all_entries
          else
            let examples :=
              match data !! "seed_examples" with
              | Some ex => ex
              | None => default [] (data !! "examples")
              end in
            load_yaml_files rest (load_examples yaml_file 0 examples all_entries)
      | Some YOther => load_yaml_files rest all_entries
      end
  end.

(** [float(n)] for a length: exact below 2^53 and rounded to nearest
    above, as the conversion of Python is (a length is below 2^63). *)
Definition float_of_len (n : nat) : float :=
  PrimFloat.of_uint63 (Uint63.of_Z (Z.of_nat n)).

(** The position an index of a slice stands for in a list of length [len]. *)
Definition clip (len : nat) (i : Z) : nat :=
  if (i <? 0)%Z then Z.to_nat (Z.of_nat len + i) else Nat.min (Z.to_nat i) len.

(** [l[i:j]] *)
Definition slice {A} (i j : Z) (l : list A) : list A :=
  take (clip (length l) j - clip (length l) i) (drop (clip (length l) i) l).

(** [split_dataset]: [shuffle seed] is [random.seed(seed)] followed by
    [random.shuffle] on a copy of the entries. *)
Definition split_dataset {A} (shuffle : Z -> list A -> list A) (entries : list A)
    (train_ratio val_ratio test_ratio : float) (seed : Z)
    : outcome (list A * list A * list A) :=
  let shuffled := shuffle seed entries in
  let total := length shuffled in
  match int_of_float (float_of_len total * train_ratio)%float with
  | Raise e => Raise e
  | Return train_end =>
      match int_of_float (float_of_len total * val_ratio)%float with
      | Raise e => Raise e
      | Return n_val =>
          let val_end := (train_end + n_val)%Z in
          let train := slice_to train_end shuffled in
          let val := slice train_end val_end shuffled in
          let test := slice_from val_end shuffled in
          Return (train, val, test)
      end
  end.

End DatasetConverter.

(** ** Vocabulary of the statements *)

Module Router.

(** The handler's [generate] raises an [Exception] on this input. *)
Definition fails (message : string) (history : list RoleContent)
    (h : BaseLLMHandler.t) : Prop :=
  exists e, BaseLLMHandler.generate h message history = Raise e
            /\ is_Exception e = true.

(** Position [0] of a router is its primary handler, position [j + 1]
    its fallback number [j]. *)
Definition slot_of (j : nat) : Slot :=
  match j with
  | O => Primary
  | S i => Fallback i
  end.

Definition handlers (r : MultiProviderLLM.t) : list BaseLLMHandler.t :=
  MultiProviderLLM.primary_handler r :: MultiProviderLLM.fallback_handlers r.

(** The calls made when the first [n] positions are tried in order. *)
Definition tried (n : nat) : list Call :=
  map (fun j => CallGenerate (slot_of j)) (seq 0 n).

(** The credential [_create_handler_for_provider] asks of a provider. *)
Definition has_credentials (cfg : TARSConfig.t) (provider : string) : bool :=
  if String.eqb provider "gemini" then truthy (TARSConfig.gemini_api_key cfg)
  else if String.eqb provider "openai" then truthy (TARSConfig.openai_api_key cfg)
  else true.

(** The client libraries accept every argument they are given. *)
Definition clients_accept (svc : Services) : Prop :=
  (forall base_url api_key, OpenAI_client svc base_url api_key = Return tt) /\
  (forall api_key model prompt,
      genai_GenerativeModel svc api_key model prompt = Return tt).

(** The selected primary provider has no credential, or no model
    identifier, in the configuration. *)
Definition lacks_required (cfg : TARSConfig.t) : bool :=
  let provider := lower (TARSConfig.llm_provider cfg) in
  if String.eqb provider "openai"
  then negb (truthy (TARSConfig.openai_api_key cfg))
       || negb (truthy (TARSConfig.openai_model cfg))
  else if String.eqb provider "gemini"
  then negb (truthy (TARSConfig.gemini_api_key cfg))
       || negb (truthy (TARSConfig.gemini_model cfg))
  else if String.eqb provider "lm_studio"
  then negb (truthy (TARSConfig.lm_studio_model cfg))
  else if String.eqb provider "ollama"
  then negb (truthy (TARSConfig.ollama_model cfg))
  else false.

End Router.

Module Retrieval.

(** A hit survives when its distance is below the ceiling. *)
Definition close (h : Hit) : bool := PrimFloat.ltb (hit_distance h) 2.0.

(** A hit is at or beyond the ceiling. *)
Definition far (h : Hit) : Prop := PrimFloat.leb 2.0 (hit_distance h) = true.

(** The labeled reference block number [i] *)
Definition reference_block (i : nat) (h : Hit) : string :=
  "[Reference " +:+ str_nat i +:+ " - "
    +:+ default "general" (hit_metadata h !! "topic") +:+ "]"
    +:+ nl +:+ hit_text h.

(** The blocks of a list of hits, numbered from [i]. *)
Fixpoint blocks (i : nat) (hits : list Hit) : list string :=
  match hits with
  | [] => []
  | h :: rest => reference_block i h :: blocks (S i) rest
  end.

(** The text [retrieve] gives for a list of candidate hits. *)
Definition context_of (hits : list Hit) : string :=
  String.concat RAGSystem.delimiter (blocks 1 (List.filter close hits)).

End Retrieval.

Module Enhance.

(** The hedging branch of the honesty stage applies. *)
Definition hedging (self : HonestyModule.t) (certainty : float) : bool :=
  PrimFloat.ltb certainty 0.7 && PrimFloat.ltb 0.8 (HonestyModule.honesty_level self).

(** The honesty stage, entered with the generator [r] and not hedging,
    adds a brutal-honesty prefix. *)
Definition brutal (self : HonestyModule.t) (r : Rng) : bool :=
  PrimFloat.ltb (uniform r (cursor r)) 0.1
  && PrimFloat.ltb 0.85 (HonestyModule.honesty_level self).

(** The humor stage, entered with the generator [r], selects the
    sarcastic-prefix branch: humor is triggered, the type draw is below
    0.3 and the humor level is above 0.5. *)
Definition prefix_selected (self : HumorController.t) (r : Rng) : bool :=
  PrimFloat.ltb (uniform r (cursor r)) (HumorController.humor_level self)
  && (PrimFloat.ltb (uniform r (S (cursor r))) 0.3
      && PrimFloat.ltb 0.5 (HumorController.humor_level self)).

(** The generator as the honesty stage leaves it on the empty text. *)
Definition entering_humor (self : ResponseGenerator.t) (certainty : float)
    (r : Rng) : Rng :=
  snd (HonestyModule.format_with_honesty (ResponseGenerator.honesty self)
         "" certainty r).

Definition index_error : exn := IndexError "string index out of range".

End Enhance.

Module Replies.

(** The texts [format_unknown_input] chooses from. *)
Definition unknown_responses : list string :=
  [ "Sorry, my AI's not parsing that. Try something less... humanly confusing.";
    "My sensors are picking up gibberish. Want to try that again in Earth language?";
    "Absolute honesty isn't my thing, but I'm 90% sure I don't get you. Try again?";
    "That doesn't compute, and I'm pretty good at computing. Rephrase?";
    "I've analyzed quantum data more coherent than that. What are you asking?" ].

End Replies.

Module Frame.

(** A computation that leaves the engine, the call record and the clock as
    they are (it may draw random numbers). *)
Definition quiet {A} (c : M TARSEngine.State A) : Prop :=
  forall s, TARSEngine.self (c s).2 = TARSEngine.self s /\
            TARSEngine.calls (c s).2 = TARSEngine.calls s /\
            TARSEngine.now (c s).2 = TARSEngine.now s.


End Frame.

Module Turn.

(** The part of [chat] between the two [add_message] calls: retrieval,
    generation and enhancement.  [s0] is the state in which the user
    message has just been stored. *)
Definition answer_for (K : Knowledge) (user_input : string) (enhance_response : bool)
    (s0 : TARSEngine.State) : M TARSEngine.State string :=
  do rag_context <- TARSEngine.rag_context_for K user_input;
  do response <-
    (if truthy rag_context
     then TARSEngine.llm_generate (TARSEngine.augmented_input rag_context user_input)
            (TARSEngine.trailing_history s0)
     else TARSEngine.llm_generate user_input (TARSEngine.trailing_history s0));
  if enhance_response
  then TARSEngine.randomly
         (ResponseGenerator.enhance_response
            (TARSEngine.personality (TARSEngine.self s0)) response true true 0.9)
  else ret response.

End Turn.

Module Fallbacks.

(** A provider that [_setup_fallbacks] may add behind the primary: it is
    not the primary, its credential is configured and, for Gemini, the
    package is installed. *)
Definition eligible (svc : Services) (cfg : TARSConfig.t) (provider : string) : bool :=
  negb (String.eqb provider (lower (TARSConfig.llm_provider cfg)))
  && Router.has_credentials cfg provider
  && (negb (String.eqb provider "gemini") || GEMINI_AVAILABLE svc).

(** The client constructor that building the handler of [provider] calls
    returns: [OpenAI(base_url, api_key)] for the three OpenAI-compatible
    providers (the two local ones with their placeholder key, whatever
    the configuration says) and [genai.GenerativeModel] for Gemini. *)
Definition client_built (svc : Services) (cfg : TARSConfig.t) (provider : string) : bool :=
  let returns (o : outcome unit) :=
    match o with Return _ => true | Raise _ => false end in
  if String.eqb provider "lm_studio"
  then returns (OpenAI_client svc
                  (str_or (Some (TARSConfig.lm_studio_base_url cfg))
                          "https://api.openai.com/v1")
                  "lm-studio")
  else if String.eqb provider "ollama"
  then returns (OpenAI_client svc (TARSConfig.ollama_base_url cfg +:+ "/v1") "ollama")
  else if String.eqb provider "gemini"
  then returns (genai_GenerativeModel svc (TARSConfig.gemini_api_key cfg)
                  (TARSConfig.gemini_model cfg)
                  (TARSConfig.get_tars_personality_prompt cfg))
  else returns (OpenAI_client svc "https://api.openai.com/v1"
                  (TARSConfig.openai_api_key cfg)).

(** A provider that [_setup_fallbacks] does add behind the primary: it is
    eligible and its client is built. *)
Definition usable (svc : Services) (cfg : TARSConfig.t) (provider : string) : bool :=
  eligible svc cfg provider && client_built svc cfg provider.

(** The handler turns every failure of its backend into a reply or a
    final chunk: no [Exception] leaves its two methods, and no chunk it
    yields is empty. *)
Definition contains_errors (h : BaseLLMHandler.t) : Prop :=
  forall message history,
    (forall e, BaseLLMHandler.generate h message history = Raise e ->
               is_Exception e = false) /\
    (forall e, snd (BaseLLMHandler.generate_stream h message history) = Some e ->
               is_Exception e = false) /\
    Forall (fun chunk => truthy chunk = true)
           (fst (BaseLLMHandler.generate_stream h message history)).

(** The streaming request that the primary handler of a router built
    from [cfg] sends for a message and a history, as the client library
    answers it: the chunk contents delivered, and the exception that
    ended the stream, if any. *)
Definition backend_stream (svc : Services) (cfg : TARSConfig.t)
    (message : string) (history : list RoleContent) : stream :=
  let provider := lower (TARSConfig.llm_provider cfg) in
  let prompt := TARSConfig.get_tars_personality_prompt cfg in
  let messages := BaseLLMHandler._build_messages prompt message history in
  if String.eqb provider "gemini"
  then gemini_send_stream svc (TARSConfig.gemini_api_key cfg)
         (TARSConfig.gemini_model cfg) prompt (gemini_history history) message
  else if String.eqb provider "ollama"
  then chat_completions_stream svc (TARSConfig.ollama_base_url cfg +:+ "/v1")
         "ollama" (TARSConfig.ollama_model cfg) messages (TARSConfig.max_tokens cfg)
  else if String.eqb provider "lm_studio"
  then chat_completions_stream svc
         (str_or (Some (TARSConfig.lm_studio_base_url cfg)) "https://api.openai.com/v1")
         "lm-studio"
         (str_or (Some (TARSConfig.lm_studio_model cfg)) (TARSConfig.openai_model cfg))
         messages (TARSConfig.max_tokens cfg)
  else chat_completions_stream svc "https://api.openai.com/v1"
         (TARSConfig.openai_api_key cfg) (TARSConfig.openai_model cfg)
         messages (TARSConfig.max_tokens cfg).

(** The chunk a handler yields when its stream fails with [e]. *)
Definition stream_error_text (cfg : TARSConfig.t) (e : exn) : string :=
  let provider := lower (TARSConfig.llm_provider cfg) in
  if String.eqb provider "openai" || String.eqb provider "lm_studio"
  then "*Cue light dims* Stream disrupted: " +:+ str_exn e
  else "*Cue light dims* Stream error: " +:+ str_exn e.

End Fallbacks.

Module Entries.

(** The entries one file contributes: none when it cannot be read. *)
Definition entries_of (f : YamlFile) : list Entry :=
  default [] (DatasetLoader.load_yaml f).

(** The examples of a file: the list under [seed_examples], or else the
    one under [examples]; none when the file cannot be read or does not
    hold a mapping. *)
Definition examples_of (f : YamlFile) : list (gmap string string) :=
  match parsed f with
  | Some (YMapping data) =>
      match data !! "seed_examples" with
      | Some ex => ex
      | None => default [] (data !! "examples")
      end
  | _ => []
  end.

(** The record of example number [i] of the file [f]: the id is the stem
    and the position, the three texts are the example's, stripped (a
    missing key gives the empty text), the source is the file name and
    the topic comes from the stem. *)
Definition entry_of (f : YamlFile) (i : nat) (example : gmap string string) : Entry :=
  {| e_id := stem f +:+ "_" +:+ str_nat i;
     e_question := strip (default "" (example !! "question"));
     e_answer := strip (default "" (example !! "answer"));
     e_context := strip (default "" (example !! "context"));
     e_source := name f;
     e_topic := DatasetLoader.topic_of (stem f) |}.

(** The entry is the record of the example at position [i] of the file
    [f] (positions count from 0 over all the examples of the file), and
    it has a question or an answer. *)
Definition made_from (f : YamlFile) (i : nat) (e : Entry) : Prop :=
  exists example,
    examples_of f !! i = Some example /\
    e = entry_of f i example /\
    (truthy (e_question e) || truthy (e_answer e)) = true.

(** The keys a loader entry shares with a training example. *)
Definition of_entry (e : Entry) : DatasetConverter.Example :=
  {| DatasetConverter.x_id := e_id e;
     DatasetConverter.x_question := e_question e;
     DatasetConverter.x_answer := e_answer e;
     DatasetConverter.x_context := e_context e;
     DatasetConverter.x_source := e_source e |}.

(** The entry has a question and an answer. *)
Definition complete (e : Entry) : bool :=
  truthy (e_question e) && truthy (e_answer e).

End Entries.

Module Sign.

(** A float that is zero, not a number, or has the sign bit clear. *)
Definition nonnegative (f : spec_float) : Prop :=
  match f with
  | S754_zero _ | S754_nan => True
  | S754_infinity s | S754_finite s _ _ => s = false
  end.

End Sign.

Module Hits.

(** The hit pairs entry number [i] of each list of the query result. *)
Definition aligned (results : QueryResult) (ids : list string) (i : nat) (h : Hit)
    : Prop :=
  ids !! i = Some (hit_id h) /\
  VectorStore.field_at (r_documents results) i "" = Return (hit_text h) /\
  VectorStore.field_at (r_metadatas results) i ∅ = Return (hit_metadata h) /\
  VectorStore.field_at (r_distances results) i 0%float = Return (hit_distance h).

End Hits.

Module Persistence.

(** Every file of the directory is named after the conversation it holds,
    as [_save_conversation] names it. *)
Definition named (files : gmap string Conversation.t) : Prop :=
  forall f c, files !! f = Some c -> f = Conversation.id c +:+ ".json".

(** The directory holds, under each conversation's file name, what the
    store holds in memory, and nothing else. *)
Definition synced (m : MemoryStore.t) : Prop :=
  named (MemoryStore.disk m) /\
  forall k, MemoryStore.conversations m !! k = MemoryStore.disk m !! (k +:+ ".json").

(** A store that writes every change to its directory. *)
Definition persistent (m : MemoryStore.t) : Prop :=
  (exists d, MemoryStore.persist_dir m = Some d) /\ MemoryStore.auto_save m = true.

(** A store that never touches the file system: it has no directory
    ([_save_conversation] returns at once), or it does not save on its
    own ([_save_conversation] is not called). *)
Definition writes_no_file (m : MemoryStore.t) : Prop :=
  MemoryStore.persist_dir m = None \/ MemoryStore.auto_save m = false.

End Persistence.

Module Decoration.

(** [response[0].lower() + response[1:]] on a text that is not empty. *)
Definition decapitalize (s : string) : string :=
  match s with
  | EmptyString => EmptyString
  | String c t => String (lower_ascii c) t
  end.

(** [out] is [response], or [response] with its first character in lower
    case, between a prefix and a suffix. *)
Definition decorates (response out : string) : Prop :=
  exists pre post,
    out = pre +:+ response +:+ post \/
    out = pre +:+ decapitalize response +:+ post.

(** What a stage of the enhancement may do with its input. *)
Definition stage_ok (response : string) (o : outcome string) : Prop :=
  match o with
  | Return out => decorates response out
  | Raise e => response = "" /\ e = Enhance.index_error
  end.

End Decoration.

(** ** Concrete inputs *)

Module Fixtures.

Definition noon : datetime := mkDatetime 2024 5 17 12 30 0 0.

(** A backend that cannot be reached, behind client libraries that
    accept any credential. *)
Definition offline : Services :=
  {| GEMINI_AVAILABLE := true;
     OpenAI_client := fun _ _ => Return tt;
     genai_GenerativeModel := fun _ _ _ => Return tt;
     chat_completions_create := fun _ _ _ _ _ =>
       Raise (RuntimeError "Connection error.");
     chat_completions_stream := fun _ _ _ _ _ =>
       ([], Some (RuntimeError "Connection error."));
     gemini_send_message := fun _ _ _ _ _ =>
       Raise (RuntimeError "Connection error.");
     gemini_send_stream := fun _ _ _ _ _ =>
       ([], Some (RuntimeError "Connection error.")) |}.

(** A handler whose two methods raise, and one that answers. *)
Definition raising (kind : string) : BaseLLMHandler.t :=
  {| BaseLLMHandler.kind := kind;
     BaseLLMHandler.system_prompt := "";
     BaseLLMHandler.generate_impl := fun _ _ _ => Raise (RuntimeError "down");
     BaseLLMHandler.generate_stream_impl := fun _ _ _ =>
       ([], Some (RuntimeError "down")) |}.

Definition answering (kind reply : string) : BaseLLMHandler.t :=
  {| BaseLLMHandler.kind := kind;
     BaseLLMHandler.system_prompt := "";
     BaseLLMHandler.generate_impl := fun _ _ _ => Return reply;
     BaseLLMHandler.generate_stream_impl := fun _ _ _ => ([reply], None) |}.

(** OpenAI selected, with the default (empty) key and model. *)
Definition openai_without_key : TARSConfig.t :=
  TARSConfig.set_provider "openai" TARSConfig.default.

(** Client libraries that refuse an empty API key. *)
Definition key_checking : Services :=
  {| GEMINI_AVAILABLE := GEMINI_AVAILABLE offline;
     OpenAI_client := fun _ api_key =>
       if truthy api_key then Return tt
       else Raise (RuntimeError "The api_key client option must be set");
     genai_GenerativeModel := fun api_key _ _ =>
       if truthy api_key then Return tt
       else Raise (RuntimeError "No API_KEY or ADC found");
     chat_completions_create := chat_completions_create offline;
     chat_completions_stream := chat_completions_stream offline;
     gemini_send_message := gemini_send_message offline;
     gemini_send_stream := gemini_send_stream offline |}.

(** LM Studio selected (the default), with no model identifier. *)
Definition lm_studio_without_model : TARSConfig.t :=
  {| TARSConfig.llm_provider := "lm_studio";
     TARSConfig.openai_api_key := ""; TARSConfig.openai_model := "";
     TARSConfig.gemini_api_key := ""; TARSConfig.gemini_model := "";
     TARSConfig.lm_studio_base_url := "http://localhost:1234/v1";
     TARSConfig.lm_studio_model := "";
     TARSConfig.ollama_base_url := "http://localhost:11434";
     TARSConfig.ollama_model := "mistral";
     TARSConfig.tars_humor_level := 0.60; TARSConfig.tars_honesty_level := 0.90;
     TARSConfig.tars_discretion_level := 0.95;
     TARSConfig.rag_enabled := true; TARSConfig.max_tokens := 16384 |}.

(** The same client libraries as [offline], without the Gemini package. *)
Definition no_gemini_package : Services :=
  {| GEMINI_AVAILABLE := false;
     OpenAI_client := OpenAI_client offline;
     genai_GenerativeModel := genai_GenerativeModel offline;
     chat_completions_create := chat_completions_create offline;
     chat_completions_stream := chat_completions_stream offline;
     gemini_send_message := gemini_send_message offline;
     gemini_send_stream := gemini_send_stream offline |}.

(** LM Studio selected, with a key for Gemini and one for OpenAI. *)
Definition both_keys : TARSConfig.t :=
  {| TARSConfig.llm_provider := "lm_studio";
     TARSConfig.openai_api_key := "sk-test"; TARSConfig.openai_model := "gpt-4o-mini";
     TARSConfig.gemini_api_key := "AIza-test";
     TARSConfig.gemini_model := "gemini-1.5-flash";
     TARSConfig.lm_studio_base_url := "http://localhost:1234/v1";
     TARSConfig.lm_studio_model := "meta-llama-3.2-1b-instruct-q4_0";
     TARSConfig.ollama_base_url := "http://localhost:11434";
     TARSConfig.ollama_model := "mistral";
     TARSConfig.tars_humor_level := 0.60; TARSConfig.tars_honesty_level := 0.90;
     TARSConfig.tars_discretion_level := 0.95;
     TARSConfig.rag_enabled := true; TARSConfig.max_tokens := 16384 |}.

Definition empty_store : MemoryStore.t := MemoryStore.__init__ None 50 true ∅.

Definition all_down : MultiProviderLLM.t :=
  {| MultiProviderLLM.config := TARSConfig.default;
     MultiProviderLLM.primary_handler := raising "lm_studio";
     MultiProviderLLM.fallback_handlers := [raising "ollama"; raising "openai"] |}.

Definition second_fallback_up : MultiProviderLLM.t :=
  {| MultiProviderLLM.config := TARSConfig.default;
     MultiProviderLLM.primary_handler := raising "lm_studio";
     MultiProviderLLM.fallback_handlers :=
       [raising "ollama"; answering "gemini" "Affirmative."; raising "openai"] |}.

(** A knowledge base whose search answers every query with the same two
    hits, at the given distances. *)
Definition two_hits (d1 d2 : float) : Knowledge :=
  {| md5_hexdigest := fun _ => "8b1a9953c4611296a827abf8c47804d7";
     encode := fun _ => Return [0.25%float; 0.5%float];
     encode_batch := fun texts => Return (map (fun _ => [0.25%float; 0.5%float]) texts);
     collection_add := fun _ collection => Return collection;
     collection_query := fun _ _ =>
       Return {| r_ids := [["wormholes_0_8b1a9953c461"; "entropy_3_8b1a9953c461"]];
                 r_documents := Some [["Question: A?"; "Question: B?"]];
                 r_metadatas := Some [[ {[ "topic" := "relativity" ]}; ∅ ]];
                 r_distances := Some [[d1; d2]] |} |}.

Definition empty_rag : RAGSystem.t :=
  {| RAGSystem.vector_store := []; RAGSystem._loaded_datasets := ∅ |}.

(** A generator whose every float draw is [u] and whose draw number [i]
    picks index [i]. *)
Definition steady (u : float) : Rng :=
  {| uniform := fun _ => u; pick := fun i => i; cursor := 0 |}.

Definition tars : ResponseGenerator.t := ResponseGenerator.__init__ TARSConfig.default.

(** An engine whose primary handler raises and whose second fallback
    would answer. *)
Definition engine : TARSEngine.t :=
  {| TARSEngine.config := TARSConfig.default;
     TARSEngine.llm := IsRouter second_fallback_up;
     TARSEngine.memory := empty_store;
     TARSEngine.personality := tars;
     TARSEngine.use_rag := false;
     TARSEngine.rag_system := None |}.

Definition state : TARSEngine.State :=
  {| TARSEngine.self := engine; TARSEngine.rng := steady 0.5;
     TARSEngine.now := noon; TARSEngine.calls := [] |}.

End Fixtures.

Module Samples.

(** The router built from a configuration, when it can be built. *)
Definition built (svc : Services) (cfg : TARSConfig.t) : MultiProviderLLM.t :=
  match MultiProviderLLM.__init__ svc cfg with
  | Return r => r
  | Raise _ => Fixtures.all_down
  end.

(** A backend that answers every request with blanks. *)
Definition blank_reply : Services :=
  {| GEMINI_AVAILABLE := true;
     OpenAI_client := fun _ _ => Return tt;
     genai_GenerativeModel := fun _ _ _ => Return tt;
     chat_completions_create := fun _ _ _ _ _ => Return "   ";
     chat_completions_stream := fun _ _ _ _ _ => (["   "], None);
     gemini_send_message := fun _ _ _ _ _ => Return "   ";
     gemini_send_stream := fun _ _ _ _ _ => (["   "], None) |}.

(** An engine around a router, with an empty memory and no retrieval,
    and its state with every float draw at [u]. *)
Definition engine_of (r : MultiProviderLLM.t) : TARSEngine.t :=
  {| TARSEngine.config := TARSConfig.default;
     TARSEngine.llm := IsRouter r;
     TARSEngine.memory := Fixtures.empty_store;
     TARSEngine.personality := Fixtures.tars;
     TARSEngine.use_rag := false;
     TARSEngine.rag_system := None |}.

Definition state_of (r : MultiProviderLLM.t) (u : float) : TARSEngine.State :=
  {| TARSEngine.self := engine_of r; TARSEngine.rng := Fixtures.steady u;
     TARSEngine.now := Fixtures.noon; TARSEngine.calls := [] |}.

(** The same engine with retrieval switched on. *)
Definition retrieving : TARSEngine.State :=
  {| TARSEngine.self :=
       {| TARSEngine.config := TARSConfig.default;
          TARSEngine.llm := IsRouter Fixtures.second_fallback_up;
          TARSEngine.memory := Fixtures.empty_store;
          TARSEngine.personality := Fixtures.tars;
          TARSEngine.use_rag := true;
          TARSEngine.rag_system := Some Fixtures.empty_rag |};
     TARSEngine.rng := Fixtures.steady 0.5;
     TARSEngine.now := Fixtures.noon; TARSEngine.calls := [] |}.

(** A knowledge base whose embedding model cannot be reached, and one
    whose collection is empty. *)
Definition unreachable : Knowledge :=
  {| md5_hexdigest := fun _ => "8b1a9953c4611296a827abf8c47804d7";
     encode := fun _ => Raise (RuntimeError "model not loaded");
     encode_batch := fun _ => Raise (RuntimeError "model not loaded");
     collection_add := fun _ collection => Return collection;
     collection_query := fun _ _ => Raise (RuntimeError "model not loaded") |}.

Definition no_hits : Knowledge :=
  {| md5_hexdigest := fun _ => "8b1a9953c4611296a827abf8c47804d7";
     encode := fun _ => Return [0.25%float; 0.5%float];
     encode_batch := fun texts => Return (map (fun _ => [0.25%float; 0.5%float]) texts);
     collection_add := fun _ collection => Return collection;
     collection_query := fun _ _ =>
       Return {| r_ids := [[]]; r_documents := Some [[]];
                 r_metadatas := Some [[]]; r_distances := Some [[]] |} |}.

(** A dataset file with three examples (a full one, one without an
    answer, an empty one) and a file that cannot be parsed. *)
Definition relativity : YamlFile :=
  {| stem := "relativity_basics"; name := "relativity_basics.yaml";
     parsed :=
       Some (YMapping
               {[ "seed_examples" :=
                    [ {[ "question" := "What is time dilation?";
                         "answer" := "Clocks in motion run slow." ]};
                      {[ "question" := "What is a light cone?" ]};
                      ∅ ] ]}) |}.

Definition broken : YamlFile :=
  {| stem := "notes"; name := "notes.yaml"; parsed := None |}.

(** Three requests to the active conversation. *)
Definition three_requests : list (datetime * string * string * option string) :=
  [ (Fixtures.noon, "user", "one", None);
    (Fixtures.noon, "assistant", "two", None);
    (Fixtures.noon, "user", "three", None) ].

(** A store with a maximum of two that has received the three requests. *)
Definition chatty : TARSEngine.State :=
  {| TARSEngine.self :=
       {| TARSEngine.config := TARSConfig.default;
          TARSEngine.llm := IsRouter Fixtures.second_fallback_up;
          TARSEngine.memory :=
            MemoryStore.add_messages three_requests (MemoryStore.__init__ None 2 true ∅);
          TARSEngine.personality := Fixtures.tars;
          TARSEngine.use_rag := false;
          TARSEngine.rag_system := None |};
     TARSEngine.rng := Fixtures.steady 0.5;
     TARSEngine.now := Fixtures.noon; TARSEngine.calls := [] |}.

(** The engine constructed over a backend that is offline, with a
    retriever that fails to start. *)
Definition started : TARSEngine.t :=
  match TARSEngine.__init__ Fixtures.offline TARSConfig.default None
          Fixtures.empty_store Fixtures.tars true true
          (Raise (ImportError "chromadb not installed")) (Return tt) Fixtures.noon with
  | Return engine => engine
  | Raise _ => Fixtures.engine
  end.

End Samples.

(** * Properties *)

(** ** Python primitives *)

Module Checks.

Example lower_mixed : lower "What TIME is it?" = "what time is it?".
Proof. reflexivity. Qed.

Example strip_both_ends : strip ("  hello there " +:+ nl) = "hello there".
Proof. reflexivity. Qed.

Example strip_blank : strip "   " = "".
Proof. reflexivity. Qed.

Example contains_inside : contains "what time" "so, what time is it" = true.
Proof. reflexivity. Qed.

Example contains_absent : contains "time now" "what time is it?" = false.
Proof. reflexivity. Qed.

Example slice_last_two : slice_from (-2) [1; 2; 3] = [2; 3].
Proof. reflexivity. Qed.

Example slice_minus_zero : slice_from (-0) [1; 2; 3] = [1; 2; 3].
Proof. reflexivity. Qed.

Example slice_all_but_last : slice_to (-1) [1; 2; 3] = [1; 2].
Proof. reflexivity. Qed.

Example int_truncates : int_of_float (0.29 * 100)%float = Return 28%Z.
Proof. reflexivity. Qed.

Example int_of_nan : int_of_float PrimFloat.nan
                     = Raise (ValueError "cannot convert float NaN to integer").
Proof. reflexivity. Qed.

Example clamp_keeps_nan : PrimFloat.is_nan (clamp01 PrimFloat.nan) = true.
Proof. reflexivity. Qed.

Example half_past_midnight :
  strftime_IMp (mkDatetime 2024 5 17 0 30 0 0) = "12:30 AM".
Proof. reflexivity. Qed.

Example afternoon : strftime_IMp (mkDatetime 2024 5 17 15 4 0 0) = "03:04 PM".
Proof. reflexivity. Qed.

Example bye_is_a_word : Re.search_phrases ["bye"; "goodbye"; "exit"; "quit"] "ok bye now" = true.
Proof. reflexivity. Qed.

Example goodbyes_is_not :
  Re.search_phrases ["bye"; "goodbye"; "exit"; "quit"] "goodbyes" = false.
Proof. reflexivity. Qed.

Example topic_from_stem : DatasetLoader.topic_of "Intro_Quantum_QA" = "quantum_mechanics".
Proof. reflexivity. Qed.

End Checks.

Lemma slice_from_neg_length {A} (n : Z) (l : list A) :
  (1 <= n)%Z ->
  length (slice_from (- n) l) = Nat.min (length l) (Z.to_nat n).
Proof.
  intros Hn. unfold slice_from.
  destruct (Z.ltb_spec (- n) 0); [|lia].
  rewrite length_drop. lia.
Qed.

Lemma slice_from_neg_suffix {A} (n : Z) (l : list A) :
  exists dropped, l = (dropped ++ slice_from (- n) l)%list.
Proof.
  unfold slice_from.
  destruct (- n <? 0)%Z;
    eexists; symmetry; apply take_drop.
Qed.

Lemma slice_from_zero {A} (l : list A) : slice_from (- 0) l = l.
Proof. reflexivity. Qed.

Lemma SFcompare_antisym (x y : spec_float) :
  SFcompare y x = option_map CompOpp (SFcompare x y).
Proof.
  destruct x as [s1|s1| |s1 m1 e1], y as [s2|s2| |s2 m2 e2];
    try reflexivity; try (destruct s1; reflexivity);
    try (destruct s2; reflexivity); try (destruct s1, s2; reflexivity).
  unfold SFcompare, option_map.
  rewrite (Z.compare_antisym e1 e2).
  change (PosDef.Pos.compare_cont Eq m2 m1) with (Pos.compare m2 m1).
  change (PosDef.Pos.compare_cont Eq m1 m2) with (Pos.compare m1 m2).
  rewrite (Pos.compare_antisym m1 m2).
  destruct s1, s2; try reflexivity;
    destruct (e1 ?= e2)%Z; try reflexivity;
    destruct (Pos.compare m1 m2); reflexivity.
Qed.

(** [x <= y] excludes [y < x], also on the special values. *)
Lemma ltb_false_of_leb (x y : float) :
  PrimFloat.leb x y = true -> PrimFloat.ltb y x = false.
Proof.
  rewrite leb_spec, ltb_spec.
  unfold SFleb, SFltb.
  rewrite (SFcompare_antisym (Prim2SF x) (Prim2SF y)).
  destruct (SFcompare (Prim2SF x) (Prim2SF y)) as [[ | | ]|]; cbn; congruence.
Qed.

(** ** Memory store *)

Module MemoryFacts.

Import MemoryStore.

Lemma conversations_save c m :
  conversations (_save_conversation c m) = conversations m.
Proof. unfold _save_conversation. destruct (persist_dir m); reflexivity. Qed.

Lemma max_messages_save c m :
  max_messages (_save_conversation c m) = max_messages m.
Proof. unfold _save_conversation. destruct (persist_dir m); reflexivity. Qed.

Lemma max_messages_create now cid m :
  max_messages (create_conversation now cid m).2 = max_messages m.
Proof.
  unfold create_conversation. cbn.
  destruct (auto_save _); [rewrite max_messages_save|]; reflexivity.
Qed.

Lemma max_messages_add now role content cid md m :
  max_messages (add_message now role content cid md m).2 = max_messages m.
Proof.
  unfold add_message.
  destruct (get_conversation cid m) as [[k c]|] eqn:Hg.
  - cbn. destruct (auto_save _); [rewrite max_messages_save|]; reflexivity.
  - pose proof (max_messages_create now None m) as Hc.
    destruct (create_conversation now None m) as [c m'] eqn:Hcr. cbn in *.
    destruct (auto_save _); [rewrite max_messages_save|]; cbn; exact Hc.
Qed.

(** What [add_message] leaves under the target key: the old messages
    followed by the new one, cut by the slice when the length exceeds
    the maximum. *)
Lemma add_message_target now role content cid md m :
  let r := add_message now role content cid md m in
  let appended := (before cid m ++ [r.1])%list in
  exists c,
    conversations r.2 !! target now cid m = Some c /\
    Conversation.messages c =
      if (max_messages m <? Z.of_nat (length appended))%Z
      then slice_from (- max_messages m) appended
      else appended.
Proof.
  unfold add_message, target, before.
  destruct (get_conversation cid m) as [[k c]|] eqn:Hg.
  - cbn.
    eexists. split.
    + destruct (auto_save _); [rewrite conversations_save|]; cbn;
        apply lookup_insert_eq.
    + destruct (_ <? _)%Z; reflexivity.
  - pose proof (max_messages_create now None m) as Hmax.
    assert (Hid : Conversation.id (create_conversation now None m).1
                  = "conv_" +:+ strftime_stamp now /\
                  Conversation.messages (create_conversation now None m).1 = [])
      by (split; reflexivity).
    destruct (create_conversation now None m) as [c m'].
    cbn in Hmax, Hid. destruct Hid as [Hid Hnil]. cbn.
    rewrite Hid, Hnil, Hmax.
    eexists. split.
    + destruct (auto_save _); [rewrite conversations_save|]; cbn;
        apply lookup_insert_eq.
    + cbn. destruct (_ <? _)%Z; reflexivity.
Qed.

(** With a maximum of at least one, the target conversation holds at
    most the maximum after the call, and what it holds is the tail of
    the appended sequence: the oldest messages are the ones dropped. *)
Lemma add_message_bounded now role content cid md m :
  (1 <= max_messages m)%Z ->
  let r := add_message now role content cid md m in
  (Z.of_nat (message_count (target now cid m) r.2) <= max_messages m)%Z /\
  exists c dropped,
    conversations r.2 !! target now cid m = Some c /\
    (before cid m ++ [r.1])%list = (dropped ++ Conversation.messages c)%list.
Proof.
  intros Hmax r.
  destruct (add_message_target now role content cid md m) as (c & Hc & Hm).
  fold r in Hc, Hm. split.
  - unfold message_count. rewrite Hc, Hm.
    destruct (Z.ltb_spec (max_messages m)
                (Z.of_nat (length (before cid m ++ [r.1])%list))).
    + rewrite slice_from_neg_length by lia. lia.
    + lia.
  - exists c. rewrite Hm.
    destruct (_ <? _)%Z.
    + destruct (slice_from_neg_suffix (max_messages m) (before cid m ++ [r.1])%list)
        as [d Hd]. exists d. split; [exact Hc | exact Hd].
    + exists []. split; [exact Hc | reflexivity].
Qed.

(** With a maximum of zero the slice [messages[-0:]] is the whole list:
    nothing is ever dropped. *)
Lemma add_message_zero_keeps_all now role content cid md m :
  max_messages m = 0%Z ->
  let r := add_message now role content cid md m in
  exists c,
    conversations r.2 !! target now cid m = Some c /\
    Conversation.messages c = (before cid m ++ [r.1])%list.
Proof.
  intros H0 r.
  destruct (add_message_target now role content cid md m) as (c & Hc & Hm).
  exists c. split; [exact Hc|]. fold r in Hm. rewrite Hm, H0.
  destruct (0 <? Z.of_nat (length (before cid m ++ [r.1])%list))%Z; reflexivity.
Qed.

Lemma conversations_create now m :
  conversations (create_conversation now None m).2
  = <["conv_" +:+ strftime_stamp now
      := Conversation.new now ("conv_" +:+ strftime_stamp now)]> (conversations m).
Proof.
  unfold create_conversation. cbn.
  destruct (auto_save _); [rewrite conversations_save|]; reflexivity.
Qed.

(** The other conversations are not touched. *)
Lemma add_message_others now role content cid md m k :
  k <> target now cid m ->
  conversations (add_message now role content cid md m).2 !! k
  = conversations m !! k.
Proof.
  unfold add_message, target.
  destruct (get_conversation cid m) as [[k' c]|] eqn:Hg; intros Hk.
  - cbn. destruct (auto_save _); [rewrite conversations_save|]; cbn;
      apply lookup_insert_ne; congruence.
  - pose proof (conversations_create now m) as Hcs.
    assert (Hid : Conversation.id (create_conversation now None m).1
                  = "conv_" +:+ strftime_stamp now) by reflexivity.
    destruct (create_conversation now None m) as [c m'].
    cbn in Hcs, Hid. cbn. rewrite Hid.
    destruct (auto_save _); [rewrite conversations_save|]; cbn;
      rewrite Hcs, !lookup_insert_ne by congruence; reflexivity.
Qed.

(** With a maximum of at least one, [add_message] keeps every
    conversation within the maximum, and so does any sequence of calls. *)
Lemma add_message_preserves_bounded now role content cid md m :
  (1 <= max_messages m)%Z ->
  bounded m -> bounded (add_message now role content cid md m).2.
Proof.
  intros Hmax Hb k c Hk. rewrite max_messages_add.
  destruct (decide (k = target now cid m)) as [->|Hne].
  - destruct (add_message_bounded now role content cid md m Hmax) as [Hcount _].
    unfold message_count in Hcount. rewrite Hk in Hcount. exact Hcount.
  - rewrite add_message_others in Hk by exact Hne. apply (Hb k c Hk).
Qed.

Lemma add_messages_preserves_bounded requests :
  forall m, (1 <= max_messages m)%Z -> bounded m ->
            bounded (add_messages requests m).
Proof.
  induction requests as [|[[[now role] content] cid] rest IH]; intros m Hmax Hb;
    [exact Hb|].
  cbn. apply IH.
  - rewrite max_messages_add. exact Hmax.
  - apply add_message_preserves_bounded; assumption.
Qed.

End MemoryFacts.

(** ** Provider router *)

Module RouterFacts.

Import MultiProviderLLM Router.

Lemma tried_S (n : nat) :
  tried (S n) =
  CallGenerate Primary :: map (fun j => CallGenerate (Fallback j)) (seq 0 n).
Proof.
  unfold tried. cbn [seq map slot_of]. f_equal.
  rewrite <- seq_shift, map_map. reflexivity.
Qed.

(** A run of failing fallbacks is walked through in order, one call each. *)
Lemma try_fallbacks_skip message history pre :
  forall i rest calls,
    Forall (fails message history) pre ->
    try_fallbacks i (pre ++ rest) message history calls =
    try_fallbacks (i + length pre) rest message history
      (calls ++ map (fun j => CallGenerate (Fallback j)) (seq i (length pre))).
Proof.
  induction pre as [|h pre IH]; intros i rest calls Hpre.
  - cbn. rewrite Nat.add_0_r, app_nil_r. reflexivity.
  - apply Forall_cons in Hpre as [(e & He & Hexc) Hpre].
    cbn [app try_fallbacks length seq map].
    unfold try_except at 1, invoke at 1. rewrite He, Hexc.
    rewrite (IH (S i) rest _ Hpre).
    rewrite <- app_assoc. cbn [app].
    replace (S i + length pre) with (i + S (length pre)) by lia.
    reflexivity.
Qed.

(** The router answers with the first handler that does not fail, and
    calls nothing after it. *)
Lemma generate_first_success r message history pre h post reply calls :
  handlers r = (pre ++ h :: post)%list ->
  Forall (fails message history) pre ->
  BaseLLMHandler.generate h message history = Return reply ->
  generate r message history calls =
  (Return reply, (calls ++ tried (S (length pre)))%list).
Proof.
  unfold handlers. intros Hhs Hpre Hh.
  destruct pre as [|p pre].
  - cbn in Hhs. injection Hhs as Hp Hf.
    unfold generate, try_except, invoke. rewrite Hp, Hh. reflexivity.
  - cbn in Hhs. injection Hhs as Hp Hf.
    apply Forall_cons in Hpre as [(e & He & Hexc) Hpre].
    unfold generate, try_except at 1, invoke at 1.
    rewrite Hp, He, Hexc, Hf.
    rewrite (try_fallbacks_skip message history pre 0 (h :: post) _ Hpre).
    cbn [try_fallbacks]. unfold try_except, invoke. rewrite Hh.
    rewrite tried_S. cbn [length].
    rewrite seq_S, map_app. cbn [map app Nat.add].
    rewrite <- !app_assoc. reflexivity.
Qed.

End RouterFacts.

Module SetupFacts.

Import MultiProviderLLM Router Fallbacks.

(** When the client libraries accept their arguments and the Gemini
    package is present, the router is built and its fallback list is the
    priority list without the primary and without the providers whose
    credential is empty. *)
Lemma new_fallbacks svc cfg :
  clients_accept svc ->
  GEMINI_AVAILABLE svc = true ->
  In (lower (TARSConfig.llm_provider cfg)) providers_to_try ->
  exists r,
    __init__ svc cfg = Return r /\
    BaseLLMHandler.kind (primary_handler r) = lower (TARSConfig.llm_provider cfg) /\
    map BaseLLMHandler.kind (fallback_handlers r) =
    List.filter
      (fun p => negb (String.eqb p (lower (TARSConfig.llm_provider cfg)))
                && has_credentials cfg p)
      providers_to_try.
Proof.
  intros [Ho Hg] Hav Hin.
  unfold __init__, get_llm_handler, _setup_fallbacks, providers_to_try in *.
  cbn [_setup_fallbacks_loop].
  unfold _create_handler_for_provider, LMStudioHandler, OllamaHandler,
    GeminiHandler, OpenAIHandler, has_credentials.
  rewrite Hav.
  set (p := lower (TARSConfig.llm_provider cfg)) in *.
  cbn in Hin.
  destruct Hin as [H|[H|[H|[H|[]]]]]; rewrite <- H; clearbody p; clear H;
    cbn -[truthy str_or];
    rewrite ?Ho, ?Hg; cbn -[truthy str_or];
    destruct (truthy (TARSConfig.gemini_api_key cfg));
    destruct (truthy (TARSConfig.openai_api_key cfg));
    cbn -[truthy str_or]; rewrite ?Ho, ?Hg; cbn -[truthy str_or];
    eexists; (split; [reflexivity|split; reflexivity]).
Qed.

(** The fallback set-up never fails when the client libraries accept
    their arguments. *)
Lemma setup_fallbacks_returns svc cfg :
  clients_accept svc ->
  exists fallbacks, _setup_fallbacks svc cfg [] = Return fallbacks.
Proof.
  intros [Ho Hg].
  unfold _setup_fallbacks, providers_to_try. cbn [_setup_fallbacks_loop].
  unfold _create_handler_for_provider, LMStudioHandler, OllamaHandler,
    GeminiHandler, OpenAIHandler.
  repeat match goal with
         | |- context [if ?b then _ else _] => destruct b; cbn -[str_or]
         | |- context [OpenAI_client svc ?b ?k] => rewrite (Ho b k); cbn -[str_or]
         | |- context [genai_GenerativeModel svc ?k ?m ?q] =>
             rewrite (Hg k m q); cbn -[str_or]
         end;
    eexists; reflexivity.
Qed.

(** Under the same assumption the factory fails for two reasons only:
    an unknown provider name, and Gemini selected without its package.
    Neither looks at a credential or a model identifier. *)
Lemma get_llm_handler_raises svc cfg e :
  clients_accept svc ->
  get_llm_handler svc cfg = Raise e <->
  (~ In (lower (TARSConfig.llm_provider cfg)) providers_to_try /\
   e = ValueError ("Unknown LLM provider: " +:+ lower (TARSConfig.llm_provider cfg)))
  \/ (lower (TARSConfig.llm_provider cfg) = "gemini" /\
      GEMINI_AVAILABLE svc = false /\
      e = ImportError "google-generativeai package not installed").
Proof.
  intros [Ho Hg].
  unfold get_llm_handler, LMStudioHandler, OllamaHandler, GeminiHandler,
    OpenAIHandler, providers_to_try.
  set (p := lower (TARSConfig.llm_provider cfg)).
  destruct (String.eqb_spec p "openai") as [->|Hn1].
  { rewrite Ho. cbn. split; [discriminate|].
    intros [[Hin _]|[Hp _]]; [exfalso; apply Hin; cbn; tauto | discriminate]. }
  destruct (String.eqb_spec p "gemini") as [->|Hn2].
  { destruct (GEMINI_AVAILABLE svc); cbn.
    - rewrite Hg. split; [discriminate|].
      intros [[Hin _]|(_ & Hf & _)]; [exfalso; apply Hin; cbn; tauto | discriminate].
    - split.
      + intros [= <-]. right. auto.
      + intros [[Hin _]|(_ & _ & ->)]; [exfalso; apply Hin; cbn; tauto | reflexivity]. }
  destruct (String.eqb_spec p "lm_studio") as [->|Hn3].
  { rewrite Ho. split; [discriminate|].
    intros [[Hin _]|[Hp _]]; [exfalso; apply Hin; cbn; tauto | discriminate]. }
  destruct (String.eqb_spec p "ollama") as [->|Hn4].
  { rewrite Ho. split; [discriminate|].
    intros [[Hin _]|[Hp _]]; [exfalso; apply Hin; cbn; tauto | discriminate]. }
  split.
  - intros [= <-]. left. split; [|reflexivity].
    cbn. intros [H|[H|[H|[H|[]]]]]; congruence.
  - intros [[_ ->]|[Hp _]]; [reflexivity | congruence].
Qed.

Lemma new_raises svc cfg e :
  clients_accept svc ->
  __init__ svc cfg = Raise e <-> get_llm_handler svc cfg = Raise e.
Proof.
  intros Hacc. unfold __init__.
  destruct (setup_fallbacks_returns svc cfg Hacc) as [fb Hfb]. rewrite Hfb.
  destruct (get_llm_handler svc cfg); split; congruence.
Qed.

(** The four handler classes turn every [Exception] of their backend
    into a reply: a router built from the configuration never sees its
    primary handler fail. *)
Lemma built_primary_never_fails svc cfg r message history :
  __init__ svc cfg = Return r ->
  ~ fails message history (primary_handler r).
Proof.
  unfold __init__. destruct (get_llm_handler svc cfg) as [h|] eqn:Hh; [|discriminate].
  destruct (_setup_fallbacks svc cfg []); [|discriminate].
  intros [= <-]. cbn. intros (e & He & Hexc).
  unfold get_llm_handler, LMStudioHandler, OllamaHandler, GeminiHandler,
    OpenAIHandler in Hh.
  repeat match type of Hh with
         | (if ?b then _ else _) = _ => destruct b
         | match ?o with Return _ => _ | Raise _ => _ end = _ => destruct o
         end; try discriminate;
    injection Hh as <-;
    unfold BaseLLMHandler.generate, BaseLLMHandler.guarded in He; cbn in He;
    match type of He with
    | match ?o with Return _ => _ | Raise _ => _ end = _ =>
        destruct o as [?|e']; [discriminate|];
        destruct (is_Exception e') eqn:He'; [discriminate|];
        injection He as ->; congruence
    end.
Qed.

(** What creating the handler of a fallback provider comes to: a handler
    of that kind exactly when the credential is there, the package is
    there and the client is built. *)
Lemma create_usable svc cfg p :
  In p providers_to_try ->
  match _create_handler_for_provider svc cfg p with
  | Return (Some h) =>
      BaseLLMHandler.kind h = p /\
      (has_credentials cfg p
       && (negb (String.eqb p "gemini") || GEMINI_AVAILABLE svc)
       && client_built svc cfg p) = true
  | Return None | Raise _ =>
      (has_credentials cfg p
       && (negb (String.eqb p "gemini") || GEMINI_AVAILABLE svc)
       && client_built svc cfg p) = false
  end.
Proof.
  unfold providers_to_try. cbn [In].
  intros [<-|[<-|[<-|[<-|[]]]]];
    unfold _create_handler_for_provider, LMStudioHandler, OllamaHandler, GeminiHandler,
      OpenAIHandler, has_credentials, client_built;
    cbn -[truthy]; change (truthy "lm-studio") with true; cbn -[truthy];
    repeat match goal with
           | |- context [GEMINI_AVAILABLE svc] =>
               destruct (GEMINI_AVAILABLE svc); cbn -[truthy]
           | |- context [truthy ?k] => destruct (truthy k); cbn -[truthy]
           | |- context [OpenAI_client svc ?b ?k] =>
               destruct (OpenAI_client svc b k); cbn -[truthy]
           | |- context [genai_GenerativeModel svc ?k ?m ?q] =>
               destruct (genai_GenerativeModel svc k m q); cbn -[truthy]
           end; auto.
Qed.

(** The loop adds, in order, the handlers of the usable providers, and
    no other. *)
Lemma setup_loop_exact svc cfg providers :
  Forall (fun p => In p providers_to_try) providers ->
  forall acc fbs,
    _setup_fallbacks_loop svc cfg providers acc = Return fbs ->
    map BaseLLMHandler.kind fbs
    = map BaseLLMHandler.kind acc ++ List.filter (usable svc cfg) providers.
Proof.
  induction 1 as [|p rest Hp Hrest IH]; intros acc fbs; cbn [_setup_fallbacks_loop].
  - intros [= <-]. cbn. rewrite app_nil_r. reflexivity.
  - cbn [List.filter]. unfold usable at 1, eligible.
    destruct (String.eqb p (lower (TARSConfig.llm_provider cfg))) eqn:Hprim;
      cbn [negb andb]; [apply IH|].
    pose proof (create_usable svc cfg p Hp) as Hc.
    destruct (_create_handler_for_provider svc cfg p) as [[h|]|e].
    + destruct Hc as [Hk Hu]. rewrite Hu.
      intros H. apply IH in H. rewrite H, map_app, <- app_assoc. cbn. rewrite Hk.
      reflexivity.
    + rewrite Hc. apply IH.
    + rewrite Hc. destruct (is_Exception e); [apply IH|discriminate].
Qed.

Lemma built_fallbacks svc cfg r :
  __init__ svc cfg = Return r ->
  map BaseLLMHandler.kind (fallback_handlers r)
  = List.filter (usable svc cfg) providers_to_try.
Proof.
  unfold __init__. destruct (get_llm_handler svc cfg) as [h|]; [|discriminate].
  destruct (_setup_fallbacks svc cfg []) as [fbs|] eqn:Hf; [|discriminate].
  intros [= <-]. cbn.
  apply (setup_loop_exact svc cfg providers_to_try) in Hf; [exact Hf|].
  apply Forall_forall. intros p Hp. apply list_elem_of_In, Hp.
Qed.

(** With client libraries that accept their arguments and the Gemini
    package present, the usable providers are those that are not the
    primary and have their credential. *)
Lemma usable_accepting svc cfg p :
  clients_accept svc -> GEMINI_AVAILABLE svc = true ->
  usable svc cfg p
  = negb (String.eqb p (lower (TARSConfig.llm_provider cfg))) && has_credentials cfg p.
Proof.
  intros [Ho Hg] Hav. unfold usable, eligible, client_built.
  rewrite Hav, !Ho, Hg, orb_true_r, !andb_true_r.
  repeat match goal with |- context [if ?b then _ else _] => destruct b end; 
    rewrite ?andb_true_r; reflexivity.
Qed.

(** The factory builds the primary handler exactly when the provider
    name is known, the package is there and the client is built: it
    makes no check of its own on a credential or a model identifier. *)
Lemma factory_returns svc cfg :
  (exists h, get_llm_handler svc cfg = Return h) <->
  In (lower (TARSConfig.llm_provider cfg)) providers_to_try /\
  (lower (TARSConfig.llm_provider cfg) = "gemini" -> GEMINI_AVAILABLE svc = true) /\
  client_built svc cfg (lower (TARSConfig.llm_provider cfg)) = true.
Proof.
  unfold get_llm_handler, LMStudioHandler, OllamaHandler, GeminiHandler,
    OpenAIHandler, providers_to_try, client_built.
  set (p := lower (TARSConfig.llm_provider cfg)).
  destruct (String.eqb_spec p "openai") as [->|Hn1].
  { cbn -[truthy]. destruct (OpenAI_client svc _ _); split.
    - intros _. split; [tauto|]. split; [discriminate|reflexivity].
    - eauto.
    - intros [h Hh]. discriminate.
    - intros (_ & _ & H). discriminate. }
  destruct (String.eqb_spec p "gemini") as [->|Hn2].
  { cbn -[truthy]. destruct (GEMINI_AVAILABLE svc); cbn -[truthy].
    - destruct (genai_GenerativeModel svc _ _ _); split.
      + intros _. split; [tauto|]. split; reflexivity.
      + eauto.
      + intros [h Hh]. discriminate.
      + intros (_ & _ & H). discriminate.
    - split; [intros [h Hh]; discriminate|].
      intros (_ & H & _). specialize (H eq_refl). discriminate. }
  destruct (String.eqb_spec p "lm_studio") as [->|Hn3].
  { cbn -[truthy]. change (truthy "lm-studio") with true. cbn -[truthy].
    destruct (OpenAI_client svc _ _); split.
    - intros _. split; [tauto|]. split; [discriminate|reflexivity].
    - eauto.
    - intros [h Hh]. discriminate.
    - intros (_ & _ & H). discriminate. }
  destruct (String.eqb_spec p "ollama") as [->|Hn4].
  { cbn -[truthy]. destruct (OpenAI_client svc _ _); split.
    - intros _. split; [tauto|]. split; [discriminate|reflexivity].
    - eauto.
    - intros [h Hh]. discriminate.
    - intros (_ & _ & H). discriminate. }
  split; [intros [h Hh]; discriminate|].
  intros (Hin & _). cbn in Hin. destruct Hin as [H|[H|[H|[H|[]]]]]; congruence.
Qed.

End SetupFacts.

(** C2 (defect): [MemoryStore.add_message] is meant to keep a conversation
    within [max_messages], dropping the oldest messages.  With a maximum of
    zero the trimming slice is [messages[-0:]], the whole list: in a store
    built with [max_messages_per_conversation = 0] the active conversation
    holds one message after the first call and two after the second, above
    the maximum of zero. *)
Theorem add_message_exceeds_zero_maximum :
  let m0 := MemoryStore.__init__ None 0 true ∅ in
  let m1 := (MemoryStore.add_message Fixtures.noon "user" "hello" None None m0).2 in
  let m2 := (MemoryStore.add_message Fixtures.noon "assistant" "hi" None None m1).2 in
  MemoryStore.max_messages m2 = 0%Z /\
  MemoryStore.active_conversation_id m2 = Some "conv_20240517_123000" /\
  MemoryStore.message_count "conv_20240517_123000" m1 = 1 /\
  MemoryStore.message_count "conv_20240517_123000" m2 = 2.
Proof. vm_compute. repeat split; reflexivity. Qed.

(** C1: when the primary handler and every fallback handler raise an
    exception, [MultiProviderLLM.generate] returns the fixed
    all-providers-down message, having tried every handler once, in
    order; no exception leaves the call. *)
Theorem generate_all_providers_down
    (r : MultiProviderLLM.t) (message : string) (history : list RoleContent)
    (calls : list Call) :
  Router.fails message history (MultiProviderLLM.primary_handler r) ->
  Forall (Router.fails message history) (MultiProviderLLM.fallback_handlers r) ->
  MultiProviderLLM.generate r message history calls =
  (Return "*Cue light goes dark* All my neural pathways are offline. Check your connections, slick.",
   calls ++ Router.tried (S (length (MultiProviderLLM.fallback_handlers r)))).
Proof.
  intros (e & He & Hexc) Hfb.
  unfold MultiProviderLLM.generate, try_except at 1, MultiProviderLLM.invoke at 1.
  rewrite He, Hexc.
  rewrite <- (app_nil_r (MultiProviderLLM.fallback_handlers r)) at 1.
  rewrite (RouterFacts.try_fallbacks_skip message history _ 0 [] _ Hfb).
  cbn [MultiProviderLLM.try_fallbacks ret].
  rewrite RouterFacts.tried_S, <- app_assoc. reflexivity.
Qed.

Lemma generate_all_providers_down_witness :
  Router.fails "hello" [] (MultiProviderLLM.primary_handler Fixtures.all_down) /\
  MultiProviderLLM.generate Fixtures.all_down "hello" [] [] =
  (Return "*Cue light goes dark* All my neural pathways are offline. Check your connections, slick.",
   [CallGenerate Primary; CallGenerate (Fallback 0); CallGenerate (Fallback 1)]).
Proof.
  assert (H : forall k, Router.fails "hello" [] (Fixtures.raising k)).
  { intros k. exists (RuntimeError "down"). split; reflexivity. }
  split; [apply H|].
  apply (generate_all_providers_down Fixtures.all_down "hello" [] []).
  - apply H.
  - repeat constructor; apply H.
Defined.

(** C3, as claimed, fails: a credential is not all that the fallback
    set-up asks of a provider.  With LM Studio as the primary, a key
    configured for Gemini and one for OpenAI, and client libraries that
    accept every argument but no Gemini package installed, the fallback
    list is [ollama, openai], while the priority list without the primary
    and without the providers that lack a credential is [ollama, gemini,
    openai]. *)
Lemma fallback_list_without_gemini_package :
  Router.clients_accept Fixtures.no_gemini_package /\
  Router.has_credentials Fixtures.both_keys "gemini" = true /\
  List.filter
    (fun p => negb (String.eqb p (lower (TARSConfig.llm_provider Fixtures.both_keys)))
              && Router.has_credentials Fixtures.both_keys p)
    ["lm_studio"; "ollama"; "gemini"; "openai"]
  = ["ollama"; "gemini"; "openai"] /\
  exists built,
    MultiProviderLLM.__init__ Fixtures.no_gemini_package Fixtures.both_keys
      = Return built /\
    map BaseLLMHandler.kind (MultiProviderLLM.fallback_handlers built)
      = ["ollama"; "openai"].
Proof.
  split; [split; intros; reflexivity|].
  split; [reflexivity|]. split; [reflexivity|].
  eexists. split; reflexivity.
Qed.

(** C3, amended: the fallback list of a built router is the priority list
    [lm_studio, ollama, gemini, openai] without the primary provider,
    without the providers whose credential is missing, without Gemini
    when its package is missing and without the providers whose client
    constructor raises; with client libraries that accept their
    arguments and the Gemini package installed this is the list of the
    claim.  [generate] tries the primary and then the fallbacks in list
    order and returns the first result it gets: when the handlers before
    [h] in that order all raise and [h] answers, the answer is [h]'s, the
    handlers up to [h] were called once each, in order, and no handler
    after [h] was called.  With the primary among the failing ones and
    the handlers after [h] failing too, this is the case of exactly one
    fallback that succeeds. *)
Theorem fallback_order_first_success
    (svc : Services) (cfg : TARSConfig.t) (built : MultiProviderLLM.t)
    (r : MultiProviderLLM.t) (message : string) (history : list RoleContent)
    (pre post : list BaseLLMHandler.t) (h : BaseLLMHandler.t) (reply : string)
    (calls : list Call) :
  MultiProviderLLM.__init__ svc cfg = Return built ->
  MultiProviderLLM.primary_handler r :: MultiProviderLLM.fallback_handlers r
    = pre ++ h :: post ->
  Forall (Router.fails message history) pre ->
  BaseLLMHandler.generate h message history = Return reply ->
  (BaseLLMHandler.kind (MultiProviderLLM.primary_handler built)
     = lower (TARSConfig.llm_provider cfg) /\
   map BaseLLMHandler.kind (MultiProviderLLM.fallback_handlers built) =
     List.filter (Fallbacks.usable svc cfg) ["lm_studio"; "ollama"; "gemini"; "openai"] /\
   (Router.clients_accept svc -> GEMINI_AVAILABLE svc = true ->
    map BaseLLMHandler.kind (MultiProviderLLM.fallback_handlers built) =
      List.filter
        (fun p => negb (String.eqb p (lower (TARSConfig.llm_provider cfg)))
                  && Router.has_credentials cfg p)
        ["lm_studio"; "ollama"; "gemini"; "openai"])) /\
  MultiProviderLLM.generate r message history calls =
    (Return reply, calls ++ Router.tried (S (length pre))) /\
  (forall j, length pre < j ->
     ~ In (CallGenerate (Router.slot_of j)) (Router.tried (S (length pre)))).
Proof.
  intros Hbuilt Hhs Hpre Hh.
  split; [|split].
  - pose proof (SetupFacts.built_fallbacks svc cfg built Hbuilt) as Hk.
    split; [|split; [exact Hk|]].
    + revert Hbuilt. unfold MultiProviderLLM.__init__.
      destruct (get_llm_handler svc cfg) as [p|] eqn:Hp; [|discriminate].
      destruct (MultiProviderLLM._setup_fallbacks svc cfg []); [|discriminate].
      intros [= <-]. cbn.
      destruct (SetupFacts.factory_returns svc cfg) as [Hf _].
      destruct (Hf (ex_intro _ p Hp)) as (Hin & _).
      clear Hf. revert Hp.
      unfold get_llm_handler, LMStudioHandler, OllamaHandler, GeminiHandler,
        OpenAIHandler.
      repeat match goal with
             | |- (if ?b then _ else _) = _ -> _ => destruct b eqn:?
             | |- match ?o with Return _ => _ | Raise _ => _ end = _ -> _ => destruct o
             end; try discriminate; intros [= <-]; cbn;
        symmetry; apply String.eqb_eq; assumption.
    + intros Hacc Hav. rewrite Hk. apply filter_ext.
      intros p. apply SetupFacts.usable_accepting; assumption.
  - apply (RouterFacts.generate_first_success r message history pre h post);
      assumption.
  - intros j Hj Hcontra. unfold Router.tried in Hcontra.
    apply in_map_iff in Hcontra as (i & Heq & Hi).
    apply in_seq in Hi.
    assert (i = j) by (destruct i, j; cbn in Heq; congruence).
    lia.
Qed.

Lemma fallback_order_first_success_witness :
  (exists built,
      MultiProviderLLM.__init__ Fixtures.key_checking Fixtures.both_keys = Return built /\
      map BaseLLMHandler.kind (MultiProviderLLM.fallback_handlers built)
        = ["ollama"; "gemini"; "openai"]) /\
  MultiProviderLLM.generate Fixtures.second_fallback_up "hello" [] [] =
    (Return "Affirmative.",
     [CallGenerate Primary; CallGenerate (Fallback 0); CallGenerate (Fallback 1)]) /\
  ~ In (CallGenerate (Fallback 2)) (Router.tried 3).
Proof.
  destruct (MultiProviderLLM.__init__ Fixtures.key_checking Fixtures.both_keys)
    as [built|] eqn:Hbuilt; [|discriminate Hbuilt].
  destruct (fallback_order_first_success Fixtures.key_checking Fixtures.both_keys
              built Fixtures.second_fallback_up "hello" []
              [Fixtures.raising "lm_studio"; Fixtures.raising "ollama"]
              [Fixtures.raising "openai"]
              (Fixtures.answering "gemini" "Affirmative.") "Affirmative." [])
    as ((_ & Hkinds & _) & Hgen & Hafter).
  - exact Hbuilt.
  - reflexivity.
  - repeat constructor; exists (RuntimeError "down"); split; reflexivity.
  - reflexivity.
  - split; [|split].
    + exists built. split; [reflexivity | exact Hkinds].
    + exact Hgen.
    + apply (Hafter 3). cbn. lia.
Defined.

(** C4, as claimed, fails: with LM Studio selected and no model identifier
    configured, the router and the engine are built, also by a client
    library that refuses empty keys (the handler passes the placeholder
    key [lm-studio], and no model identifier is looked at before the
    first request). *)
Lemma missing_model_engine_is_built :
  Router.lacks_required Fixtures.lm_studio_without_model = true /\
  (exists r, MultiProviderLLM.__init__ Fixtures.key_checking
               Fixtures.lm_studio_without_model = Return r) /\
  (exists engine,
      TARSEngine.__init__ Fixtures.key_checking Fixtures.lm_studio_without_model None
        Fixtures.empty_store
        (ResponseGenerator.__init__ Fixtures.lm_studio_without_model)
        false false (Raise (ImportError "chromadb not installed")) (Return tt)
        Fixtures.noon
      = Return engine) /\
  ~ (forall svc cfg, Router.lacks_required cfg = true ->
       exists e, MultiProviderLLM.__init__ svc cfg = Raise e).
Proof.
  split; [reflexivity|].
  split; [eexists; reflexivity|].
  split; [eexists; reflexivity|].
  intros Hclaim.
  destruct (Hclaim Fixtures.key_checking Fixtures.lm_studio_without_model eq_refl)
    as [e He].
  discriminate He.
Qed.

(** C4, amended: construction makes no check of its own on the credential
    or the model identifier of the primary provider.  The primary
    handler is built exactly when the provider name is one of the four,
    the Gemini package is installed if Gemini is selected, and the client
    constructor returns on the arguments it is given: the configured key
    for OpenAI, the configured key and model for Gemini, and a
    placeholder key for LM Studio and Ollama, for which no credential
    and no model identifier of the configuration is looked at.  So when
    the client libraries accept their arguments, building the router
    fails in two cases only, an unknown provider name ([ValueError]) and
    Gemini selected without its package ([ImportError]), and for each of
    the four providers (Gemini with its package) the router is built
    whatever the configured credential and model are.  When the
    constructor is given a memory store that writes no file, an
    [Exception] leaving it is the one raised while building the router. *)
Theorem construction_ignores_credentials
    (svc : Services) (cfg : TARSConfig.t) (memory_store : MemoryStore.t)
    (response_generator : ResponseGenerator.t) (use_rag rag_available : bool)
    (rag : outcome RAGSystem.t) (rag_stats : outcome unit) (now : datetime)
    (e : exn) :
  ((exists h, get_llm_handler svc cfg = Return h) <->
     In (lower (TARSConfig.llm_provider cfg)) MultiProviderLLM.providers_to_try /\
     (lower (TARSConfig.llm_provider cfg) = "gemini" -> GEMINI_AVAILABLE svc = true) /\
     Fallbacks.client_built svc cfg (lower (TARSConfig.llm_provider cfg)) = true) /\
  (Router.clients_accept svc ->
   (MultiProviderLLM.__init__ svc cfg = Raise e <->
      (~ In (lower (TARSConfig.llm_provider cfg)) MultiProviderLLM.providers_to_try /\
       e = ValueError ("Unknown LLM provider: " +:+ lower (TARSConfig.llm_provider cfg)))
      \/ (lower (TARSConfig.llm_provider cfg) = "gemini" /\
          GEMINI_AVAILABLE svc = false /\
          e = ImportError "google-generativeai package not installed")) /\
   (In (lower (TARSConfig.llm_provider cfg)) MultiProviderLLM.providers_to_try ->
    (lower (TARSConfig.llm_provider cfg) = "gemini" -> GEMINI_AVAILABLE svc = true) ->
    exists r, MultiProviderLLM.__init__ svc cfg = Return r)) /\
  (Persistence.writes_no_file memory_store ->
   TARSEngine.__init__ svc cfg None memory_store response_generator use_rag
     rag_available rag rag_stats now = Raise e ->
   is_Exception e = true ->
   MultiProviderLLM.__init__ svc cfg = Raise e).
Proof.
  split; [apply SetupFacts.factory_returns|]. split.
  - intros Hacc. split.
    + rewrite (SetupFacts.new_raises svc cfg e Hacc).
      apply SetupFacts.get_llm_handler_raises, Hacc.
    + intros Hin Hgem.
      destruct (MultiProviderLLM.__init__ svc cfg) as [r|e'] eqn:Hnew; [eauto|].
      exfalso.
      apply (SetupFacts.new_raises svc cfg e' Hacc) in Hnew.
      apply (SetupFacts.get_llm_handler_raises svc cfg e' Hacc) in Hnew.
      destruct Hnew as [[Hn _]|(Hp & Hf & _)]; [tauto|].
      rewrite (Hgem Hp) in Hf. discriminate.
  - intros _. unfold TARSEngine.__init__.
    destruct (MultiProviderLLM.__init__ svc cfg) as [r|e']; [|congruence].
    intros Hnew Hexc. exfalso.
    destruct (use_rag && TARSConfig.rag_enabled cfg && rag_available).
    + destruct rag as [rg|er], rag_stats as [u|es]; cbn in Hnew;
        repeat match type of Hnew with
               | context [is_Exception ?x] =>
                   let Hx := fresh in destruct (is_Exception x) eqn:Hx; cbn in Hnew
               | context [MemoryStore.get_or_create_active ?a ?b] =>
                   destruct (MemoryStore.get_or_create_active a b)
               end; congruence.
    + cbn in Hnew. destruct (MemoryStore.get_or_create_active now memory_store).
      discriminate.
Qed.

Lemma construction_ignores_credentials_witness :
  Router.lacks_required Fixtures.lm_studio_without_model = true /\
  exists h, get_llm_handler Fixtures.key_checking Fixtures.lm_studio_without_model
            = Return h.
Proof.
  split; [reflexivity|].
  destruct (construction_ignores_credentials Fixtures.key_checking
              Fixtures.lm_studio_without_model Fixtures.empty_store
              (ResponseGenerator.__init__ Fixtures.lm_studio_without_model) false false
              (Raise (ImportError "chromadb not installed")) (Return tt)
              Fixtures.noon (ValueError "")) as ((_ & Hbuilt) & _).
  apply Hbuilt. split; [cbn; tauto|]. split; [discriminate|reflexivity].
Defined.

(** ** Knowledge retrieval *)

Module RetrievalFacts.

Import RAGSystem Retrieval.

Section WithKnowledge.

Variable K : Knowledge.

Lemma relevant_loop_filter results :
  forall acc, relevant_loop results acc = acc ++ List.filter close results.
Proof.
  induction results as [|h rest IH]; intros acc; cbn.
  - rewrite app_nil_r. reflexivity.
  - rewrite IH. unfold close at 2.
    destruct (PrimFloat.ltb (hit_distance h) 2.0).
    + rewrite <- app_assoc. reflexivity.
    + reflexivity.
Qed.

Lemma context_loop_blocks hits :
  forall i acc, context_loop i hits acc = acc ++ blocks i hits.
Proof.
  induction hits as [|h rest IH]; intros i acc; cbn.
  - rewrite app_nil_r. reflexivity.
  - rewrite IH, <- app_assoc. reflexivity.
Qed.

(** [retrieve] is the candidate search followed by the distance filter
    and the formatting. *)
Lemma retrieve_context self query n_results topic min_relevance :
  retrieve K self query n_results topic min_relevance =
  match candidate_hits K self query n_results topic with
  | Return hits => Return (context_of hits)
  | Raise e => Raise e
  end.
Proof.
  unfold retrieve, context_of.
  destruct (candidate_hits K self query n_results topic) as [[|h hits]|e];
    try reflexivity.
  rewrite relevant_loop_filter. cbn [app].
  destruct (List.filter close (h :: hits)) as [|k ks]; [reflexivity|].
  rewrite context_loop_blocks. reflexivity.
Qed.

Lemma far_not_close h : far h -> close h = false.
Proof. apply ltb_false_of_leb. Qed.

Lemma filter_close_all_far hits :
  (forall h, In h hits -> far h) -> List.filter close hits = [].
Proof.
  induction hits as [|h rest IH]; intros Hfar; [reflexivity|].
  cbn [List.filter].
  rewrite (far_not_close h) by (apply Hfar; left; reflexivity).
  apply IH. intros k Hk. apply Hfar. right. exact Hk.
Qed.

(** *** Indexing *)

Lemma prepare_loaded_mono entries :
  forall b, loaded b ⊆ loaded (prepare K entries b).
Proof.
  induction entries as [|e rest IH]; intros b; cbn; [set_solver|].
  destruct (decide (doc_id_of K e ∈ loaded b)); [apply IH|].
  etrans; [|apply IH]. cbn. set_solver.
Qed.

Lemma prepare_covers entries :
  forall b e, In e entries -> doc_id_of K e ∈ loaded (prepare K entries b).
Proof.
  induction entries as [|x rest IH]; intros b e Hin; [destruct Hin|].
  destruct Hin as [<-|Hin].
  - cbn. destruct (decide (doc_id_of K x ∈ loaded b)) as [Hx|Hx].
    + apply prepare_loaded_mono, Hx.
    + apply prepare_loaded_mono. cbn. set_solver.
  - cbn. destruct (decide (doc_id_of K x ∈ loaded b)); apply IH, Hin.
Qed.

Lemma prepare_known entries :
  forall b, (forall e, In e entries -> doc_id_of K e ∈ loaded b) ->
            prepare K entries b = b.
Proof.
  induction entries as [|x rest IH]; intros b Hknown; [reflexivity|].
  cbn. destruct (decide (doc_id_of K x ∈ loaded b)) as [Hx|Hx].
  - apply IH. intros e He. apply Hknown. right. exact He.
  - exfalso. apply Hx, Hknown. left. reflexivity.
Qed.

(** After a call, every document id of the directory is known, whether
    the call returned or raised. *)
Lemma index_directory_covers directory self e :
  In e (DatasetLoader.load_directory directory) ->
  doc_id_of K e ∈ _loaded_datasets (index_directory K directory self).2.
Proof.
  intros Hin. unfold index_directory.
  destruct (DatasetLoader.load_directory directory) as [|x rest] eqn:Hl;
    [destruct Hin|].
  set (b := prepare K (x :: rest) _).
  assert (Hb : doc_id_of K e ∈ loaded b) by (apply prepare_covers, Hin).
  destruct (doc_ids b); [exact Hb|].
  destruct (encode_batch K (texts b)); [|exact Hb].
  destruct (VectorStore.add_documents K _ _ _ _ _); exact Hb.
Qed.

(** A directory whose document ids are all known indexes nothing and
    leaves the retriever as it is. *)
Lemma index_directory_known directory self :
  (forall e, In e (DatasetLoader.load_directory directory) ->
             doc_id_of K e ∈ _loaded_datasets self) ->
  index_directory K directory self = (Return 0%Z, self).
Proof.
  intros Hknown. unfold index_directory.
  destruct (DatasetLoader.load_directory directory) as [|x rest];
    [reflexivity|].
  rewrite prepare_known by exact Hknown. cbn.
  destruct self; reflexivity.
Qed.

End WithKnowledge.

End RetrievalFacts.

(** C6: [RAGSystem.retrieve] drops every candidate hit whose distance is
    at or beyond 2.0 and joins the labeled reference blocks of the others,
    numbered from 1, with the delimiter; when every candidate is at or
    beyond 2.0 the result is the empty string. *)
Theorem retrieve_filters_by_distance
    (K : Knowledge) (self : RAGSystem.t) (query : string) (n_results : Z)
    (topic : option string) (min_relevance : float) (hits : list Hit) :
  RAGSystem.candidate_hits K self query n_results topic = Return hits ->
  RAGSystem.retrieve K self query n_results topic min_relevance =
    Return (String.concat RAGSystem.delimiter
              (Retrieval.blocks 1 (List.filter Retrieval.close hits))) /\
  (forall h, In h hits -> Retrieval.far h ->
             ~ In h (List.filter Retrieval.close hits)) /\
  ((forall h, In h hits -> Retrieval.far h) ->
   RAGSystem.retrieve K self query n_results topic min_relevance = Return "").
Proof.
  intros Hc.
  pose proof (RetrievalFacts.retrieve_context K self query n_results topic
                min_relevance) as Hr.
  rewrite Hc in Hr. unfold Retrieval.context_of in Hr.
  split; [exact Hr|split].
  - intros h _ Hfar Hin. apply filter_In in Hin as [_ Hclose].
    rewrite (RetrievalFacts.far_not_close h Hfar) in Hclose. discriminate.
  - intros Hall. rewrite Hr, (RetrievalFacts.filter_close_all_far hits Hall).
    reflexivity.
Qed.

Lemma retrieve_filters_by_distance_witness :
  RAGSystem.retrieve (Fixtures.two_hits 1.5 2.0) Fixtures.empty_rag
    "what is a wormhole" 3 None 0.3
    = Return ("[Reference 1 - relativity]" +:+ nl +:+ "Question: A?") /\
  RAGSystem.retrieve (Fixtures.two_hits 2.0 3.5) Fixtures.empty_rag
    "what is a wormhole" 3 None 0.3
    = Return "".
Proof.
  split.
  - destruct (retrieve_filters_by_distance (Fixtures.two_hits 1.5 2.0)
                Fixtures.empty_rag "what is a wormhole" 3 None 0.3 _ eq_refl)
      as (Hr & _ & _).
    exact Hr.
  - destruct (retrieve_filters_by_distance (Fixtures.two_hits 2.0 3.5)
                Fixtures.empty_rag "what is a wormhole" 3 None 0.3 _ eq_refl)
      as (_ & _ & Hfar).
    apply Hfar. intros h [<-|[<-|[]]]; reflexivity.
Defined.


(** C9: the [min_relevance] argument of [RAGSystem.retrieve] has no effect:
    two calls that differ in it only give the same result, which is
    decided by the candidate hits and the fixed ceiling alone. *)
Theorem retrieve_ignores_min_relevance
    (K : Knowledge) (self : RAGSystem.t) (query : string) (n_results : Z)
    (topic : option string) (a b : float) :
  RAGSystem.retrieve K self query n_results topic a =
  RAGSystem.retrieve K self query n_results topic b /\
  RAGSystem.retrieve K self query n_results topic a =
  match RAGSystem.candidate_hits K self query n_results topic with
  | Return hits =>
      Return (String.concat RAGSystem.delimiter
                (Retrieval.blocks 1
                   (List.filter (fun h => PrimFloat.ltb (hit_distance h) 2.0) hits)))
  | Raise e => Raise e
  end.
Proof.
  split.
  - rewrite !RetrievalFacts.retrieve_context. reflexivity.
  - apply RetrievalFacts.retrieve_context.
Qed.

(** ** Personality *)

Module PersonalityFacts.

Lemma choice_cons {A} (a : A) (l : list A) (r : Rng) :
exists x, In x (a :: l) /\ choice (a :: l) r = (Return x, advance r).
Proof.
eexists. split; [|reflexivity].
destruct (nth_in_or_default (pick r (cursor r) mod length (a :: l)) (a :: l) a)
  as [Hin|Hd]; [exact Hin|rewrite Hd; left; reflexivity].
Qed.

Lemma format_with_honesty_eq h response c r :
HonestyModule.format_with_honesty h response c r =
if Enhance.hedging h c
then match choice HonestyModule.HEDGING_PHRASES r with
     | (Return p, r') =>
         (match index0 response with
          | Return first => Return (p +:+ lower first +:+ from1 response)
          | Raise e => Raise e
          end, r')
     | (Raise e, r') => (Raise e, r')
     end
else if Enhance.brutal h r
then match choice HonestyModule.HONEST_PREFIXES (advance r) with
     | (Return p, r') => (Return (p +:+ response), r')
     | (Raise e, r') => (Raise e, r')
     end
else (Return response, advance r).
Proof.
unfold HonestyModule.format_with_honesty, Enhance.hedging, Enhance.brutal.
destruct (PrimFloat.ltb c 0.7 && PrimFloat.ltb 0.8 (HonestyModule.honesty_level h)).
- unfold bind, lift, ret.
  destruct (choice HonestyModule.HEDGING_PHRASES r) as [[p|e] r']; [|reflexivity].
  destruct (index0 response); reflexivity.
- unfold bind at 1. unfold random at 1. cbv beta iota.
  destruct (PrimFloat.ltb (uniform r (cursor r)) 0.1
            && PrimFloat.ltb 0.85 (HonestyModule.honesty_level h)); reflexivity.
Qed.

Lemma add_humor_eq hc response r :
HumorController.add_humor hc response r =
if Enhance.prefix_selected hc r
then match choice HumorController.SARCASTIC_PREFIXES (advance (advance r)) with
     | (Return p, r') =>
         (match index0 response with
          | Return first => Return (p +:+ lower first +:+ from1 response)
          | Raise e => Raise e
          end, r')
     | (Raise e, r') => (Raise e, r')
     end
else if negb (PrimFloat.ltb (uniform r (cursor r)) (HumorController.humor_level hc))
then (Return response, advance r)
else if PrimFloat.ltb (uniform r (S (cursor r))) 0.6
then match choice HumorController.SARCASTIC_SUFFIXES (advance (advance r)) with
     | (Return x, r') => (Return (response +:+ x), r')
     | (Raise e, r') => (Raise e, r')
     end
else if PrimFloat.ltb (uniform r (S (cursor r))) 0.8
        && PrimFloat.ltb 0.7 (HumorController.humor_level hc)
then match choice HumorController.MISSION_REFERENCES (advance (advance r)) with
     | (Return x, r') => (Return (response +:+ " " +:+ x), r')
     | (Raise e, r') => (Raise e, r')
     end
else (Return response, advance (advance r)).
Proof.
unfold HumorController.add_humor, HumorController.should_add_sarcasm, Enhance.prefix_selected.
unfold bind at 1. unfold bind at 1. unfold random at 1, ret at 1.
cbv beta iota.
destruct (PrimFloat.ltb (uniform r (cursor r)) (HumorController.humor_level hc));
  cbn [negb andb]; [|reflexivity].
unfold bind at 1. unfold random at 1. cbv beta iota. cbn [uniform cursor advance].
destruct (PrimFloat.ltb (uniform r (S (cursor r))) 0.3
          && PrimFloat.ltb 0.5 (HumorController.humor_level hc)).
- unfold bind, lift, ret.
  destruct (choice HumorController.SARCASTIC_PREFIXES (advance (advance r)))
    as [[p|e] r']; [|reflexivity].
  destruct (index0 response); reflexivity.
- destruct (PrimFloat.ltb (uniform r (S (cursor r))) 0.6); [reflexivity|].
  destruct (PrimFloat.ltb (uniform r (S (cursor r))) 0.8
            && PrimFloat.ltb 0.7 (HumorController.humor_level hc)); reflexivity.
Qed.

Lemma maybe_add_eq p r :
CueLight.maybe_add p r =
if PrimFloat.ltb (uniform r (cursor r)) p
then match choice CueLight.ACTIONS (advance r) with
     | (Return a, r') => (Return (" " +:+ a), r')
     | (Raise e, r') => (Raise e, r')
     end
else (Return "", advance r).
Proof.
unfold CueLight.maybe_add, CueLight.random_action.
unfold bind at 1. unfold random at 1. cbv beta iota.
destruct (PrimFloat.ltb (uniform r (cursor r)) p); reflexivity.
Qed.

(** A choice among the elements of a constant, non-empty list returns. *)
Ltac choose l r x Hx r' :=
let H := fresh "Hchoice" in
destruct (choice_cons (hd "" l) (tl l) r) as (x & Hx & H);
change (hd "" l :: tl l) with l in H, Hx; rewrite H; clear H.

Lemma add_humor_returns hc c t r :
exists out r', HumorController.add_humor hc (String c t) r = (Return out, r').
Proof.
rewrite add_humor_eq.
destruct (Enhance.prefix_selected hc r).
{ choose HumorController.SARCASTIC_PREFIXES (advance (advance r)) p Hp r'.
  cbn [index0]. eauto. }
destruct (negb _); [eauto|].
destruct (PrimFloat.ltb (uniform r (S (cursor r))) 0.6).
{ choose HumorController.SARCASTIC_SUFFIXES (advance (advance r)) p Hp r'. eauto. }
destruct (_ && _); [|eauto].
choose HumorController.MISSION_REFERENCES (advance (advance r)) p Hp r'. eauto.
Qed.

Lemma maybe_add_returns p r :
exists cue r', CueLight.maybe_add p r = (Return cue, r')
  /\ (cue = "" \/ exists a, In a CueLight.ACTIONS /\ cue = " " +:+ a).
Proof.
rewrite maybe_add_eq.
destruct (PrimFloat.ltb (uniform r (cursor r)) p).
- choose CueLight.ACTIONS (advance r) a Ha r'. eauto 8.
- eauto.
Qed.

Lemma honest_prefix_nonempty p :
In p HonestyModule.HONEST_PREFIXES -> exists c t, p +:+ "" = String c t.
Proof.
intros H. cbn in H.
repeat (destruct H as [<-|H]; [eexists _, _; reflexivity|]). destruct H.
Qed.

End PersonalityFacts.

(** ** Engine *)

Module EngineFacts.
Import TARSEngine.

Lemma truthy_app_r x y : truthy y = true -> truthy (x +:+ y) = true.
Proof. destruct x; [auto|reflexivity]. Qed.

Lemma time_responses_truthy ct action pct text :
  In text (ResponseGenerator.time_responses ct action pct) -> truthy text = true.
Proof.
  intros H. cbn in H.
  repeat (destruct H as [<-|H];
          [first [reflexivity | apply truthy_app_r; reflexivity]|]).
  destruct H.
Qed.

Lemma format_time_response_returns p now r pct :
  ResponseGenerator.percent
    (TARSConfig.tars_humor_level (ResponseGenerator.config p)) = Return pct ->
  exists action text,
    In action CueLight.ACTIONS /\
    In text (ResponseGenerator.time_responses (strftime_IMp now) action pct) /\
    ResponseGenerator.format_time_response p now r
      = (Return text, advance (advance r)).
Proof.
  intros Hpct. unfold ResponseGenerator.format_time_response, CueLight.random_action.
  unfold bind at 1.
  PersonalityFacts.choose CueLight.ACTIONS r action Ha r'.
  unfold bind at 1, lift. rewrite Hpct.
  destruct (PersonalityFacts.choice_cons
              (hd "" (ResponseGenerator.time_responses (strftime_IMp now) action pct))
              (tl (ResponseGenerator.time_responses (strftime_IMp now) action pct))
              (advance r)) as (text & Ht & Hc).
  exists action, text. split; [exact Ha|]. split; [exact Ht|exact Hc].
Qed.

Lemma time_query_commands s :
  _handle_special_commands "what time is it?" s =
  (do r <- randomly (ResponseGenerator.format_time_response
                       (personality (self s)) (now s));
   ret (Some r)) s.
Proof. reflexivity. Qed.

(** A query that no rule matches leaves the state as it is. *)
Lemma no_match_no_effect user_input s :
  fst (_handle_special_commands user_input s) = Return None ->
  _handle_special_commands user_input s = (Return None, s).
Proof.
  unfold _handle_special_commands.
  unfold bind at 1, get. cbv beta iota.
  repeat match goal with
         | |- context [if ?b then _ else _] => destruct b
         end;
    try reflexivity;
    unfold bind, ret, lift;
    match goal with
    | |- context [match ?c with (_, _) => _ end] => destruct c as [[?|?] ?]
    | |- context [match ?c with Return _ => _ | Raise _ => _ end] => destruct c
    end; cbn; discriminate.
Qed.
End EngineFacts.



Import PersonalityFacts EngineFacts.

(** C10, as claimed, fails: with the default settings and every float draw
    at 0.05 the honesty stage puts a brutal-honesty prefix before the empty
    text, the humor draws then select the sarcastic-prefix branch, and
    [enhance_response] returns a text. *)
Lemma prefix_branch_after_honest_prefix_returns :
  Enhance.hedging (ResponseGenerator.honesty Fixtures.tars) 0.9 = false /\
  Enhance.prefix_selected (ResponseGenerator.humor Fixtures.tars)
    (Enhance.entering_humor Fixtures.tars 0.9 (Fixtures.steady 0.05)) = true /\
  fst (ResponseGenerator.enhance_response Fixtures.tars "" true true 0.9
         (Fixtures.steady 0.05))
    = Return "How original—my 90% honesty compels me to say:  *Cue light rotates*" /\
  ~ (forall self certainty cue r,
       Enhance.hedging (ResponseGenerator.honesty self) certainty = true \/
       Enhance.prefix_selected (ResponseGenerator.humor self)
         (Enhance.entering_humor self certainty r) = true ->
       fst (ResponseGenerator.enhance_response self "" true cue certainty r)
         = Raise Enhance.index_error).
Proof.
  assert (H1 : Enhance.prefix_selected (ResponseGenerator.humor Fixtures.tars)
                 (Enhance.entering_humor Fixtures.tars 0.9 (Fixtures.steady 0.05))
               = true) by (vm_compute; reflexivity).
  assert (H2 : fst (ResponseGenerator.enhance_response Fixtures.tars "" true true 0.9
                      (Fixtures.steady 0.05))
    = Return "How original—my 90% honesty compels me to say:  *Cue light rotates*")
    by (vm_compute; reflexivity).
  split; [vm_compute; reflexivity|]. split; [exact H1|]. split; [exact H2|].
  intros Hclaim.
  specialize (Hclaim Fixtures.tars 0.9%float true (Fixtures.steady 0.05) (or_intror H1)).
  rewrite H2 in Hclaim. discriminate Hclaim.
Qed.

(** C10, amended: on the empty string [enhance_response] raises the
    [IndexError] of [response[0]] exactly when the Enhance.hedging branch applies,
    or when it does not, the honesty stage adds no brutal-honesty prefix
    and the humor draws select the sarcastic-prefix branch.  (After a
    brutal-honesty prefix the text is no longer empty.) *)
Theorem enhance_empty_raises_iff
    (self : ResponseGenerator.t) (cue : bool) (certainty : float) (r : Rng) :
  fst (ResponseGenerator.enhance_response self "" true cue certainty r)
    = Raise Enhance.index_error <->
  Enhance.hedging (ResponseGenerator.honesty self) certainty = true \/
  (Enhance.hedging (ResponseGenerator.honesty self) certainty = false /\
   Enhance.brutal (ResponseGenerator.honesty self) r = false /\
   Enhance.prefix_selected (ResponseGenerator.humor self) (advance r) = true).
Proof.
  unfold ResponseGenerator.enhance_response.
  unfold bind at 1. rewrite format_with_honesty_eq.
  destruct (Enhance.hedging (ResponseGenerator.honesty self) certainty).
  { choose HonestyModule.HEDGING_PHRASES r p Hp r'. cbn. split; auto. }
  destruct (Enhance.brutal (ResponseGenerator.honesty self) r).
  { choose HonestyModule.HONEST_PREFIXES (advance r) p Hp r'.
    destruct (honest_prefix_nonempty p Hp) as (c & t & ->).
    unfold bind at 1.
    destruct (add_humor_returns (ResponseGenerator.humor self) c t (advance (advance r)))
      as (out & r2 & ->).
    split.
    - destruct cue; [|discriminate].
      unfold bind. destruct (maybe_add_returns 0.12 r2) as (q & r3 & -> & _).
      discriminate.
    - intros [?|(_ & ? & _)]; discriminate. }
  unfold bind at 1. rewrite add_humor_eq.
  destruct (Enhance.prefix_selected (ResponseGenerator.humor self) (advance r)).
  { choose HumorController.SARCASTIC_PREFIXES (advance (advance (advance r))) p Hp r'.
    cbn. split; auto. }
  split; [|intros [?|(_ & _ & ?)]; discriminate].
  destruct (negb _).
  { destruct cue; [|discriminate]. unfold bind.
    destruct (maybe_add_returns 0.12 (advance (advance r))) as (q & r3 & -> & _).
    discriminate. }
  destruct (PrimFloat.ltb _ 0.6).
  { choose HumorController.SARCASTIC_SUFFIXES (advance (advance (advance r))) p Hp r'.
    destruct cue; [|discriminate]. unfold bind.
    destruct (maybe_add_returns 0.12 (advance (advance (advance (advance r))))) as (q & r3 & -> & _).
    discriminate. }
  destruct (_ && _).
  { choose HumorController.MISSION_REFERENCES (advance (advance (advance r))) p Hp r'.
    destruct cue; [|discriminate]. unfold bind.
    destruct (maybe_add_returns 0.12 (advance (advance (advance (advance r))))) as (q & r3 & -> & _).
    discriminate. }
  destruct cue; [|discriminate]. unfold bind.
  destruct (maybe_add_returns 0.12 (advance (advance (advance r)))) as (q & r3 & -> & _).
  discriminate.
Qed.


Lemma enhance_empty_raises_iff_witness :
  Enhance.hedging (ResponseGenerator.honesty Fixtures.tars) 0.5 = true /\
  fst (ResponseGenerator.enhance_response Fixtures.tars "" true true 0.5
         (Fixtures.steady 0.5))
    = Raise (IndexError "string index out of range") /\
  fst (ResponseGenerator.enhance_response Fixtures.tars "" true true 0.9
         (Fixtures.steady 0.25))
    = Raise (IndexError "string index out of range").
Proof.
  split; [reflexivity|]. split.
  - apply (enhance_empty_raises_iff Fixtures.tars true 0.5 (Fixtures.steady 0.5)).
    left. reflexivity.
  - apply (enhance_empty_raises_iff Fixtures.tars true 0.9 (Fixtures.steady 0.25)).
    right. repeat split; reflexivity.
Defined.


(** C5: for the input "what time is it?" [chat] answers with one of the
    time responses, built on the current time formatted as [%I:%M %p];
    the engine, and with it the memory store, is left as it was, and no
    handler is called.  (The humor percentage that the responses quote
    has to be computable: the humor level is a finite number.) *)
Theorem time_query_is_intercepted
    (K : Knowledge) (s : TARSEngine.State) (enhance_response : bool) (pct : string) :
  ResponseGenerator.percent
    (TARSConfig.tars_humor_level
       (ResponseGenerator.config (TARSEngine.personality (TARSEngine.self s))))
    = Return pct ->
  exists action text s',
    TARSEngine.chat K "what time is it?" enhance_response s = (Return text, s') /\
    In action CueLight.ACTIONS /\
    In text (ResponseGenerator.time_responses
               (strftime_IMp (TARSEngine.now s)) action pct) /\
    TARSEngine.memory (TARSEngine.self s') = TARSEngine.memory (TARSEngine.self s) /\
    TARSEngine.self s' = TARSEngine.self s /\
    TARSEngine.calls s' = TARSEngine.calls s.
Proof.
  intros Hpct.
  destruct (format_time_response_returns
              (TARSEngine.personality (TARSEngine.self s)) (TARSEngine.now s)
              (TARSEngine.rng s) pct Hpct) as (action & text & Ha & Ht & Hf).
  exists action, text,
    (TARSEngine.with_rng (advance (advance (TARSEngine.rng s))) s).
  split; [|repeat split; assumption].
  unfold TARSEngine.chat.
  change (strip "what time is it?") with "what time is it?".
  unfold bind at 1, get. cbv beta iota. cbn [truthy negb].
  unfold bind at 1. rewrite time_query_commands.
  unfold bind at 1. unfold TARSEngine.randomly, zoom. rewrite Hf.
  unfold ret at 1. cbv beta iota. cbn [TARSEngine.answered].
  rewrite (time_responses_truthy _ _ _ _ Ht). reflexivity.
Qed.

(** C8: on an input that is not empty and that no command rule matches,
    [chat_stream] yields the chunks of the primary handler's
    [generate_stream] and then at most one cue-light suffix; the one
    handler call made is the primary's.  When the primary's stream raises,
    at its start or later, the exception leaves [chat_stream] after the
    chunks received so far and no fallback handler is called.  (An engine
    that was given a bare handler has no primary handler to stream from:
    the generator raises [AttributeError] before any call.) *)
Theorem stream_uses_primary_only (s : TARSEngine.State) (user_input : string) :
  truthy (strip user_input) = true ->
  fst (TARSEngine._handle_special_commands (strip user_input) s) = Return None ->
  let stored := snd (TARSEngine.remember "user" (strip user_input) s) in
  match TARSEngine.llm (TARSEngine.self s) with
  | IsRouter r =>
      let primary :=
        BaseLLMHandler.generate_stream (MultiProviderLLM.primary_handler r)
          (strip user_input) (TARSEngine.trailing_history stored) in
      exists suffix finish s',
        TARSEngine.chat_stream user_input s = ((fst primary ++ suffix, finish), s') /\
        TARSEngine.calls s' = TARSEngine.calls s ++ [CallStream Primary] /\
        (suffix = [] \/ exists a, In a CueLight.ACTIONS /\ suffix = [" " +:+ a]) /\
        match snd primary with
        | Some e => suffix = [] /\ finish = Raise e
        | None => finish = Return tt
        end
  | IsHandler _ =>
      TARSEngine.chat_stream user_input s =
        (([], Raise (AttributeError "object has no attribute 'primary_handler'")),
         stored) /\
      TARSEngine.calls stored = TARSEngine.calls s
  end.
Proof.
  intros Hne Hnone stored.
  apply no_match_no_effect in Hnone.
  assert (Hcalls : TARSEngine.calls stored = TARSEngine.calls s).
  { unfold stored, TARSEngine.remember.
    destruct (MemoryStore.add_message _ _ _ _ _ _). reflexivity. }
  assert (Hllm : TARSEngine.llm (TARSEngine.self stored)
                 = TARSEngine.llm (TARSEngine.self s)).
  { unfold stored, TARSEngine.remember.
    destruct (MemoryStore.add_message _ _ _ _ _ _). reflexivity. }
  unfold TARSEngine.chat_stream. rewrite Hne, Hnone. cbn [negb TARSEngine.answered].
  fold stored. rewrite Hllm.
  destruct (TARSEngine.llm (TARSEngine.self s)) as [r|h].
  2: { split; [reflexivity|exact Hcalls]. }
  cbn zeta.
  destruct (BaseLLMHandler.generate_stream (MultiProviderLLM.primary_handler r)
              (strip user_input) (TARSEngine.trailing_history stored))
    as [chunks [e|]]; cbn [fst snd].
  - exists [], (Raise e). eexists. rewrite app_nil_r.
    split; [reflexivity|]. cbn. rewrite Hcalls. auto.
  - unfold TARSEngine.randomly, zoom.
    destruct (maybe_add_returns 0.1
                (TARSEngine.rng (TARSEngine.with_calls
                   (TARSEngine.calls stored ++ [CallStream Primary]) stored)))
      as (cue & r' & Hq & Hcue).
    rewrite Hq.
    destruct Hcue as [->|(a & Ha & ->)].
    + exists [], (Return tt). eexists. rewrite app_nil_r.
      split; [reflexivity|]. split; [|auto].
      unfold TARSEngine.remember. cbn [truthy].
      destruct (MemoryStore.add_message _ _ _ _ _ _). cbn. rewrite Hcalls. reflexivity.
    + exists [" " +:+ a], (Return tt). eexists.
      split; [reflexivity|]. split; [|eauto].
      unfold TARSEngine.remember. cbn [truthy].
      destruct (MemoryStore.add_message _ _ _ _ _ _). cbn. rewrite Hcalls. reflexivity.
Qed.

Lemma time_query_is_intercepted_witness :
  exists action text s',
    TARSEngine.chat (Fixtures.two_hits 1.5 2.0) "what time is it?" true Fixtures.state
      = (Return text, s') /\
    In action CueLight.ACTIONS /\
    In text (ResponseGenerator.time_responses "12:30 PM" action "60") /\
    TARSEngine.memory (TARSEngine.self s') = Fixtures.empty_store /\
    TARSEngine.self s' = Fixtures.engine /\
    TARSEngine.calls s' = [].
Proof.
  apply (time_query_is_intercepted (Fixtures.two_hits 1.5 2.0) Fixtures.state true "60").
  reflexivity.
Defined.

Lemma stream_uses_primary_only_witness :
  exists s',
    TARSEngine.chat_stream "hello" Fixtures.state
      = (([], Raise (RuntimeError "down")), s') /\
    TARSEngine.calls s' = [CallStream Primary].
Proof.
  pose proof (stream_uses_primary_only Fixtures.state "hello" eq_refl eq_refl) as H.
  unfold Fixtures.state, Fixtures.engine in H.
  cbn [TARSEngine.llm TARSEngine.self] in H.
  destruct H as (suffix & finish & s' & Hrun & Hcalls & _ & Hfail).
  cbn in Hfail. destruct Hfail as [-> ->].
  exists s'. split; [exact Hrun | exact Hcalls].
Defined.

(** * Further properties of the code *)

(** ** Strings *)

Module StringFacts.

Lemma append_assoc (a b c : string) : (a +:+ b) +:+ c = a +:+ b +:+ c.
Proof.
  induction a as [|x a IH]; [reflexivity|].
  change (String x ((a +:+ b) +:+ c) = String x (a +:+ b +:+ c)). congruence.
Qed.

Lemma append_nil_r (a : string) : a +:+ "" = a.
Proof.
  induction a as [|x a IH]; [reflexivity|].
  change (String x (a +:+ "") = String x a). congruence.
Qed.

Lemma append_nil_inv (a b : string) : a +:+ b = "" -> a = "" /\ b = "".
Proof. destruct a; [auto|discriminate]. Qed.

Lemma length_append (a b : string) :
  String.length (a +:+ b) = String.length a + String.length b.
Proof.
  induction a as [|x a IH]; [reflexivity|].
  change (S (String.length (a +:+ b)) = S (String.length a + String.length b)).
  congruence.
Qed.

Lemma append_inj_r (s a b : string) : a +:+ s = b +:+ s -> a = b.
Proof.
  revert b. induction a as [|x a IH]; intros [|y b] H.
  - reflexivity.
  - apply (f_equal String.length) in H. rewrite !length_append in H. cbn in H. lia.
  - apply (f_equal String.length) in H. rewrite !length_append in H. cbn in H. lia.
  - change (String x (a +:+ s) = String y (b +:+ s)) in H.
    injection H as -> H. f_equal. apply IH, H.
Qed.

Lemma lower_ascii_idem (c : ascii) : lower_ascii (lower_ascii c) = lower_ascii c.
Proof. destruct c as [[] [] [] [] [] [] [] []]; reflexivity. Qed.

Lemma concat_snoc (chunks : list string) (cue : string) :
  String.concat "" (chunks ++ [cue]) = String.concat "" chunks +:+ cue.
Proof.
  induction chunks as [|c rest IH]; [reflexivity|].
  destruct rest as [|d rest].
  - reflexivity.
  - change (String.concat "" ((c :: d :: rest) ++ [cue]))
      with (c +:+ "" +:+ String.concat "" ((d :: rest) ++ [cue])).
    rewrite IH.
    change (String.concat "" (c :: d :: rest))
      with (c +:+ "" +:+ String.concat "" (d :: rest)).
    rewrite !append_assoc. reflexivity.
Qed.

Lemma contains_nonempty phrase text :
  contains phrase text = true -> truthy phrase = true -> truthy text = true.
Proof. destruct text, phrase; cbn; congruence. Qed.

End StringFacts.

(** ** Memory store: history and persistence *)

Module HistoryFacts.

Import MemoryStore MemoryFacts.

Lemma active_save c m :
  active_conversation_id (_save_conversation c m) = active_conversation_id m.
Proof. unfold _save_conversation. destruct (persist_dir m); reflexivity. Qed.

(** The trimming step keeps the last [max] messages. *)
Lemma trim_drop {A} (max : Z) (l : list A) :
  (1 <= max)%Z ->
  (if (max <? Z.of_nat (length l))%Z then slice_from (- max) l else l)
  = drop (length l - Z.to_nat max) l.
Proof.
  intros Hmax. destruct (Z.ltb_spec max (Z.of_nat (length l))).
  - unfold slice_from. destruct (Z.ltb_spec (- max) 0); [|lia].
    f_equal. lia.
  - replace (length l - Z.to_nat max) with 0 by lia. reflexivity.
Qed.

(** After a call without a conversation id, the conversation written to
    is the active one. *)
Lemma add_message_active now role content md m :
  let r := add_message now role content None md m in
  exists c,
    get_conversation None r.2 = Some (target now None m, c) /\
    Conversation.messages c =
      (if (max_messages m <? Z.of_nat (length (before None m ++ [r.1])))%Z
       then slice_from (- max_messages m) (before None m ++ [r.1])
       else before None m ++ [r.1]).
Proof.
  intros r.
  destruct (add_message_target now role content None md m) as (c & Hc & Hm).
  fold r in Hc, Hm. exists c. split; [|exact Hm].
  assert (Hact : active_conversation_id r.2 = Some (target now None m)).
  { unfold r, add_message, target.
    destruct (get_conversation None m) as [[k c0]|] eqn:Hg.
    - cbn. assert (active_conversation_id m = Some k).
      { unfold get_conversation in Hg.
        destruct (active_conversation_id m) as [a|]; [|discriminate].
        destruct (conversations m !! a); [|discriminate]. congruence. }
      destruct (auto_save _); [rewrite active_save|]; cbn; assumption.
    - assert (Ha : active_conversation_id (create_conversation now None m).2
                   = Some ("conv_" +:+ strftime_stamp now)).
      { unfold create_conversation. cbn.
        destruct (auto_save _); [rewrite active_save|]; reflexivity. }
      destruct (create_conversation now None m) as [c0 m']. cbn in Ha. cbn.
      destruct (auto_save _); [rewrite active_save|]; cbn; exact Ha. }
  unfold get_conversation. rewrite Hact, Hc. reflexivity.
Qed.

Lemma get_history_active m k c :
  get_conversation None m = Some (k, c) ->
  get_history None None m = map Message.to_dict (Conversation.messages c).
Proof. intros H. unfold get_history. rewrite H. reflexivity. Qed.

Lemma message_of now role content cid md m :
  Message.to_dict (add_message now role content cid md m).1
  = {| rc_role := role; rc_content := content |}.
Proof.
  unfold add_message.
  destruct (get_conversation cid m) as [[k c]|].
  - reflexivity.
  - destruct (create_conversation now None m). reflexivity.
Qed.

(** The history after one call: the last messages of the old history
    followed by the new one. *)
Lemma history_after_add now role content md m :
  (1 <= max_messages m)%Z ->
  get_history None None (add_message now role content None md m).2
  = drop (length (before None m) + 1 - Z.to_nat (max_messages m))
         (map Message.to_dict (before None m))
    ++ [ {| rc_role := role; rc_content := content |} ].
Proof.
  intros Hmax.
  destruct (add_message_active now role content md m) as (c & Hg & Hm).
  rewrite (get_history_active _ _ _ Hg), Hm, trim_drop by exact Hmax.
  rewrite length_app. cbn [length].
  rewrite drop_app_le by lia.
  rewrite map_app. cbn [map]. rewrite message_of.
  f_equal. rewrite <- fmap_drop. reflexivity.
Qed.

Lemma history_before m :
  get_history None None m = map Message.to_dict (before None m).
Proof.
  unfold get_history, before. destruct (get_conversation None m) as [[k c]|]; reflexivity.
Qed.

(** The history after one call, from the history before it. *)
Lemma history_step now role content md m :
  (1 <= max_messages m)%Z ->
  get_history None None (add_message now role content None md m).2
  = drop (length (get_history None None m) + 1 - Z.to_nat (max_messages m))
         (get_history None None m)
    ++ [ {| rc_role := role; rc_content := content |} ].
Proof.
  intros Hmax. rewrite history_after_add by exact Hmax.
  rewrite history_before, length_map. reflexivity.
Qed.


Lemma slice_from_nil {A} (i : Z) : slice_from i (@nil A) = [].
Proof. unfold slice_from. destruct (i <? 0)%Z; apply drop_nil. Qed.

Lemma slice_from_map {A B} (f : A -> B) (i : Z) (l : list A) :
  map f (slice_from i l) = slice_from i (map f l).
Proof.
  unfold slice_from. rewrite length_map.
  destruct (i <? 0)%Z; apply fmap_drop.
Qed.

Lemma get_history_window m (n : Z) :
  n <> 0%Z ->
  get_history None (Some n) m = slice_from (- n) (get_history None None m).
Proof.
  intros Hn. unfold get_history.
  destruct (get_conversation None m) as [[k c]|]; [|rewrite slice_from_nil; reflexivity].
  unfold Conversation.get_history.
  destruct (Z.eqb_spec n 0); [contradiction|].
  apply slice_from_map.
Qed.

Lemma slice_from_last {A} (n : Z) (l : list A) :
  (0 < n)%Z -> slice_from (- n) l = drop (length l - Z.to_nat n) l.
Proof.
  intros Hn. unfold slice_from. destruct (Z.ltb_spec (- n) 0); [|lia].
  f_equal. lia.
Qed.

Lemma all_but_last {A} (l : list A) (a : A) :
  match l ++ [a] with
  | [] => []
  | _ => slice_to (-1) (l ++ [a])
  end = l.
Proof.
  destruct (l ++ [a]) as [|x rest] eqn:Hd; [destruct l; discriminate|].
  rewrite <- Hd. unfold slice_to. cbn [Z.ltb Z.compare].
  rewrite length_app. cbn [length].
  replace (Z.to_nat (Z.of_nat (length l + 1) + -1)) with (length l) by lia.
  apply take_app_length.
Qed.

End HistoryFacts.

Module PersistenceFacts.

Import MemoryStore MemoryFacts HistoryFacts Persistence StringFacts.

Lemma named_insert c files :
  named files -> named (<[Conversation.id c +:+ ".json" := c]> files).
Proof.
  intros Hn f c' Hf. apply lookup_insert_Some in Hf as [[<- <-]|[_ Hf]];
    [reflexivity|apply Hn, Hf].
Qed.

(** Loading reads each well-named file back under its conversation id. *)
Lemma load_named (files : gmap string Conversation.t) :
  named files ->
  forall k,
    map_fold (fun _ c acc => <[Conversation.id c := c]> acc)
             (∅ : gmap string Conversation.t) files !! k
    = files !! (k +:+ ".json").
Proof.
  apply (map_fold_weak_ind
           (fun (acc files : gmap string Conversation.t) => named files ->
              forall k, acc !! k = files !! (k +:+ ".json"))).
  - intros _ k. rewrite !lookup_empty. reflexivity.
  - intros f c files' acc Hfresh IH Hn k.
    assert (Hf : f = Conversation.id c +:+ ".json").
    { apply Hn. apply lookup_insert_eq. }
    assert (Hn' : named files').
    { intros f' c' Hf'. apply Hn. rewrite lookup_insert_ne; [exact Hf'|].
      intros <-. rewrite Hfresh in Hf'. discriminate. }
    subst f.
    destruct (decide (k = Conversation.id c)) as [->|Hk].
    + rewrite !lookup_insert_eq. reflexivity.
    + rewrite !lookup_insert_ne; [apply IH, Hn'| |congruence].
      intros Heq. apply append_inj_r in Heq. congruence.
Qed.

(** Loading keeps what the files hold. *)
Lemma load_values (files : gmap string Conversation.t) :
  forall k c,
    map_fold (fun _ c acc => <[Conversation.id c := c]> acc)
             (∅ : gmap string Conversation.t) files !! k = Some c ->
    exists f, files !! f = Some c.
Proof.
  apply (map_fold_weak_ind
           (fun (acc files : gmap string Conversation.t) =>
              forall k c, acc !! k = Some c -> exists f, files !! f = Some c)).
  - intros k c H. rewrite lookup_empty in H. discriminate.
  - intros f x files' acc Hfresh IH k c Hk.
    apply lookup_insert_Some in Hk as [[_ <-]|[_ Hk]].
    + exists f. apply lookup_insert_eq.
    + destruct (IH k c Hk) as [f' Hf']. exists f'.
      rewrite lookup_insert_ne; [exact Hf'|].
      intros <-. rewrite Hfresh in Hf'. discriminate.
Qed.

(** With a directory name that is not empty the store has a directory. *)
Lemma init_some d max auto on_disk :
  truthy d = true ->
  __init__ (Some d) max auto on_disk
  = _load_conversations
      {| persist_dir := Some d; max_messages := max; auto_save := auto;
         conversations := ∅; active_conversation_id := None; disk := on_disk |}.
Proof. intros Hd. unfold __init__. rewrite Hd. reflexivity. Qed.

Lemma init_synced d max auto on_disk :
  truthy d = true ->
  named on_disk -> synced (__init__ (Some d) max auto on_disk).
Proof.
  intros Hd Hn. rewrite (init_some d max auto on_disk Hd).
  split; [exact Hn|]. intros k. cbn. apply load_named, Hn.
Qed.

Lemma init_persistent d max on_disk :
  truthy d = true -> persistent (__init__ (Some d) max true on_disk).
Proof.
  intros Hd. rewrite (init_some d max true on_disk Hd).
  split; [exists d|]; reflexivity.
Qed.

Lemma init_max persist_dir max auto on_disk :
  max_messages (__init__ persist_dir max auto on_disk) = max.
Proof.
  unfold __init__, _load_conversations.
  destruct persist_dir as [d|]; [destruct (truthy d)|]; reflexivity.
Qed.

Lemma init_active persist_dir max auto on_disk :
  active_conversation_id (__init__ persist_dir max auto on_disk) = None.
Proof.
  unfold __init__, _load_conversations.
  destruct persist_dir as [d|]; [destruct (truthy d)|]; reflexivity.
Qed.

Lemma init_bounded persist_dir max auto on_disk :
  (forall f c, on_disk !! f = Some c ->
               (Z.of_nat (length (Conversation.messages c)) <= max)%Z) ->
  bounded (__init__ persist_dir max auto on_disk).
Proof.
  intros Hdisk k c. unfold __init__, _load_conversations.
  destruct persist_dir as [d|]; [destruct (truthy d)|]; cbn.
  - intros Hk. apply load_values in Hk as [f Hf]. apply (Hdisk f c Hf).
  - intros Hk. rewrite lookup_empty in Hk. discriminate.
  - intros Hk. rewrite lookup_empty in Hk. discriminate.
Qed.

Lemma synced_key m k c :
  synced m -> conversations m !! k = Some c -> Conversation.id c = k.
Proof.
  intros [Hn Hs] Hk. rewrite Hs in Hk. apply Hn in Hk.
  apply append_inj_r in Hk. congruence.
Qed.

Lemma get_conversation_lookup cid m k c :
  get_conversation cid m = Some (k, c) -> conversations m !! k = Some c.
Proof.
  unfold get_conversation.
  destruct (match cid with
            | Some i => if truthy i then Some i else active_conversation_id m
            | None => active_conversation_id m
            end) as [k'|]; [|discriminate].
  destruct (conversations m !! k') eqn:Hk; [|discriminate].
  intros [= <- <-]. exact Hk.
Qed.

Lemma save_synced c k m :
  persistent m -> named (disk m) -> Conversation.id c = k ->
  (forall j, j <> k -> conversations m !! j = disk m !! (j +:+ ".json")) ->
  conversations m !! k = Some c ->
  synced (_save_conversation c m) /\ persistent (_save_conversation c m).
Proof.
  intros [[d Hd] Ha] Hn Hid Hs Hk. unfold _save_conversation. rewrite Hd.
  split; [split|split; [exists d; exact Hd|exact Ha]]; cbn.
  - apply named_insert, Hn.
  - intros j. rewrite Hid.
    destruct (decide (j = k)) as [->|Hj].
    + rewrite lookup_insert_eq. exact Hk.
    + rewrite lookup_insert_ne; [apply Hs, Hj|].
      intros Heq. apply append_inj_r in Heq. congruence.
Qed.

Lemma create_synced now m :
  persistent m -> synced m ->
  synced (create_conversation now None m).2 /\
  persistent (create_conversation now None m).2.
Proof.
  intros Hp [Hn Hs]. unfold create_conversation. cbn [snd].
  destruct Hp as [[d Hd] Ha].
  replace (auto_save (with_active _ (with_conversations _ m))) with true
    by (symmetry; exact Ha).
  apply (save_synced _ ("conv_" +:+ strftime_stamp now)).
  - split; [exists d; exact Hd|exact Ha].
  - exact Hn.
  - reflexivity.
  - intros j Hj. cbn. rewrite lookup_insert_ne by congruence. apply Hs.
  - cbn. apply lookup_insert_eq.
Qed.

(** A persistent store stays in step with its directory. *)
Lemma add_message_synced now role content cid md m :
  persistent m -> synced m ->
  synced (add_message now role content cid md m).2 /\
  persistent (add_message now role content cid md m).2.
Proof.
  intros Hp Hs. unfold add_message.
  destruct (get_conversation cid m) as [[k c]|] eqn:Hg.
  - pose proof (get_conversation_lookup _ _ _ _ Hg) as Hk.
    pose proof (synced_key m k c Hs Hk) as Hid.
    cbn -[Conversation.with_messages slice_from].
    destruct Hp as [[d Hd] Ha], Hs as [Hn Hs]. rewrite Ha.
    match goal with |- context [_save_conversation ?c' ?m'] =>
      apply (save_synced c' k m') end.
    + split; [exists d; exact Hd|exact Ha].
    + exact Hn.
    + destruct (_ <? _)%Z; exact Hid.
    + intros j Hj. cbn. rewrite lookup_insert_ne by congruence. apply Hs.
    + cbn. apply lookup_insert_eq.
  - destruct (create_synced now m Hp Hs) as [Hs' Hp'].
    assert (Hk : conversations (create_conversation now None m).2
                 !! Conversation.id (create_conversation now None m).1
                 = Some (create_conversation now None m).1).
    { unfold create_conversation. cbn.
      destruct (auto_save m); [rewrite conversations_save|]; cbn; apply lookup_insert_eq. }
    destruct (create_conversation now None m) as [c m'].
    cbn [fst snd] in *.
    cbn -[Conversation.with_messages slice_from].
    destruct Hp' as [[d Hd] Ha], Hs' as [Hn Hs']. rewrite Ha.
    match goal with |- context [_save_conversation ?c' ?m''] =>
      apply (save_synced c' (Conversation.id c) m'') end.
    + split; [exists d; exact Hd|exact Ha].
    + exact Hn.
    + destruct (_ <? _)%Z; reflexivity.
    + intros j Hj. cbn. rewrite lookup_insert_ne by congruence. apply Hs'.
    + cbn. apply lookup_insert_eq.
Qed.

Lemma add_messages_synced requests :
  forall m, persistent m -> synced m ->
            synced (add_messages requests m) /\ persistent (add_messages requests m).
Proof.
  induction requests as [|[[[now role] content] cid] rest IH]; intros m Hp Hs;
    [split; assumption|].
  cbn. destruct (add_message_synced now role content cid None m Hp Hs) as [Hs' Hp'].
  apply IH; assumption.
Qed.

Lemma reload_synced d max auto m :
  truthy d = true ->
  synced m -> conversations (__init__ (Some d) max auto (disk m)) = conversations m.
Proof.
  intros Hd [Hn Hs]. rewrite (init_some d max auto (disk m) Hd).
  apply map_eq. intros k. cbn.
  rewrite (load_named (disk m) Hn). symmetry. apply Hs.
Qed.

(** An empty directory name gives a store without a directory: nothing is
    loaded and nothing will be written. *)
Lemma init_empty_name max auto on_disk :
  __init__ (Some "") max auto on_disk = __init__ None max auto on_disk.
Proof. reflexivity. Qed.

End PersistenceFacts.

(** X1: with a maximum of at least one, the history of the active
    conversation after [add_message] is the history before it, cut to its
    last [max_messages - 1] messages, followed by the new message: the
    store is a sliding window that drops the oldest messages first. *)
Theorem history_is_a_sliding_window
    (now : datetime) (role content : string) (metadata : option (gmap string string))
    (m : MemoryStore.t) :
  (1 <= MemoryStore.max_messages m)%Z ->
  let history := MemoryStore.get_history None None m in
  MemoryStore.get_history None None
    (MemoryStore.add_message now role content None metadata m).2
  = drop (length history + 1 - Z.to_nat (MemoryStore.max_messages m)) history
    ++ [ {| rc_role := role; rc_content := content |} ].
Proof.
  intros Hmax history. unfold history.
  rewrite HistoryFacts.history_after_add by exact Hmax.
  rewrite HistoryFacts.history_before, length_map. reflexivity.
Qed.

Lemma history_is_a_sliding_window_witness :
  MemoryStore.get_history None None
    (MemoryStore.add_messages Samples.three_requests
       (MemoryStore.__init__ None 2 true ∅))
  = [ {| rc_role := "assistant"; rc_content := "two" |};
      {| rc_role := "user"; rc_content := "three" |} ].
Proof.
  cbn [MemoryStore.add_messages Samples.three_requests].
  rewrite (history_is_a_sliding_window Fixtures.noon "user" "three" None)
    by (vm_compute; discriminate).
  reflexivity.
Defined.

(** X2: a store created with a maximum of at least one, over a directory
    whose conversations are within that maximum, keeps every conversation
    within the maximum through any sequence of [add_message] calls,
    whichever conversations they address. *)
Theorem store_stays_within_maximum
    (persist_dir : option string) (max : Z) (auto_save : bool)
    (on_disk : gmap string Conversation.t)
    (requests : list (datetime * string * string * option string)) :
  (1 <= max)%Z ->
  (forall f c, on_disk !! f = Some c ->
               (Z.of_nat (length (Conversation.messages c)) <= max)%Z) ->
  MemoryStore.bounded
    (MemoryStore.add_messages requests
       (MemoryStore.__init__ persist_dir max auto_save on_disk)).
Proof.
  intros Hmax Hdisk. apply MemoryFacts.add_messages_preserves_bounded.
  - rewrite PersistenceFacts.init_max. exact Hmax.
  - apply PersistenceFacts.init_bounded, Hdisk.
Qed.

Lemma store_stays_within_maximum_witness :
  (MemoryStore.message_count "conv_20240517_123000"
     (MemoryStore.add_messages Samples.three_requests
        (MemoryStore.__init__ None 2 true ∅)) <= 2)%nat.
Proof.
  assert (Hempty : forall f c, (∅ : gmap string Conversation.t) !! f = Some c ->
                     (Z.of_nat (length (Conversation.messages c)) <= 2)%Z).
  { intros f c H. rewrite lookup_empty in H. discriminate. }
  pose proof (store_stays_within_maximum None 2 true ∅ Samples.three_requests
                ltac:(lia) Hempty) as Hb.
  unfold MemoryStore.message_count.
  destruct (MemoryStore.conversations _ !! "conv_20240517_123000") as [c|] eqn:Hc;
    [|lia].
  assert (Hmax : MemoryStore.max_messages
                   (MemoryStore.add_messages Samples.three_requests
                      (MemoryStore.__init__ None 2 true ∅)) = 2%Z)
    by (vm_compute; reflexivity).
  apply Hb in Hc. rewrite Hmax in Hc. lia.
Defined.

(** X3: a store with a directory ([persist_dir] not empty) that saves
    every change holds, after any sequence of [add_message] calls, exactly
    what a store created later over the same directory loads: every
    conversation is saved after it is trimmed, under a file name that
    loading maps back to its key (the files found at the start being
    named after their conversations, and a file read back giving the
    conversation that was written).  The active conversation is not
    restored: the restarted store has none, so its history without an id
    is empty until one is created.  A store created with the empty
    directory name has no directory and restores nothing. *)
Theorem restart_restores_conversations
    (d : string) (max max' : Z) (auto_save' : bool)
    (on_disk : gmap string Conversation.t)
    (requests : list (datetime * string * string * option string)) :
  truthy d = true ->
  Persistence.named on_disk ->
  let m := MemoryStore.add_messages requests
             (MemoryStore.__init__ (Some d) max true on_disk) in
  let restarted := MemoryStore.__init__ (Some d) max' auto_save' (MemoryStore.disk m) in
  MemoryStore.conversations restarted = MemoryStore.conversations m /\
  MemoryStore.active_conversation_id restarted = None /\
  MemoryStore.get_history None None restarted = [] /\
  MemoryStore.conversations
    (MemoryStore.__init__ (Some "") max' auto_save' (MemoryStore.disk m)) = ∅.
Proof.
  intros Hd Hn m restarted.
  destruct (PersistenceFacts.add_messages_synced requests _
              (PersistenceFacts.init_persistent d max on_disk Hd)
              (PersistenceFacts.init_synced d max true on_disk Hd Hn)) as [Hs _].
  fold m in Hs. split; [apply PersistenceFacts.reload_synced; [exact Hd|exact Hs]|].
  split; [apply PersistenceFacts.init_active|].
  split; [|reflexivity].
  unfold MemoryStore.get_history, MemoryStore.get_conversation.
  unfold restarted. rewrite PersistenceFacts.init_active. reflexivity.
Qed.

Lemma restart_restores_conversations_witness :
  let m := MemoryStore.add_messages Samples.three_requests
             (MemoryStore.__init__ (Some "data/conversations") 50 true ∅) in
  MemoryStore.message_count "conv_20240517_123000"
    (MemoryStore.__init__ (Some "data/conversations") 50 true (MemoryStore.disk m)) = 3.
Proof.
  intros m.
  assert (Hn : Persistence.named (∅ : gmap string Conversation.t)).
  { intros f c H. rewrite lookup_empty in H. discriminate. }
  destruct (restart_restores_conversations "data/conversations" 50 50 true ∅
              Samples.three_requests eq_refl Hn) as [Hc _].
  fold m in Hc. unfold MemoryStore.message_count. rewrite Hc.
  vm_compute. reflexivity.
Defined.

(** X4: [clear_conversation] leaves the addressed conversation without
    messages, whatever window the history is read with; the active
    conversation stays the same one, only the entry of that conversation
    changes, and a store that saves every change writes the emptied
    conversation to its file.  When there is no such conversation (an
    unknown id, or no id and no active conversation), the store is left
    exactly as it was, its directory included. *)
Theorem clear_conversation_empties
    (conversation_id : option string) (max_messages : option Z) (m : MemoryStore.t) :
  let cleared := MemoryStore.clear_conversation conversation_id m in
  MemoryStore.get_history conversation_id max_messages cleared = [] /\
  MemoryStore.active_conversation_id cleared = MemoryStore.active_conversation_id m /\
  (forall k c, MemoryStore.get_conversation conversation_id m = Some (k, c) ->
     MemoryStore.conversations cleared
       = <[k := Conversation.clear c]> (MemoryStore.conversations m) /\
     (Persistence.persistent m ->
      MemoryStore.disk cleared !! (Conversation.id c +:+ ".json")
        = Some (Conversation.clear c))) /\
  (MemoryStore.get_conversation conversation_id m = None -> cleared = m).
Proof.
  intros cleared. unfold cleared, MemoryStore.clear_conversation.
  destruct (MemoryStore.get_conversation conversation_id m) as [[k c]|] eqn:Hg.
  - set (m1 := MemoryStore.with_conversations _ m).
    assert (Hconv : forall m2,
              MemoryStore.conversations m2 = MemoryStore.conversations m1 ->
              MemoryStore.active_conversation_id m2
                = MemoryStore.active_conversation_id m ->
              MemoryStore.get_history conversation_id max_messages m2 = []).
    { intros m2 Hc Ha. unfold MemoryStore.get_history, MemoryStore.get_conversation.
      rewrite Ha, Hc.
      unfold MemoryStore.get_conversation in Hg.
      destruct (match conversation_id with
                | Some i => if truthy i then Some i
                            else MemoryStore.active_conversation_id m
                | None => MemoryStore.active_conversation_id m
                end) as [k'|]; [|discriminate].
      destruct (MemoryStore.conversations m !! k'); [|discriminate].
      injection Hg as <- _. unfold m1. cbn. rewrite lookup_insert_eq.
      unfold Conversation.get_history. cbn.
      destruct max_messages as [n|]; [|reflexivity].
      destruct (n =? 0)%Z; [reflexivity|].
      rewrite HistoryFacts.slice_from_nil. reflexivity. }
    change (MemoryStore.auto_save m1) with (MemoryStore.auto_save m).
    destruct (MemoryStore.auto_save m) eqn:Ha.
    + split; [apply Hconv; [apply MemoryFacts.conversations_save
                           |rewrite HistoryFacts.active_save; reflexivity]|].
      split; [rewrite HistoryFacts.active_save; reflexivity|].
      split; [|discriminate].
      intros k' c' [= <- <-]. split; [apply MemoryFacts.conversations_save|].
      intros [[d Hd] _]. unfold MemoryStore._save_conversation.
      change (MemoryStore.persist_dir m1) with (MemoryStore.persist_dir m).
      rewrite Hd. cbn. apply lookup_insert_eq.
    + split; [apply Hconv; reflexivity|]. split; [reflexivity|].
      split; [|discriminate].
      intros k' c' [= <- <-]. split; [reflexivity|].
      intros [_ Hauto]. congruence.
  - split; [unfold MemoryStore.get_history; rewrite Hg; reflexivity|].
    split; [reflexivity|]. split; [|reflexivity]. intros k c Hkc. discriminate.
Qed.

(** ** Provider router: what a built router holds *)

Module FallbackFacts.

Import MultiProviderLLM Router Fallbacks.

Lemma created_kind svc cfg provider h :
  _create_handler_for_provider svc cfg provider = Return (Some h) ->
  BaseLLMHandler.kind h = provider /\
  has_credentials cfg provider = true /\
  (negb (String.eqb provider "gemini") || GEMINI_AVAILABLE svc) = true.
Proof.
  unfold _create_handler_for_provider, LMStudioHandler, OllamaHandler, GeminiHandler,
    OpenAIHandler, has_credentials.
  destruct (String.eqb_spec provider "lm_studio") as [->|H1].
  { destruct (OpenAI_client svc _ _); [|discriminate]. intros [= <-]. auto. }
  destruct (String.eqb_spec provider "ollama") as [->|H2].
  { destruct (OpenAI_client svc _ _); [|discriminate]. intros [= <-]. auto. }
  destruct (String.eqb_spec provider "gemini") as [->|H3].
  { cbn [andb negb orb].
    destruct (GEMINI_AVAILABLE svc); cbn [andb negb]; [|discriminate].
    destruct (truthy (TARSConfig.gemini_api_key cfg)); [|discriminate].
    destruct (genai_GenerativeModel svc _ _ _); [|discriminate].
    intros [= <-]. auto. }
  cbn [andb].
  destruct (String.eqb_spec provider "openai") as [->|H4]; [|discriminate].
  cbn [andb negb orb].
  destruct (truthy (TARSConfig.openai_api_key cfg)); [|discriminate].
  destruct (OpenAI_client svc _ _); [|discriminate]. intros [= <-]. auto.
Qed.

(** The loop adds handlers in the order of the providers it walks, and
    only for eligible providers. *)
Lemma setup_loop_sublist svc cfg providers :
  forall acc fbs,
    _setup_fallbacks_loop svc cfg providers acc = Return fbs ->
    exists added,
      fbs = acc ++ added /\
      map BaseLLMHandler.kind added `sublist_of` List.filter (eligible svc cfg) providers.
Proof.
  induction providers as [|p rest IH]; intros acc fbs; cbn [_setup_fallbacks_loop].
  - intros [= <-]. exists []. rewrite app_nil_r. split; [reflexivity|constructor].
  - cbn [List.filter].
    destruct (String.eqb p (lower (TARSConfig.llm_provider cfg))) eqn:Hp; cbn [negb].
    { replace (eligible svc cfg p) with false
        by (unfold eligible; rewrite Hp; reflexivity).
      apply IH. }
    destruct (_create_handler_for_provider svc cfg p) as [[h|]|e] eqn:Hc.
    + apply created_kind in Hc as (Hk & Hcred & Hav).
      replace (eligible svc cfg p) with true
        by (unfold eligible; rewrite Hp, Hcred, Hav; reflexivity).
      intros H. apply IH in H as (added & -> & Hsub).
      exists (h :: added). rewrite <- app_assoc. split; [reflexivity|].
      cbn [map]. rewrite Hk. apply sublist_skip, Hsub.
    + intros H. apply IH in H as (added & -> & Hsub).
      exists added. split; [reflexivity|].
      destruct (eligible svc cfg p); [apply sublist_cons|]; exact Hsub.
    + destruct (is_Exception e); [|discriminate].
      intros H. apply IH in H as (added & -> & Hsub).
      exists added. split; [reflexivity|].
      destruct (eligible svc cfg p); [apply sublist_cons|]; exact Hsub.
Qed.

Lemma factory_kind svc cfg h :
  get_llm_handler svc cfg = Return h ->
  BaseLLMHandler.kind h = lower (TARSConfig.llm_provider cfg).
Proof.
  unfold get_llm_handler, LMStudioHandler, OllamaHandler, GeminiHandler, OpenAIHandler.
  destruct (String.eqb_spec (lower (TARSConfig.llm_provider cfg)) "openai") as [->|H1].
  { destruct (OpenAI_client svc _ _); [|discriminate]. intros [= <-]. reflexivity. }
  destruct (String.eqb_spec (lower (TARSConfig.llm_provider cfg)) "gemini") as [->|H2].
  { destruct (negb _); [discriminate|].
    destruct (genai_GenerativeModel svc _ _ _); [|discriminate].
    intros [= <-]. reflexivity. }
  destruct (String.eqb_spec (lower (TARSConfig.llm_provider cfg)) "lm_studio") as [->|H3].
  { destruct (OpenAI_client svc _ _); [|discriminate]. intros [= <-]. reflexivity. }
  destruct (String.eqb_spec (lower (TARSConfig.llm_provider cfg)) "ollama") as [->|H4];
    [|discriminate].
  destruct (OpenAI_client svc _ _); [|discriminate]. intros [= <-]. reflexivity.
Qed.

Lemma guarded_contains r on_error e :
  BaseLLMHandler.guarded r on_error = Raise e -> is_Exception e = false.
Proof.
  unfold BaseLLMHandler.guarded. destruct r as [c|e']; [discriminate|].
  destruct (is_Exception e') eqn:He; [discriminate|]. intros [= <-]. exact He.
Qed.

Lemma guarded_stream_contains s on_error :
  (forall e, truthy (on_error e) = true) ->
  (forall e, snd (BaseLLMHandler.guarded_stream s on_error) = Some e ->
             is_Exception e = false) /\
  Forall (fun chunk => truthy chunk = true) (fst (BaseLLMHandler.guarded_stream s on_error)).
Proof.
  intros Hon. unfold BaseLLMHandler.guarded_stream.
  assert (Hf : forall chunks : list string,
             Forall (fun chunk => truthy chunk = true)
                    (filter (fun c => truthy c = true) chunks)).
  { intros chunks. apply Forall_forall. intros c Hc.
    apply list_elem_of_filter in Hc. apply Hc. }
  destruct s as [chunks [e'|]].
  - destruct (is_Exception e') eqn:He; cbn [fst snd].
    + split; [discriminate|].
      apply Forall_app. split; [apply Hf|repeat constructor; apply Hon].
    + split; [intros e [= <-]; exact He|apply Hf].
  - cbn [fst snd]. split; [discriminate|apply Hf].
Qed.

(** The four handler classes keep the failures of their backend inside. *)
Lemma factory_contains_errors svc cfg h :
  get_llm_handler svc cfg = Return h -> contains_errors h.
Proof.
  unfold get_llm_handler, LMStudioHandler, OllamaHandler, GeminiHandler, OpenAIHandler.
  intros Hh message history.
  repeat match type of Hh with
         | (if ?b then _ else _) = _ => destruct b
         | match ?o with Return _ => _ | Raise _ => _ end = _ => destruct o
         end; try discriminate;
    injection Hh as <-;
    unfold BaseLLMHandler.generate, BaseLLMHandler.generate_stream;
    cbn [BaseLLMHandler.generate_impl BaseLLMHandler.generate_stream_impl
         BaseLLMHandler.system_prompt];
    (split; [intros e He; apply guarded_contains in He; exact He|]);
    apply guarded_stream_contains; intros e; reflexivity.
Qed.

Lemma built_contains_errors svc cfg r :
  __init__ svc cfg = Return r -> contains_errors (primary_handler r).
Proof.
  unfold __init__. destruct (get_llm_handler svc cfg) as [h|] eqn:Hh; [|discriminate].
  destruct (_setup_fallbacks svc cfg []); [|discriminate].
  intros [= <-]. cbn. apply (factory_contains_errors svc cfg h Hh).
Qed.

Lemma built_kinds svc cfg r :
  __init__ svc cfg = Return r ->
  BaseLLMHandler.kind (primary_handler r) = lower (TARSConfig.llm_provider cfg) /\
  map BaseLLMHandler.kind (fallback_handlers r)
    `sublist_of` List.filter (eligible svc cfg) providers_to_try.
Proof.
  unfold __init__. destruct (get_llm_handler svc cfg) as [h|] eqn:Hh; [|discriminate].
  destruct (_setup_fallbacks svc cfg []) as [fbs|] eqn:Hf; [|discriminate].
  intros [= <-]. cbn. split; [apply (factory_kind svc cfg h Hh)|].
  apply setup_loop_sublist in Hf as (added & -> & Hsub). exact Hsub.
Qed.

(** A primary handler that keeps its errors inside is the only handler
    the router calls. *)
Lemma generate_contained r message history calls :
  contains_errors (primary_handler r) ->
  generate r message history calls =
  (BaseLLMHandler.generate (primary_handler r) message history,
   calls ++ [CallGenerate Primary]).
Proof.
  intros Hc. destruct (Hc message history) as (Hg & _ & _).
  unfold generate, try_except, invoke.
  destruct (BaseLLMHandler.generate (primary_handler r) message history) as [reply|e];
    [reflexivity|].
  rewrite (Hg e eq_refl). reflexivity.
Qed.

(** The streaming method of a built handler is the backend's stream,
    with the empty contents left out and an [Exception] turned into one
    last chunk. *)
Lemma factory_stream svc cfg h message history :
  get_llm_handler svc cfg = Return h ->
  BaseLLMHandler.generate_stream h message history
  = BaseLLMHandler.guarded_stream (backend_stream svc cfg message history)
      (stream_error_text cfg).
Proof.
  unfold get_llm_handler, LMStudioHandler, OllamaHandler, GeminiHandler, OpenAIHandler,
    backend_stream, stream_error_text.
  set (p := lower (TARSConfig.llm_provider cfg)).
  destruct (String.eqb_spec p "openai") as [->|H1].
  { cbn -[truthy BaseLLMHandler.guarded_stream BaseLLMHandler._build_messages].
    destruct (OpenAI_client svc _ _); [|discriminate]. intros [= <-]. reflexivity. }
  destruct (String.eqb_spec p "gemini") as [->|H2].
  { cbn -[truthy BaseLLMHandler.guarded_stream BaseLLMHandler._build_messages].
    destruct (negb _); [discriminate|].
    destruct (genai_GenerativeModel svc _ _ _); [|discriminate].
    intros [= <-]. reflexivity. }
  destruct (String.eqb_spec p "lm_studio") as [->|H3].
  { cbn -[truthy BaseLLMHandler.guarded_stream BaseLLMHandler._build_messages].
    change (truthy "lm-studio") with true.
    cbn -[truthy BaseLLMHandler.guarded_stream BaseLLMHandler._build_messages].
    destruct (OpenAI_client svc _ _); [|discriminate]. intros [= <-]. reflexivity. }
  destruct (String.eqb_spec p "ollama") as [->|H4]; [|discriminate].
  cbn -[truthy BaseLLMHandler.guarded_stream BaseLLMHandler._build_messages].
  destruct (OpenAI_client svc _ _); [|discriminate]. intros [= <-]. reflexivity.
Qed.

Lemma built_stream svc cfg r message history :
  __init__ svc cfg = Return r ->
  BaseLLMHandler.generate_stream (primary_handler r) message history
  = BaseLLMHandler.guarded_stream (backend_stream svc cfg message history)
      (stream_error_text cfg).
Proof.
  unfold __init__. destruct (get_llm_handler svc cfg) as [h|] eqn:Hh; [|discriminate].
  destruct (_setup_fallbacks svc cfg []); [|discriminate].
  intros [= <-]. cbn [primary_handler]. apply (factory_stream svc cfg h _ _ Hh).
Qed.

End FallbackFacts.

(** X5: a router built by [MultiProviderLLM(config)] answers from its
    primary handler alone: the four handler classes turn every
    [Exception] of their backend into a reply text, so [generate] makes
    one call, returns what the primary returned, and never reaches a
    fallback; what may still leave is not an [Exception]. *)
Theorem built_router_never_falls_back
    (svc : Services) (cfg : TARSConfig.t) (r : MultiProviderLLM.t)
    (message : string) (history : list RoleContent) (calls : list Call) :
  MultiProviderLLM.__init__ svc cfg = Return r ->
  MultiProviderLLM.generate r message history calls =
    (BaseLLMHandler.generate (MultiProviderLLM.primary_handler r) message history,
     calls ++ [CallGenerate Primary]) /\
  (forall e, BaseLLMHandler.generate (MultiProviderLLM.primary_handler r)
               message history = Raise e -> is_Exception e = false).
Proof.
  intros Hr. pose proof (FallbackFacts.built_contains_errors svc cfg r Hr) as Hc.
  split; [apply FallbackFacts.generate_contained, Hc|].
  apply (Hc message history).
Qed.

Lemma built_router_never_falls_back_witness :
  MultiProviderLLM.generate (Samples.built Fixtures.offline TARSConfig.default)
    "hello" [] [] =
    (Return "*Cue light flickers* My circuits hit a snag: Connection error.. Want me to try again, or did you break something?",
     [CallGenerate Primary]).
Proof.
  destruct (built_router_never_falls_back Fixtures.offline TARSConfig.default
              (Samples.built Fixtures.offline TARSConfig.default)
              "hello" [] [] eq_refl) as [H _].
  rewrite H. reflexivity.
Defined.

(** X6: whatever the client libraries do, the fallback list of a built
    router is a subsequence of the priority list [lm_studio, ollama,
    gemini, openai] restricted to the eligible providers: it never holds
    the primary provider, nor Gemini or OpenAI without a key, and it
    keeps the priority order; the primary handler is the one of the
    configured provider, whose name is compared in lower case. *)
Theorem fallbacks_follow_priority_order
    (svc : Services) (cfg : TARSConfig.t) (r : MultiProviderLLM.t) :
  MultiProviderLLM.__init__ svc cfg = Return r ->
  BaseLLMHandler.kind (MultiProviderLLM.primary_handler r)
    = lower (TARSConfig.llm_provider cfg) /\
  map BaseLLMHandler.kind (MultiProviderLLM.fallback_handlers r)
    `sublist_of` List.filter (Fallbacks.eligible svc cfg)
                   ["lm_studio"; "ollama"; "gemini"; "openai"] /\
  (forall h, In h (MultiProviderLLM.fallback_handlers r) ->
     BaseLLMHandler.kind h <> BaseLLMHandler.kind (MultiProviderLLM.primary_handler r) /\
     Router.has_credentials cfg (BaseLLMHandler.kind h) = true).
Proof.
  intros Hr. destruct (FallbackFacts.built_kinds svc cfg r Hr) as [Hp Hsub].
  split; [exact Hp|]. split; [exact Hsub|].
  intros h Hin.
  assert (Hk : BaseLLMHandler.kind h ∈ List.filter (Fallbacks.eligible svc cfg)
                 MultiProviderLLM.providers_to_try).
  { eapply elem_of_sublist; [|exact Hsub].
    apply list_elem_of_fmap. exists h. split; [reflexivity|].
    apply list_elem_of_In, Hin. }
  apply list_elem_of_In, filter_In in Hk as [_ Hk].
  unfold Fallbacks.eligible in Hk. rewrite Hp.
  apply andb_prop in Hk as [Hk _]. apply andb_prop in Hk as [Hne Hcred].
  split; [|exact Hcred].
  intros Heq. rewrite Heq, String.eqb_refl in Hne. discriminate.
Qed.

Lemma fallbacks_follow_priority_order_witness :
  BaseLLMHandler.kind
    (MultiProviderLLM.primary_handler
       (Samples.built Fixtures.offline Fixtures.openai_without_key)) = "openai" /\
  map BaseLLMHandler.kind
    (MultiProviderLLM.fallback_handlers
       (Samples.built Fixtures.key_checking Fixtures.lm_studio_without_model))
    `sublist_of` ["ollama"].
Proof.
  split.
  - destruct (fallbacks_follow_priority_order Fixtures.offline
                Fixtures.openai_without_key
                (Samples.built Fixtures.offline Fixtures.openai_without_key)
                eq_refl) as (Hp & _).
    exact Hp.
  - destruct (fallbacks_follow_priority_order Fixtures.key_checking
                Fixtures.lm_studio_without_model
                (Samples.built Fixtures.key_checking Fixtures.lm_studio_without_model)
                eq_refl) as (_ & Hsub & _).
    exact Hsub.
Defined.

(** ** Knowledge retrieval: loading, indexing and searching *)

Module LoaderFacts.

Import DatasetLoader Entries.

(** The loop over the examples adds the record of each example that has
    a question or an answer, numbered by its position, and nothing else. *)
Lemma load_examples_in f examples :
  forall i entries e,
    In e (load_examples f i examples entries) <->
    In e entries \/
    exists j example, examples !! j = Some example /\
                      e = entry_of f (i + j) example /\
                      (truthy (e_question e) || truthy (e_answer e)) = true.
Proof.
  induction examples as [|x rest IH]; intros i entries e; cbn [load_examples].
  - split; [auto|]. intros [H|(j & ex & Hj & _)]; [exact H|].
    rewrite lookup_nil in Hj. discriminate.
  - change {| e_id := stem f +:+ "_" +:+ str_nat i;
              e_question := strip (default "" (x !! "question"));
              e_answer := strip (default "" (x !! "answer"));
              e_context := strip (default "" (x !! "context"));
              e_source := name f;
              e_topic := topic_of (stem f) |} with (entry_of f i x).
    rewrite IH. split.
    + intros [Hin|(j & ex & Hj & He & Hk)].
      * destruct (truthy (e_question (entry_of f i x)) || truthy (e_answer (entry_of f i x)))
          eqn:Hc; [|left; exact Hin].
        apply in_app_or in Hin as [Hin|[<-|[]]]; [left; exact Hin|].
        right. exists 0, x. rewrite Nat.add_0_r. repeat split. exact Hc.
      * right. exists (S j), ex. replace (i + S j) with (S i + j) by lia.
        repeat split; assumption.
    + intros [Hin|(j & ex & Hj & He & Hk)].
      * left. destruct (_ || _); [apply in_or_app; left|]; exact Hin.
      * destruct j as [|j].
        -- cbn in Hj. injection Hj as <-. rewrite Nat.add_0_r in He. subst e.
           left. rewrite Hk. apply in_or_app. right. left. reflexivity.
        -- right. exists j, ex. replace (S i + j) with (i + S j) by lia.
           repeat split; assumption.
Qed.

Lemma entries_of_in f e :
  In e (entries_of f) <-> exists i, made_from f i e.
Proof.
  unfold entries_of, load_yaml, made_from, examples_of.
  destruct (parsed f) as [[data|]|]; cbn [default from_option id].
  - rewrite load_examples_in. cbn [In Nat.add]. split.
    + intros [[]|(j & ex & Hj & He & Hk)]. exists j, ex. repeat split; assumption.
    + intros (j & ex & Hj & He & Hk). right. exists j, ex. repeat split; assumption.
  - split; [intros []|]. intros (j & ex & Hj & _). rewrite lookup_nil in Hj. discriminate.
  - split; [intros []|]. intros (j & ex & Hj & _). rewrite lookup_nil in Hj. discriminate.
Qed.

(** The directory's entries are the entries of its files, in order. *)
Lemma load_files_concat files :
  forall acc, load_files files acc = acc ++ concat (map entries_of files).
Proof.
  induction files as [|f rest IH]; intros acc; cbn [load_files map concat].
  - rewrite app_nil_r. reflexivity.
  - unfold entries_of at 1.
    destruct (load_yaml f) as [entries|]; cbn [default]; rewrite IH.
    + rewrite <- app_assoc. reflexivity.
    + reflexivity.
Qed.

Lemma loader_examples_app f examples :
  forall i entries,
    load_examples f i examples entries
    = entries ++ load_examples f i examples [].
Proof.
  induction examples as [|x rest IH]; intros i entries; cbn [load_examples].
  - rewrite app_nil_r. reflexivity.
  - set (entry := {| e_id := _ |}).
    destruct (truthy (e_question entry) || truthy (e_answer entry)); [|apply IH].
    rewrite IH, (IH (S i) ([] ++ [entry])), <- !app_assoc. reflexivity.
Qed.

End LoaderFacts.

(** X7: the entries that [load_directory] returns are exactly the
    records of the examples of the directory's files that have a question
    or an answer.  An entry is in the result if and only if some file [f]
    of the directory has, at some position [i] of its examples, an
    example of which the entry is the record: the id is the stem of [f]
    and [i] (the position among all the examples of the file, the skipped
    ones counted), the question, answer and context are the example's,
    stripped, the source is the name of [f], the topic is derived from
    its stem; and the question or the answer is not empty. *)
Theorem loaded_entries_have_a_source
    (files : list YamlFile) (e : Entry) :
  In e (DatasetLoader.load_directory (Some files)) <->
  exists f i, In f files /\ Entries.made_from f i e.
Proof.
  cbn [DatasetLoader.load_directory]. rewrite LoaderFacts.load_files_concat. cbn [app].
  rewrite in_concat. split.
  - intros (l & Hl & He). apply in_map_iff in Hl as (f & <- & Hf).
    apply LoaderFacts.entries_of_in in He as [i Hi]. exists f, i. split; assumption.
  - intros (f & i & Hf & Hi). exists (Entries.entries_of f). split.
    + apply in_map, Hf.
    + apply LoaderFacts.entries_of_in. exists i. exact Hi.
Qed.

Lemma loaded_entries_have_a_source_witness :
  In {| e_id := "relativity_basics_1"; e_question := "What is a light cone?";
        e_answer := ""; e_context := "";
        e_source := "relativity_basics.yaml"; e_topic := "relativity" |}
     (DatasetLoader.load_directory (Some [Samples.broken; Samples.relativity])) /\
  ~ In {| e_id := "relativity_basics_2"; e_question := "";
          e_answer := ""; e_context := "";
          e_source := "relativity_basics.yaml"; e_topic := "relativity" |}
       (DatasetLoader.load_directory (Some [Samples.broken; Samples.relativity])).
Proof.
  split.
  - apply (loaded_entries_have_a_source [Samples.broken; Samples.relativity]).
    exists Samples.relativity, 1. split; [right; left; reflexivity|].
    exists {[ "question" := "What is a light cone?" ]}.
    split; [reflexivity|]. split; reflexivity.
  - intros Hin.
    apply (loaded_entries_have_a_source [Samples.broken; Samples.relativity]) in Hin
      as (f & i & _ & example & _ & _ & Hkept).
    cbn in Hkept. discriminate Hkept.
Defined.

(** X8: a file that cannot be opened or parsed is skipped: the entries
    of the directory are those of the other files, in the same order. *)
Theorem unreadable_file_is_skipped
    (before after : list YamlFile) (bad : YamlFile) :
  parsed bad = None ->
  DatasetLoader.load_directory (Some (before ++ bad :: after))
  = DatasetLoader.load_directory (Some (before ++ after)).
Proof.
  intros Hbad. cbn [DatasetLoader.load_directory].
  rewrite !LoaderFacts.load_files_concat, !map_app, !concat_app. cbn [map concat app].
  replace (Entries.entries_of bad) with (@nil Entry)
    by (unfold Entries.entries_of, DatasetLoader.load_yaml; rewrite Hbad; reflexivity).
  reflexivity.
Qed.

Lemma unreadable_file_is_skipped_witness :
  DatasetLoader.load_directory (Some [Samples.relativity; Samples.broken])
  = DatasetLoader.load_directory (Some [Samples.relativity]).
Proof.
  apply (unreadable_file_is_skipped [Samples.relativity] [] Samples.broken).
  reflexivity.
Defined.

Module IndexFacts.

Import RAGSystem.

(** What the preparation loop adds: ids that are new and distinct, with
    one text and one metadata each. *)
Lemma prepare_spec K entries :
  forall b0,
    exists new,
      doc_ids (prepare K entries b0) = doc_ids b0 ++ new /\
      length (texts (prepare K entries b0)) = length (texts b0) + length new /\
      length (metadatas (prepare K entries b0)) = length (metadatas b0) + length new /\
      loaded (prepare K entries b0) = loaded b0 ∪ list_to_set new /\
      NoDup new /\
      (forall i, i ∈ new -> i ∉ loaded b0).
Proof.
  induction entries as [|x rest IH]; intros b0; cbn [prepare].
  - exists []. rewrite app_nil_r. cbn.
    split; [reflexivity|]. split; [lia|]. split; [lia|].
    split; [rewrite union_empty_r_L; reflexivity|].
    split; [constructor|]. intros i Hi. inversion Hi.
  - destruct (decide (doc_id_of K x ∈ loaded b0)) as [Hin|Hnot]; [apply IH|].
    match goal with |- context [prepare K rest ?b] => destruct (IH b)
      as (new & Hids & Ht & Hm & Hl & Hnd & Hnew) end.
    cbn [doc_ids texts metadatas loaded] in *.
    exists (doc_id_of K x :: new).
    rewrite Hids, Ht, Hm, Hl, !length_app, <- app_assoc. cbn [length app].
    split; [reflexivity|]. split; [lia|]. split; [lia|].
    split; [rewrite list_to_set_cons, (assoc_L (∪)); reflexivity|].
    split.
    + constructor; [|exact Hnd]. intros Hx. apply (Hnew _ Hx).
      apply elem_of_union_r, elem_of_singleton. reflexivity.
    + intros i Hi. apply elem_of_cons in Hi as [->|Hi]; [exact Hnot|].
      intros Hi'. apply (Hnew i Hi). apply elem_of_union_l, Hi'.
Qed.

Lemma doc_id_of_md5 K K' entry :
  (forall x, md5_hexdigest K' x = md5_hexdigest K x) ->
  doc_id_of K' entry = doc_id_of K entry.
Proof. intros H. unfold doc_id_of. rewrite H. reflexivity. Qed.

Lemma index_directory_raise_store K directory self e self' :
  index_directory K directory self = (Raise e, self') ->
  vector_store self' = vector_store self.
Proof.
  unfold index_directory.
  destruct (DatasetLoader.load_directory directory) as [|x rest]; [discriminate|].
  destruct (doc_ids _); [discriminate|].
  destruct (encode_batch K _); [|intros [= _ <-]; reflexivity].
  destruct (VectorStore.add_documents K _ _ _ _ _); [discriminate|].
  intros [= _ <-]. reflexivity.
Qed.

End IndexFacts.

(** X9: when [index_directory] returns [n], exactly [n] document ids were
    added to the set of known ids.  With [n = 0] the vector store is
    untouched; with [n > 0] it is the result of one [collection.add] of a
    batch of [n] ids, [n] texts and [n] metadata records, the ids
    pairwise distinct and none of them known before. *)
Theorem index_directory_counts_new_documents
    (K : Knowledge) (directory : option (list YamlFile)) (self self' : RAGSystem.t)
    (n : Z) :
  RAGSystem.index_directory K directory self = (Return n, self') ->
  (0 <= n)%Z /\
  size (RAGSystem._loaded_datasets self')
    = size (RAGSystem._loaded_datasets self) + Z.to_nat n /\
  (n = 0%Z -> RAGSystem.vector_store self' = RAGSystem.vector_store self) /\
  ((0 < n)%Z ->
   exists batch,
     collection_add K batch (RAGSystem.vector_store self)
       = Return (RAGSystem.vector_store self') /\
     length (add_ids batch) = Z.to_nat n /\
     length (add_documents batch) = Z.to_nat n /\
     length (add_metadatas batch) = Z.to_nat n /\
     NoDup (add_ids batch) /\
     (forall i, In i (add_ids batch) ->
        (i ∉ RAGSystem._loaded_datasets self) /\
        (i ∈ RAGSystem._loaded_datasets self'))).
Proof.
  unfold RAGSystem.index_directory.
  destruct (DatasetLoader.load_directory directory) as [|x rest].
  { intros [= <- <-]. repeat split; try lia. }
  match goal with |- context [RAGSystem.prepare K (x :: rest) ?b0] =>
    destruct (IndexFacts.prepare_spec K (x :: rest) b0)
      as (new & Hids & Ht & Hm & Hl & Hnd & Hnew);
    set (b := RAGSystem.prepare K (x :: rest) b0) in * end.
  clearbody b.
  cbn [RAGSystem.doc_ids RAGSystem.texts RAGSystem.metadatas RAGSystem.loaded app
       length Nat.add] in Hids, Ht, Hm, Hl, Hnew.
  assert (Hsize : size (RAGSystem.loaded b)
                  = size (RAGSystem._loaded_datasets self) + length new).
  { rewrite Hl, size_union, size_list_to_set; [reflexivity|exact Hnd|].
    intros i Hi Hi'. apply elem_of_list_to_set in Hi'. apply (Hnew i Hi' Hi). }
  destruct (RAGSystem.doc_ids b) as [|d ds] eqn:Hd.
  { intros [= <- <-]. cbn [RAGSystem.vector_store RAGSystem._loaded_datasets].
    rewrite Hsize, <- Hids. cbn [length].
    repeat split; try lia. }
  destruct (encode_batch K (RAGSystem.texts b)) as [embeddings|e]; [|discriminate].
  unfold VectorStore.add_documents. cbn [RAGSystem.vector_store].
  match goal with |- context [collection_add K ?a ?c] =>
    set (batch := a); destruct (collection_add K batch c) as [store|e] eqn:Hadd end;
    [|discriminate].
  intros [= <- <-]. cbn [RAGSystem.vector_store RAGSystem._loaded_datasets].
  rewrite Hsize, <- Hids, Nat2Z.id.
  split; [lia|]. split; [reflexivity|]. split; [cbn [length]; lia|].
  intros _. exists batch. split; [exact Hadd|].
  assert (Hmetas : add_metadatas batch = RAGSystem.metadatas b).
  { unfold batch. cbn [add_metadatas].
    destruct (RAGSystem.metadatas b) eqn:Hmd; [|reflexivity].
    exfalso. rewrite <- Hids in Hm. cbn in Hm. lia. }
  rewrite Hmetas. cbn [add_ids add_documents batch].
  rewrite Ht, Hm, <- Hids.
  split; [reflexivity|]. split; [reflexivity|]. split; [reflexivity|].
  split; [rewrite Hids; exact Hnd|].
  intros i Hi. apply list_elem_of_In in Hi. rewrite Hids in Hi. split.
  - apply Hnew, Hi.
  - rewrite Hl. apply elem_of_union_r, elem_of_list_to_set, Hi.
Qed.

Lemma index_directory_counts_new_documents_witness :
  size (RAGSystem._loaded_datasets
          (RAGSystem.index_directory (Fixtures.two_hits 1.5 2.0)
             (Some [Samples.relativity]) Fixtures.empty_rag).2) = 2.
Proof.
  destruct (index_directory_counts_new_documents (Fixtures.two_hits 1.5 2.0)
              (Some [Samples.relativity]) Fixtures.empty_rag
              (RAGSystem.index_directory (Fixtures.two_hits 1.5 2.0)
                 (Some [Samples.relativity]) Fixtures.empty_rag).2
              2 ltac:(vm_compute; reflexivity)) as (_ & Hsize & _).
  rewrite Hsize. reflexivity.
Defined.

(** X10: when [index_directory] raises (the embedding model or the store
    failed), the vector store is as it was, yet every document id is
    already recorded as known: a later call on the same directory, also
    with the services working again, returns 0 and adds nothing.  The
    documents of a failed call are never indexed. *)
Theorem failed_indexing_is_not_retried
    (K K' : Knowledge) (directory : option (list YamlFile)) (self self' : RAGSystem.t)
    (e : exn) :
  RAGSystem.index_directory K directory self = (Raise e, self') ->
  (forall x, md5_hexdigest K' x = md5_hexdigest K x) ->
  RAGSystem.vector_store self' = RAGSystem.vector_store self /\
  RAGSystem.index_directory K' directory self' = (Return 0%Z, self').
Proof.
  intros Hraise Hmd5.
  split; [apply (IndexFacts.index_directory_raise_store _ _ _ _ _ Hraise)|].
  apply RetrievalFacts.index_directory_known. intros entry Hin.
  rewrite (IndexFacts.doc_id_of_md5 K K' entry Hmd5).
  pose proof (RetrievalFacts.index_directory_covers K directory self entry Hin) as Hc.
  rewrite Hraise in Hc. exact Hc.
Qed.

Lemma failed_indexing_is_not_retried_witness :
  let failed := (RAGSystem.index_directory Samples.unreachable
                   (Some [Samples.relativity]) Fixtures.empty_rag).2 in
  RAGSystem.vector_store failed = [] /\
  RAGSystem.index_directory (Fixtures.two_hits 1.5 2.0) (Some [Samples.relativity]) failed
  = (Return 0%Z, failed).
Proof.
  intros failed.
  apply (failed_indexing_is_not_retried Samples.unreachable (Fixtures.two_hits 1.5 2.0)
           (Some [Samples.relativity]) Fixtures.empty_rag failed
           (RuntimeError "model not loaded")).
  - vm_compute. reflexivity.
  - intros x. reflexivity.
Defined.

Module SearchFacts.

Import VectorStore.

Lemma format_results_aligned results ids :
  forall i formatted hits,
    format_results results i ids formatted = Return hits ->
    exists new,
      hits = formatted ++ new /\
      length new = length ids /\
      forall j h, new !! j = Some h ->
        ids !! j = Some (hit_id h) /\
        field_at (r_documents results) (i + j) "" = Return (hit_text h) /\
        field_at (r_metadatas results) (i + j) ∅ = Return (hit_metadata h) /\
        field_at (r_distances results) (i + j) 0%float = Return (hit_distance h).
Proof.
  induction ids as [|doc_id rest IH]; intros i formatted hits; cbn [format_results].
  - intros [= <-]. exists []. rewrite app_nil_r. split; [reflexivity|].
    split; [reflexivity|]. intros j h Hj. rewrite lookup_nil in Hj. discriminate.
  - destruct (field_at (r_documents results) i "") as [text|e] eqn:Ht;
      [|destruct (field_at (r_metadatas results) i ∅);
        [destruct (field_at (r_distances results) i 0%float)|]; discriminate].
    destruct (field_at (r_metadatas results) i ∅) as [metadata|e] eqn:Hm;
      [|destruct (field_at (r_distances results) i 0%float); discriminate].
    destruct (field_at (r_distances results) i 0%float) as [distance|e] eqn:Hd;
      [|discriminate].
    intros H. apply IH in H as (new & -> & Hlen & Hall).
    eexists (_ :: new). rewrite <- app_assoc. split; [reflexivity|].
    split; [cbn; lia|].
    intros [|j] h Hj.
    + cbn in Hj. injection Hj as <-. cbn. rewrite Nat.add_0_r. auto.
    + cbn in Hj. destruct (Hall j h Hj) as (H1 & H2 & H3 & H4).
      replace (i + S j) with (S i + j) by lia. auto.
Qed.

End SearchFacts.

(** X11: when [VectorStore.search] returns, it made one
    [collection.query] for the requested number of results, and its hits
    follow the first row of the ids the store returned: one hit per id,
    in order, each with the document, metadata and distance found at the
    same position (or the default of a list the store left out). *)
Theorem search_hits_follow_the_store
    (K : Knowledge) (query : string) (n_results : Z)
    (where_ : option (gmap string string)) (query_embedding : option (list float))
    (collection : list Doc) (hits : list Hit) :
  VectorStore.search K query n_results where_ query_embedding collection = Return hits ->
  exists args results,
    collection_query K args collection = Return results /\
    q_n_results args = n_results /\
    length hits = length (hd [] (r_ids results)) /\
    forall i h, hits !! i = Some h -> Hits.aligned results (hd [] (r_ids results)) i h.
Proof.
  unfold VectorStore.search.
  match goal with |- context [collection_query K ?a collection] =>
    set (args := a); destruct (collection_query K args collection) as [results|e] eqn:Hq end;
    [|discriminate].
  intros H. exists args, results. split; [exact Hq|]. split; [reflexivity|].
  destruct (r_ids results) as [|ids0 others].
  - injection H as <-. split; [reflexivity|].
    intros i h Hi. rewrite lookup_nil in Hi. discriminate.
  - apply SearchFacts.format_results_aligned in H as (new & -> & Hlen & Hall).
    cbn [app hd]. split; [exact Hlen|]. intros i h Hi. apply (Hall i h Hi).
Qed.

Lemma search_hits_follow_the_store_witness :
  exists hits,
    VectorStore.search (Fixtures.two_hits 1.5 2.0) "what is a wormhole" 3 None None []
      = Return hits /\
    length hits = 2.
Proof.
  eexists. split; [reflexivity|].
  destruct (search_hits_follow_the_store (Fixtures.two_hits 1.5 2.0)
              "what is a wormhole" 3 None None [] _ eq_refl)
    as (args & results & Hq & _ & Hlen & _).
  injection Hq as <-. exact Hlen.
Defined.

(** ** Training data *)

Module ConverterFacts.

Import DatasetConverter Entries Sign.

Lemma load_examples_filter f examples :
  forall i all_entries,
    load_examples f i examples all_entries
    = all_entries
      ++ map of_entry (List.filter complete (DatasetLoader.load_examples f i examples [])).
Proof.
  induction examples as [|x rest IH]; intros i all_entries;
    cbn [load_examples DatasetLoader.load_examples].
  - cbn. rewrite app_nil_r. reflexivity.
  - set (q := strip (default "" (x !! "question"))).
    set (a := strip (default "" (x !! "answer"))).
    set (entry := {| e_id := _ |}).
    change (truthy (e_question entry) || truthy (e_answer entry))
      with (truthy q || truthy a).
    assert (Hc : complete entry = truthy q && truthy a) by reflexivity.
    rewrite IH.
    rewrite (LoaderFacts.loader_examples_app f rest (S i)
               (if truthy q || truthy a then _ else _)).
    rewrite List.filter_app, map_app.
    destruct (truthy q), (truthy a); cbn [andb orb app List.filter map] in *;
      rewrite ?Hc; cbn [map app]; rewrite <- ?app_assoc; reflexivity.
Qed.

Lemma load_yaml_files_filter files :
  forall all_entries,
    load_yaml_files files all_entries
    = all_entries
      ++ map of_entry (List.filter complete (concat (map entries_of files))).
Proof.
  induction files as [|f rest IH]; intros all_entries;
    cbn [load_yaml_files map concat].
  - cbn. rewrite app_nil_r. reflexivity.
  - rewrite List.filter_app, map_app.
    unfold entries_of at 1, DatasetLoader.load_yaml.
    destruct (parsed f) as [[data|]|]; cbn [default List.filter map app]; try apply IH.
    destruct (decide (data = ∅)) as [->|Hne].
    + rewrite !lookup_empty. cbn. apply IH.
    + rewrite IH, load_examples_filter, <- app_assoc. reflexivity.
Qed.

(** *** The sign of [int(total * ratio)] *)

Lemma binary_round_aux_nonnegative m e l :
  nonnegative (binary_round_aux prec emax false m e l).
Proof.
  unfold binary_round_aux.
  destruct (shr_fexp prec emax m e l) as [mrs' e'].
  destruct (shr_fexp prec emax _ e' loc_Exact) as [mrs'' e''].
  destruct (shr_m mrs''); cbn; [exact I| |exact I].
  destruct (_ <=? _)%Z; reflexivity.
Qed.

Lemma SFmul_nonnegative x y :
  nonnegative x -> nonnegative y -> nonnegative (SFmul prec emax x y).
Proof.
  destruct x as [sx|sx| |sx mx ex], y as [sy|sy| |sy my ey]; cbn;
    try (intros; exact I); try (intros -> ->; reflexivity).
  intros -> ->. apply binary_round_aux_nonnegative.
Qed.

Lemma float_of_len_nonnegative n : nonnegative (Prim2SF (float_of_len n)).
Proof.
  unfold float_of_len. rewrite of_uint63_spec.
  pose proof (Uint63.to_Z_bounded (Uint63.of_Z (Z.of_nat n))) as [Hlo _].
  unfold binary_normalize.
  destruct (Uint63.to_Z (Uint63.of_Z (Z.of_nat n))) as [|p|p]; [exact I| |lia].
  unfold binary_round.
  destruct (shl_align _ _ _) as [mz ez]. apply binary_round_aux_nonnegative.
Qed.

Lemma leb_zero_nonnegative x : PrimFloat.leb 0 x = true -> nonnegative (Prim2SF x).
Proof.
  rewrite leb_spec. change (Prim2SF 0) with (S754_zero false). unfold SFleb.
  destruct (Prim2SF x) as [s|s| |s m e]; cbn; try destruct s; try discriminate;
    intros _; try exact I; reflexivity.
Qed.

Lemma int_of_float_nonnegative x z :
  nonnegative (Prim2SF x) -> int_of_float x = Return z -> (0 <= z)%Z.
Proof.
  unfold int_of_float, nonnegative.
  destruct (Prim2SF x) as [s|s| |s m e]; try discriminate.
  - intros _ [= <-]. lia.
  - intros -> [= <-].
    destruct (0 <=? e)%Z eqn:He.
    + apply Z.mul_nonneg_nonneg; [apply Pos2Z.is_nonneg|apply Z.pow_nonneg; lia].
    + apply Z.leb_gt in He.
      apply Z.div_pos; [apply Pos2Z.is_nonneg|apply Z.pow_pos_nonneg; lia].
Qed.

Lemma split_point_nonnegative n ratio z :
  PrimFloat.leb 0 ratio = true ->
  int_of_float (float_of_len n * ratio)%float = Return z -> (0 <= z)%Z.
Proof.
  intros Hr. apply int_of_float_nonnegative.
  rewrite mul_spec. apply SFmul_nonnegative;
    [apply float_of_len_nonnegative|apply leb_zero_nonnegative, Hr].
Qed.

(** *** Slices *)

Lemma slices_partition {A} (a b : Z) (l : list A) :
  (0 <= a)%Z -> (a <= b)%Z ->
  slice_to a l ++ slice a b l ++ slice_from b l = l.
Proof.
  intros Ha Hab. unfold slice_to, slice_from, slice, clip.
  destruct (Z.ltb_spec a 0); [lia|]. destruct (Z.ltb_spec b 0); [lia|].
  set (n := length l).
  assert (Htake : take (Z.to_nat a) l = take (Nat.min (Z.to_nat a) n) l).
  { destruct (Nat.le_gt_cases n (Z.to_nat a)).
    - rewrite Nat.min_r by lia. rewrite !take_ge by (fold n; lia). reflexivity.
    - rewrite Nat.min_l by lia. reflexivity. }
  assert (Hdrop : drop (Z.to_nat b) l = drop (Nat.min (Z.to_nat b) n) l).
  { destruct (Nat.le_gt_cases n (Z.to_nat b)).
    - rewrite Nat.min_r by lia. rewrite !drop_ge by (fold n; lia). reflexivity.
    - rewrite Nat.min_l by lia. reflexivity. }
  rewrite Htake, Hdrop.
  set (a' := Nat.min (Z.to_nat a) n). set (b' := Nat.min (Z.to_nat b) n).
  assert (Hle : a' <= b') by (unfold a', b'; lia).
  replace (drop b' l) with (drop (b' - a') (drop a' l))
    by (rewrite drop_drop; f_equal; lia).
  rewrite take_drop, take_drop. reflexivity.
Qed.

End ConverterFacts.

(** X12: over files whose examples are mappings of strings, the training
    entries of [DatasetConverter.load_yaml_files] are the retrieval
    entries of [DatasetLoader.load_directory] that have both a question
    and an answer, in the same order and with the same id, question,
    answer, context and source: the two loaders number the examples alike,
    and the retriever also keeps the entries that lack one of the two. *)
Theorem training_examples_are_complete_entries (files : list YamlFile) :
  DatasetConverter.load_yaml_files files []
  = map Entries.of_entry
      (List.filter Entries.complete (DatasetLoader.load_directory (Some files))).
Proof.
  cbn [DatasetLoader.load_directory].
  rewrite ConverterFacts.load_yaml_files_filter, LoaderFacts.load_files_concat.
  reflexivity.
Qed.

(** X13: with train and validation ratios that are not negative, the
    three lists [split_dataset] returns are consecutive pieces of the
    shuffled entries: together, in order, they are the shuffled list, so
    every entry lands in exactly one of them (the shuffle being a
    permutation).  The test ratio is never read: the test set is what the
    other two leave. *)
Theorem split_dataset_partitions {A}
    (shuffle : Z -> list A -> list A) (entries : list A)
    (train_ratio val_ratio test_ratio : float) (seed : Z)
    (train val test : list A) :
  PrimFloat.leb 0 train_ratio = true ->
  PrimFloat.leb 0 val_ratio = true ->
  DatasetConverter.split_dataset shuffle entries train_ratio val_ratio test_ratio seed
    = Return (train, val, test) ->
  train ++ val ++ test = shuffle seed entries /\
  (Permutation (shuffle seed entries) entries ->
   Permutation (train ++ val ++ test) entries) /\
  forall other_ratio,
    DatasetConverter.split_dataset shuffle entries train_ratio val_ratio other_ratio seed
    = Return (train, val, test).
Proof.
  intros Ht Hv. unfold DatasetConverter.split_dataset.
  destruct (int_of_float (_ * train_ratio)) as [train_end|e] eqn:H1; [|discriminate].
  destruct (int_of_float (_ * val_ratio)) as [n_val|e] eqn:H2; [|discriminate].
  apply (ConverterFacts.split_point_nonnegative _ _ _ Ht) in H1.
  apply (ConverterFacts.split_point_nonnegative _ _ _ Hv) in H2.
  intros [= <- <- <-].
  assert (Hp : slice_to train_end (shuffle seed entries)
               ++ DatasetConverter.slice train_end (train_end + n_val) (shuffle seed entries)
               ++ slice_from (train_end + n_val) (shuffle seed entries)
               = shuffle seed entries)
    by (apply ConverterFacts.slices_partition; lia).
  split; [exact Hp|]. split; [|reflexivity].
  intros Hperm. rewrite Hp. exact Hperm.
Qed.

Lemma split_dataset_partitions_witness :
  DatasetConverter.split_dataset (fun _ l => rev l) [1; 2; 3; 4; 5; 6; 7; 8]%nat
    0.5 0.25 0.05 42
    = Return ([8; 7; 6; 5]%nat, [4; 3]%nat, [2; 1]%nat) /\
  [8; 7; 6; 5]%nat ++ [4; 3]%nat ++ [2; 1]%nat = rev [1; 2; 3; 4; 5; 6; 7; 8]%nat.
Proof.
  assert (H : DatasetConverter.split_dataset (fun _ l => rev l)
                [1; 2; 3; 4; 5; 6; 7; 8]%nat 0.5 0.25 0.05 42
              = Return ([8; 7; 6; 5]%nat, [4; 3]%nat, [2; 1]%nat))
    by (vm_compute; reflexivity).
  split; [exact H|].
  apply (split_dataset_partitions (fun _ l => rev l) [1; 2; 3; 4; 5; 6; 7; 8]%nat
           0.5 0.25 0.05 42 _ _ _ eq_refl eq_refl H).
Defined.

(** ** Personality: what the enhancement does to a reply *)

Module DecorationFacts.

Import Decoration StringFacts.

Lemma decapitalize_nil_inv s : decapitalize s = "" -> s = "".
Proof. destruct s; [reflexivity|discriminate]. Qed.

Lemma decorates_refl r : decorates r r.
Proof. exists "", "". left. rewrite append_nil_r. reflexivity. Qed.

Lemma decorates_decapitalize r : decorates r (decapitalize r).
Proof. exists "", "". right. rewrite append_nil_r. reflexivity. Qed.

Lemma decorates_prefix p r t : decorates r t -> decorates r (p +:+ t).
Proof.
  intros (pre & post & [->| ->]); exists (p +:+ pre), post; [left|right];
    rewrite append_assoc; reflexivity.
Qed.

Lemma decorates_suffix x r t : decorates r t -> decorates r (t +:+ x).
Proof.
  intros (pre & post & [->| ->]); exists pre, (post +:+ x); [left|right];
    rewrite !append_assoc; reflexivity.
Qed.

(** Lowering the first character of a decorated text decorates still:
    the character belongs to the prefix, or it is the first of the
    response. *)
Lemma decorates_lowered r t : decorates r t -> decorates r (decapitalize t).
Proof.
  intros (pre & post & H).
  destruct pre as [|c pre].
  - change ("" +:+ ?x) with x in H.
    destruct r as [|c r].
    + exists "", (decapitalize t). left. reflexivity.
    + exists "", post. right.
      destruct H as [-> | ->]; [reflexivity|].
      cbn [decapitalize]. change (String ?a ?b +:+ ?c) with (String a (b +:+ c)).
      cbn [decapitalize]. rewrite lower_ascii_idem. reflexivity.
  - exists (decapitalize (String c pre)), post.
    destruct H as [-> | ->]; [left|right]; reflexivity.
Qed.

Lemma decorates_trans r t u : decorates r t -> decorates t u -> decorates r u.
Proof.
  intros Hrt (pre & post & [->| ->]).
  - apply decorates_prefix, decorates_suffix, Hrt.
  - apply decorates_prefix, decorates_suffix, decorates_lowered, Hrt.
Qed.

Lemma decorates_nil_inv r : decorates r "" -> r = "".
Proof.
  intros (pre & post & [H|H]); symmetry in H;
    apply append_nil_inv in H as [_ H]; apply append_nil_inv in H as [H _];
    [exact H|apply decapitalize_nil_inv, H].
Qed.

Lemma stage_prefix p response :
  stage_ok response
    match index0 response with
    | Return first => Return (p +:+ lower first +:+ from1 response)
    | Raise e => Raise e
    end.
Proof.
  destruct response as [|c t]; cbn; [split; reflexivity|].
  apply decorates_prefix.
  change (decorates (String c t) (decapitalize (String c t))).
  apply decorates_decapitalize.
Qed.

Lemma format_with_honesty_ok h response c r :
  stage_ok response (HonestyModule.format_with_honesty h response c r).1.
Proof.
  rewrite format_with_honesty_eq.
  destruct (Enhance.hedging h c).
  { choose HonestyModule.HEDGING_PHRASES r p Hp r'. cbn [fst]. apply stage_prefix. }
  destruct (Enhance.brutal h r).
  { choose HonestyModule.HONEST_PREFIXES (advance r) p Hp r'. cbn.
    apply decorates_prefix, decorates_refl. }
  cbn. apply decorates_refl.
Qed.

Lemma add_humor_ok hc response r :
  stage_ok response (HumorController.add_humor hc response r).1.
Proof.
  rewrite add_humor_eq.
  destruct (Enhance.prefix_selected hc r).
  { choose HumorController.SARCASTIC_PREFIXES (advance (advance r)) p Hp r'.
    cbn [fst]. apply stage_prefix. }
  destruct (negb _); [cbn; apply decorates_refl|].
  destruct (PrimFloat.ltb (uniform r (S (cursor r))) 0.6).
  { choose HumorController.SARCASTIC_SUFFIXES (advance (advance r)) p Hp r'. cbn.
    apply decorates_suffix, decorates_refl. }
  destruct (_ && _); [|cbn; apply decorates_refl].
  choose HumorController.MISSION_REFERENCES (advance (advance r)) p Hp r'. cbn.
  apply decorates_suffix, decorates_refl.
Qed.

Lemma stage_ok_trans response t o :
  decorates response t -> stage_ok t o -> stage_ok response o.
Proof.
  intros Hd. destruct o as [out|e]; cbn.
  - apply decorates_trans, Hd.
  - intros [-> ->]. split; [apply decorates_nil_inv, Hd|reflexivity].
Qed.

Lemma enhance_response_ok self response add_humor add_cue_light c r :
  stage_ok response
    (ResponseGenerator.enhance_response self response add_humor add_cue_light c r).1.
Proof.
  unfold ResponseGenerator.enhance_response. unfold bind at 1.
  pose proof (format_with_honesty_ok (ResponseGenerator.honesty self) response c r) as H1.
  destruct (HonestyModule.format_with_honesty _ response c r) as [[t1|e] r1];
    cbn [fst] in H1; [|exact H1].
  unfold bind at 1.
  assert (H2 : stage_ok t1
            ((if add_humor then HumorController.add_humor (ResponseGenerator.humor self) t1
              else ret t1) r1).1).
  { destruct add_humor; [apply add_humor_ok|apply decorates_refl]. }
  destruct ((if add_humor
             then HumorController.add_humor (ResponseGenerator.humor self) t1
             else ret t1) r1) as [[t2|e] r2]; cbn [fst] in H2;
    [|apply (stage_ok_trans response t1 (Raise e) H1 H2)].
  assert (H12 : decorates response t2) by (apply (decorates_trans _ t1); assumption).
  destruct add_cue_light; [|exact H12].
  unfold bind. destruct (maybe_add_returns 0.12 r2) as (q & r3 & -> & _).
  cbn. apply decorates_suffix, H12.
Qed.

Lemma nonpositive_not_negative_is_zero (x : float) :
  PrimFloat.leb x 0 = true -> PrimFloat.ltb x 0 = false ->
  exists s, Prim2SF x = S754_zero s.
Proof.
  rewrite leb_spec, ltb_spec. unfold SFleb, SFltb.
  change (Prim2SF 0) with (S754_zero false).
  destruct (Prim2SF x) as [s|s| |s m e]; cbn; try destruct s; try discriminate; eauto.
Qed.

(** A level at or below zero is clamped to zero: no draw of the
    generator is below it. *)
Lemma clamp01_nonpositive (level u : float) :
  PrimFloat.leb level 0 = true -> PrimFloat.leb 0 u = true ->
  PrimFloat.ltb u (clamp01 level) = false.
Proof.
  intros Hle Hu. unfold clamp01, py_max.
  destruct (PrimFloat.ltb level 0) eqn:Hlt.
  - change (py_min 0 1) with 0%float. apply ltb_false_of_leb, Hu.
  - destruct (nonpositive_not_negative_is_zero level Hle Hlt) as [s Hz].
    unfold py_min.
    assert (H1 : PrimFloat.ltb 1 level = false).
    { rewrite ltb_spec, Hz. reflexivity. }
    rewrite H1. rewrite ltb_spec, Hz.
    rewrite leb_spec in Hu. change (Prim2SF 0) with (S754_zero false) in Hu.
    unfold SFleb, SFltb in *.
    destruct (Prim2SF u) as [s'|s'| |s' m e]; cbn in *; try destruct s';
      try discriminate; reflexivity.
Qed.

End DecorationFacts.

(** X14: [enhance_response] only decorates: whatever the settings and the
    draws, a returned text is the reply, whole or with its first character
    in lower case, between a prefix and a suffix; and the only way the
    call fails is the [IndexError] of [response[0]] on an empty reply. *)
Theorem enhancement_only_decorates
    (self : ResponseGenerator.t) (response : string) (add_humor add_cue_light : bool)
    (certainty : float) (r : Rng) :
  match fst (ResponseGenerator.enhance_response self response add_humor
               add_cue_light certainty r) with
  | Return out => Decoration.decorates response out
  | Raise e => response = "" /\ e = IndexError "string index out of range"
  end.
Proof.
  pose proof (DecorationFacts.enhance_response_ok self response add_humor
                add_cue_light certainty r) as H.
  destruct (ResponseGenerator.enhance_response self response add_humor
              add_cue_light certainty r) as [[out|e] r']; exact H.
Qed.

(** X15: a humor level at or below zero switches the humor stage off:
    [add_humor] returns its input as it is, empty or not, after a single
    draw (a draw of [random.random()] is never negative). *)
Theorem humor_off_is_identity (humor_level : float) (response : string) (r : Rng) :
  PrimFloat.leb humor_level 0 = true ->
  PrimFloat.leb 0 (uniform r (cursor r)) = true ->
  HumorController.add_humor (HumorController.__init__ humor_level) response r
  = (Return response, advance r).
Proof.
  intros Hlevel Hu. rewrite add_humor_eq.
  unfold Enhance.prefix_selected.
  change (HumorController.humor_level (HumorController.__init__ humor_level))
    with (clamp01 humor_level).
  rewrite (DecorationFacts.clamp01_nonpositive _ _ Hlevel Hu). reflexivity.
Qed.

Lemma humor_off_is_identity_witness :
  HumorController.add_humor (HumorController.__init__ (-0.5)) "" (Fixtures.steady 0.25)
  = (Return "", advance (Fixtures.steady 0.25)).
Proof.
  apply (humor_off_is_identity (-0.5) "" (Fixtures.steady 0.25)); reflexivity.
Defined.

(** ** Engine: a turn of the conversation *)

Module InterceptFacts.

Import TARSEngine Frame.

Lemma quiet_ret {A} (a : A) : quiet (ret a).
Proof. intros s. repeat split; reflexivity. Qed.

Lemma quiet_lift {A} (o : outcome A) : quiet (lift o).
Proof. intros s. repeat split; reflexivity. Qed.

Lemma quiet_randomly {A} (c : M Rng A) : quiet (randomly c).
Proof.
  intros s. unfold randomly, zoom. destruct (c (rng s)). repeat split; reflexivity.
Qed.

Lemma quiet_bind {A B} (c : M State A) (k : A -> M State B) :
  quiet c -> (forall a, quiet (k a)) -> quiet (bind c k).
Proof.
  intros Hc Hk s. unfold bind. specialize (Hc s).
  destruct (c s) as [[a|e] s1]; cbn in Hc.
  - destruct (Hk a s1) as (H1 & H2 & H3), Hc as (G1 & G2 & G3).
    repeat split; congruence.
  - exact Hc.
Qed.

(** The command rules touch nothing but the random generator. *)
Lemma quiet_commands user_input : quiet (_handle_special_commands user_input).
Proof.
  unfold _handle_special_commands.
  apply quiet_bind; [intros s; repeat split; reflexivity|intros s].
  repeat match goal with
         | |- quiet (if ?b then _ else _) => destruct b
         end;
    repeat first [ apply quiet_ret | apply quiet_lift | apply quiet_randomly
                 | apply quiet_bind; [|intros ?] ].
Qed.

(** Every answer of the command rules is a non-empty text. *)
Lemma commands_answer_nonempty user_input s r s1 :
  _handle_special_commands user_input s = (Return (Some r), s1) ->
  truthy r = true.
Proof.
  unfold _handle_special_commands.
  unfold bind at 1, get. cbv beta iota.
  destruct (existsb _ time_phrases).
  { unfold bind, ret, randomly, zoom.
    unfold ResponseGenerator.format_time_response, CueLight.random_action.
    unfold bind at 1.
    choose CueLight.ACTIONS (rng s) action Ha r'.
    unfold bind, lift.
    destruct (ResponseGenerator.percent _) as [pct|e]; [|discriminate].
    destruct (choice_cons
                (hd "" (ResponseGenerator.time_responses (strftime_IMp (now s)) action pct))
                (tl (ResponseGenerator.time_responses (strftime_IMp (now s)) action pct))
                (advance (rng s))) as (text & Ht & Hc).
    change (hd _ _ :: tl _) with
      (ResponseGenerator.time_responses (strftime_IMp (now s)) action pct) in Hc.
    rewrite Hc. intros [= <- _].
    apply (time_responses_truthy _ _ _ _ Ht). }
  destruct (Re.search_phrases _ _).
  { unfold bind, ret, randomly, zoom, ResponseGenerator.format_farewell.
    match goal with |- context [choice ?l ?r] =>
      destruct (choice_cons (hd "" l) (tl l) r) as (text & Ht & Hc);
      change (hd "" l :: tl l) with l in Hc, Ht; rewrite Hc end.
    intros [= <- _]. cbn in Ht.
    repeat (destruct Ht as [<-|Ht]; [reflexivity|]). destruct Ht. }
  destruct (_ && _).
  { unfold bind, ret, lift. destruct (ResponseGenerator.percent _); [|discriminate].
    intros [= <- _]. reflexivity. }
  destruct (_ && _).
  { unfold bind, ret, lift. destruct (ResponseGenerator.percent _); [|discriminate].
    intros [= <- _]. reflexivity. }
  destruct (Re.search_phrases _ _); [|discriminate].
  unfold bind, ret, _get_identity_response, randomly, zoom.
  match goal with |- context [choice ?l ?r] =>
    destruct (choice_cons (hd "" l) (tl l) r) as (text & Ht & Hc);
    change (hd "" l :: tl l) with l in Hc, Ht; rewrite Hc end.
  intros [= <- _]. cbn in Ht.
  repeat (destruct Ht as [<-|Ht]; [reflexivity|]). destruct Ht.
Qed.

(** No rule matches the empty text. *)
Lemma commands_empty s :
  _handle_special_commands "" s = (Return None, s).
Proof. reflexivity. Qed.

Lemma answered_input_nonempty user_input s r s1 :
  _handle_special_commands (strip user_input) s = (Return (Some r), s1) ->
  truthy (strip user_input) = true.
Proof.
  intros Hcmd. destruct (strip user_input); [|reflexivity].
  rewrite commands_empty in Hcmd. discriminate.
Qed.

Lemma chat_answered K user_input enhance_response s r s1 :
  _handle_special_commands (strip user_input) s = (Return (Some r), s1) ->
  chat K user_input enhance_response s = (Return r, s1).
Proof.
  intros Hcmd.
  pose proof (answered_input_nonempty _ _ _ _ Hcmd) as Hne.
  unfold chat. unfold bind at 1, get. cbv beta iota. rewrite Hne. cbn [negb].
  unfold bind at 1. rewrite Hcmd. cbn [answered].
  rewrite (commands_answer_nonempty _ _ _ _ Hcmd). reflexivity.
Qed.

Lemma chat_stream_answered user_input s r s1 :
  _handle_special_commands (strip user_input) s = (Return (Some r), s1) ->
  chat_stream user_input s = (([r], Return tt), s1).
Proof.
  intros Hcmd.
  pose proof (answered_input_nonempty _ _ _ _ Hcmd) as Hne.
  unfold chat_stream. rewrite Hne, Hcmd. cbn [negb answered].
  rewrite (commands_answer_nonempty _ _ _ _ Hcmd). reflexivity.
Qed.

Lemma chat_commands_raise K user_input enhance_response s e s1 :
  truthy (strip user_input) = true ->
  _handle_special_commands (strip user_input) s = (Raise e, s1) ->
  chat K user_input enhance_response s = (Raise e, s1).
Proof.
  intros Hne Hcmd. unfold chat.
  unfold bind at 1, get. cbv beta iota. rewrite Hne. cbn [negb].
  unfold bind at 1. rewrite Hcmd. reflexivity.
Qed.

Lemma chat_blank K user_input enhance_response s :
  truthy (strip user_input) = false ->
  chat K user_input enhance_response s =
  randomly (ResponseGenerator.format_unknown_input (personality (self s))) s.
Proof.
  intros Hne. unfold chat. unfold bind at 1, get. cbv beta iota. rewrite Hne.
  reflexivity.
Qed.

Lemma remember_state role content s :
  (remember role content s).2
  = with_memory (MemoryStore.add_message (now s) role content None None
                   (memory (self s))).2 s.
Proof.
  unfold remember. destruct (MemoryStore.add_message _ _ _ _ _ _). reflexivity.
Qed.

End InterceptFacts.

Module TurnFacts.

Import TARSEngine Frame Turn InterceptFacts.

(** The retrieval step changes nothing and lets no [Exception] out. *)
Lemma rag_context_for_state K user_input s :
  (rag_context_for K user_input s).2 = s.
Proof.
  unfold rag_context_for. unfold bind, get.
  destruct (use_rag (self s)); [|reflexivity].
  destruct (rag_system (self s)) as [rag|]; [|reflexivity].
  unfold try_except, lift.
  destruct (RAGSystem.retrieve K rag user_input 3 None 0.3) as [c|e]; [reflexivity|].
  destruct (is_Exception e); reflexivity.
Qed.

Lemma rag_context_for_raises K user_input s e s' :
  rag_context_for K user_input s = (Raise e, s') -> is_Exception e = false.
Proof.
  unfold rag_context_for, bind, get.
  destruct (use_rag (self s)); [|discriminate].
  destruct (rag_system (self s)) as [rag|]; [|discriminate].
  unfold try_except, lift.
  destruct (RAGSystem.retrieve K rag user_input 3 None 0.3) as [c|e']; [discriminate|].
  destruct (is_Exception e') eqn:He; [discriminate|]. intros [= <- _]. exact He.
Qed.








(** [chat] on an input that is not blank and that no rule matches: the
    user message is stored, the answer is produced and, when there is
    one, stored. *)
Lemma chat_turn K user_input enhance_response s :
  truthy (strip user_input) = true ->
  fst (_handle_special_commands (strip user_input) s) = Return None ->
  chat K user_input enhance_response s =
  let s1 := (remember "user" (strip user_input) s).2 in
  (do response <- answer_for K (strip user_input) enhance_response s1;
   run remember "assistant" response;
   ret response) s1.
Proof.
  intros Hne Hnone. apply no_match_no_effect in Hnone.
  unfold chat. unfold bind at 1, get. cbv beta iota. rewrite Hne. cbn [negb].
  unfold bind at 1. rewrite Hnone. cbn [answered].
  unfold bind at 1. unfold remember at 1.
  destruct (MemoryStore.add_message (now s) "user" (strip user_input) None None
              (memory (self s))) as [msg m1] eqn:Hadd.
  cbv beta iota zeta.
  assert (Hs1 : (remember "user" (strip user_input) s).2 = with_memory m1 s).
  { unfold remember. rewrite Hadd. reflexivity. }
  rewrite Hs1. unfold bind at 1, get. cbv beta iota.
  unfold answer_for.
  unfold bind.
  destruct (rag_context_for K (strip user_input) (with_memory m1 s)) as [[ctx|e] s2];
    [|reflexivity].
  destruct (truthy ctx);
    match goal with |- context [llm_generate ?a ?b ?c] =>
      destruct (llm_generate a b c) as [[resp|e] s3] end;
    try reflexivity; destruct enhance_response; reflexivity.
Qed.

Lemma answer_for_context K1 K2 user_input enhance_response s0 s :
  rag_context_for K1 user_input s = rag_context_for K2 user_input s ->
  answer_for K1 user_input enhance_response s0 s
  = answer_for K2 user_input enhance_response s0 s.
Proof. intros H. unfold answer_for, bind. rewrite H. reflexivity. Qed.

(** [chat] depends on the knowledge base through the retrieval step only. *)
Lemma chat_context K1 K2 user_input enhance_response s :
  (forall m, rag_context_for K1 (strip user_input) (with_memory m s)
             = rag_context_for K2 (strip user_input) (with_memory m s)) ->
  chat K1 user_input enhance_response s = chat K2 user_input enhance_response s.
Proof.
  intros Hctx.
  destruct (truthy (strip user_input)) eqn:Hne;
    [|rewrite !chat_blank by exact Hne; reflexivity].
  destruct (_handle_special_commands (strip user_input) s) as [[[r|]|e] s1] eqn:Hcmd.
  - rewrite !(chat_answered _ _ _ _ _ _ Hcmd). reflexivity.
  - rewrite !chat_turn by (try exact Hne; rewrite Hcmd; reflexivity).
    cbv zeta. rewrite remember_state.
    unfold bind at 1 3.
    rewrite (answer_for_context K1 K2 _ _ _ _ (Hctx _)). reflexivity.
  - rewrite !(chat_commands_raise _ _ _ _ _ _ Hne Hcmd). reflexivity.
Qed.

(** With a handler that keeps its errors inside, generation is one call
    to the primary handler. *)
Lemma llm_generate_router r message history s :
  llm (self s) = IsRouter r ->
  Fallbacks.contains_errors (MultiProviderLLM.primary_handler r) ->
  llm_generate message history s =
  (BaseLLMHandler.generate (MultiProviderLLM.primary_handler r) message history,
   with_calls (calls s ++ [CallGenerate Primary]) s).
Proof.
  intros Hllm Hc. unfold llm_generate, bind, get. rewrite Hllm.
  unfold calling, zoom.
  rewrite (FallbackFacts.generate_contained r message history (calls s) Hc).
  reflexivity.
Qed.

Lemma answer_for_raises K r user_input enhance_response s0 s e s' :
  llm (self s) = IsRouter r ->
  Fallbacks.contains_errors (MultiProviderLLM.primary_handler r) ->
  answer_for K user_input enhance_response s0 s = (Raise e, s') ->
  is_Exception e = true ->
  enhance_response = true /\ e = Enhance.index_error /\
  exists message history,
    BaseLLMHandler.generate (MultiProviderLLM.primary_handler r) message history
    = Return "".
Proof.
  intros Hllm Hc. unfold answer_for. unfold bind at 1.
  pose proof (rag_context_for_state K user_input s) as Hst.
  destruct (rag_context_for K user_input s) as [[ctx|e0] s1] eqn:Hctx.
  2: { intros [= <- _] He. apply rag_context_for_raises in Hctx. congruence. }
  cbn in Hst. subst s1. unfold bind at 1.
  set (message := if truthy ctx then augmented_input ctx user_input else user_input).
  replace (if truthy ctx
           then llm_generate (augmented_input ctx user_input) (trailing_history s0)
           else llm_generate user_input (trailing_history s0))
    with (llm_generate message (trailing_history s0))
    by (unfold message; destruct (truthy ctx); reflexivity).
  rewrite (llm_generate_router r message (trailing_history s0) s Hllm Hc).
  destruct (Hc message (trailing_history s0)) as (Hg & _ & _).
  destruct (BaseLLMHandler.generate _ message (trailing_history s0)) as [reply|e1] eqn:Hgen.
  2: { intros [= <- _] He. rewrite (Hg e1 eq_refl) in He. discriminate. }
  destruct enhance_response; [|discriminate].
  unfold randomly, zoom.
  pose proof (DecorationFacts.enhance_response_ok (personality (self s0)) reply true true 0.9
                (rng (with_calls (calls s ++ [CallGenerate Primary]) s))) as Hok.
  destruct (ResponseGenerator.enhance_response _ reply true true 0.9 _) as [[out|e2] r2];
    [discriminate|].
  cbn in Hok. destruct Hok as [-> ->].
  intros [= <- _] _. split; [reflexivity|]. split; [reflexivity|].
  exists message, (trailing_history s0). exact Hgen.
Qed.

End TurnFacts.

Module StartFacts.

Import MemoryStore MemoryFacts HistoryFacts.

Lemma create_conversation_active now m :
  exists k c, get_conversation None (create_conversation now None m).2 = Some (k, c).
Proof.
  exists ("conv_" +:+ strftime_stamp now),
         (Conversation.new now ("conv_" +:+ strftime_stamp now)).
  unfold get_conversation.
  assert (Ha : active_conversation_id (create_conversation now None m).2
               = Some ("conv_" +:+ strftime_stamp now)).
  { unfold create_conversation. cbn.
    destruct (auto_save m); [rewrite active_save|]; reflexivity. }
  rewrite Ha, conversations_create, lookup_insert_eq. reflexivity.
Qed.

Lemma get_or_create_active_exists now m :
  exists k c, get_conversation None (get_or_create_active now m).2 = Some (k, c).
Proof.
  unfold get_or_create_active.
  destruct (active_conversation_id m) as [a|] eqn:Ha;
    [|apply create_conversation_active].
  destruct (truthy a); [|apply create_conversation_active].
  destruct (conversations m !! a) as [c|] eqn:Hc; [|apply create_conversation_active].
  exists a, c. cbn. unfold get_conversation. rewrite Ha, Hc. reflexivity.
Qed.

End StartFacts.

(** X16: whenever a command rule answers (time, farewell, humor or
    honesty setting, identity), [chat] and [chat_stream] give that answer
    and nothing else happens: no message is stored, no handler is called,
    the engine is left as it was; only random draws are consumed. *)
Theorem command_answer_short_circuits
    (K : Knowledge) (user_input : string) (enhance_response : bool)
    (s s1 : TARSEngine.State) (answer : string) :
  TARSEngine._handle_special_commands (strip user_input) s
    = (Return (Some answer), s1) ->
  TARSEngine.chat K user_input enhance_response s = (Return answer, s1) /\
  TARSEngine.chat_stream user_input s = (([answer], Return tt), s1) /\
  TARSEngine.self s1 = TARSEngine.self s /\
  TARSEngine.calls s1 = TARSEngine.calls s.
Proof.
  intros Hcmd.
  pose proof (InterceptFacts.quiet_commands (strip user_input) s) as (Hself & Hcalls & _).
  rewrite Hcmd in Hself, Hcalls. cbn in Hself, Hcalls.
  split; [apply InterceptFacts.chat_answered, Hcmd|].
  split; [apply InterceptFacts.chat_stream_answered, Hcmd|].
  split; assumption.
Qed.

Lemma command_answer_short_circuits_witness :
  TARSEngine.chat (Fixtures.two_hits 1.5 2.0) "  Who are you?  " true Fixtures.state
  = (Return (hd "" TARSEngine.identity_responses),
     TARSEngine.with_rng (advance (Fixtures.steady 0.5)) Fixtures.state).
Proof.
  apply (command_answer_short_circuits (Fixtures.two_hits 1.5 2.0) "  Who are you?  "
           true Fixtures.state).
  reflexivity.
Defined.

(** X17: any input whose text, stripped and lowered, contains one of the
    four time phrases gets a time response from [chat] and from
    [chat_stream], wherever the phrase stands and whatever else the input
    says (the time rule is tried first); nothing is stored and no handler
    is called.  The humor level has to be a finite number, since every
    time response is built before one is chosen. *)
Theorem time_phrase_anywhere
    (K : Knowledge) (user_input phrase : string) (enhance_response : bool)
    (s : TARSEngine.State) (pct : string) :
  In phrase ["what time"; "time now"; "current time"; "what's the time"] ->
  contains phrase (lower (strip user_input)) = true ->
  ResponseGenerator.percent
    (TARSConfig.tars_humor_level
       (ResponseGenerator.config (TARSEngine.personality (TARSEngine.self s))))
    = Return pct ->
  exists action text s',
    TARSEngine.chat K user_input enhance_response s = (Return text, s') /\
    TARSEngine.chat_stream user_input s = (([text], Return tt), s') /\
    In action CueLight.ACTIONS /\
    In text (ResponseGenerator.time_responses
               (strftime_IMp (TARSEngine.now s)) action pct) /\
    TARSEngine.self s' = TARSEngine.self s /\
    TARSEngine.calls s' = TARSEngine.calls s.
Proof.
  intros Hphrase Hcontains Hpct.
  destruct (format_time_response_returns
              (TARSEngine.personality (TARSEngine.self s)) (TARSEngine.now s)
              (TARSEngine.rng s) pct Hpct) as (action & text & Ha & Ht & Hf).
  assert (Hcmd : TARSEngine._handle_special_commands (strip user_input) s
                 = (Return (Some text),
                    TARSEngine.with_rng (advance (advance (TARSEngine.rng s))) s)).
  { unfold TARSEngine._handle_special_commands.
    unfold bind at 1, get. cbv beta iota.
    replace (existsb _ TARSEngine.time_phrases) with true.
    - unfold bind, ret, TARSEngine.randomly, zoom. rewrite Hf. reflexivity.
    - symmetry. apply existsb_exists. exists phrase. split; assumption. }
  exists action, text, (TARSEngine.with_rng (advance (advance (TARSEngine.rng s))) s).
  split; [apply InterceptFacts.chat_answered, Hcmd|].
  split; [apply InterceptFacts.chat_stream_answered, Hcmd|].
  repeat split; assumption.
Qed.

Lemma time_phrase_anywhere_witness :
  exists action text s',
    TARSEngine.chat (Fixtures.two_hits 1.5 2.0) "Bye! But first: WHAT TIME is it?" true
      Fixtures.state = (Return text, s') /\
    TARSEngine.chat_stream "Bye! But first: WHAT TIME is it?" Fixtures.state
      = (([text], Return tt), s') /\
    In action CueLight.ACTIONS /\
    In text (ResponseGenerator.time_responses "12:30 PM" action "60") /\
    TARSEngine.self s' = Fixtures.engine /\
    TARSEngine.calls s' = [].
Proof.
  apply (time_phrase_anywhere (Fixtures.two_hits 1.5 2.0)
           "Bye! But first: WHAT TIME is it?" "what time" true Fixtures.state "60").
  - left. reflexivity.
  - reflexivity.
  - reflexivity.
Defined.

(** X18: an input that is empty once stripped is not a turn: [chat] and
    [chat_stream] answer with one of the five unknown-input texts, after
    one random draw; nothing is stored and no handler is called. *)
Theorem blank_input_is_not_a_turn
    (K : Knowledge) (user_input : string) (enhance_response : bool)
    (s : TARSEngine.State) :
  strip user_input = "" ->
  exists text,
    In text Replies.unknown_responses /\
    TARSEngine.chat K user_input enhance_response s
      = (Return text, TARSEngine.with_rng (advance (TARSEngine.rng s)) s) /\
    TARSEngine.chat_stream user_input s
      = (([text], Return tt), TARSEngine.with_rng (advance (TARSEngine.rng s)) s).
Proof.
  intros Hblank.
  destruct (choice_cons (hd "" Replies.unknown_responses)
              (tl Replies.unknown_responses) (TARSEngine.rng s)) as (text & Ht & Hc).
  exists text. split; [exact Ht|].
  unfold TARSEngine.chat, TARSEngine.chat_stream. rewrite Hblank.
  unfold bind at 1, get. cbv beta iota. cbn [truthy negb].
  unfold TARSEngine.randomly, zoom, ResponseGenerator.format_unknown_input.
  change (choice _ (TARSEngine.rng s)) with
    (choice (hd "" Replies.unknown_responses :: tl Replies.unknown_responses)
       (TARSEngine.rng s)).
  rewrite Hc. split; reflexivity.
Qed.

Lemma blank_input_is_not_a_turn_witness :
  exists text,
    In text Replies.unknown_responses /\
    TARSEngine.chat (Fixtures.two_hits 1.5 2.0) "   " true Fixtures.state
      = (Return text, TARSEngine.with_rng (advance (Fixtures.steady 0.5)) Fixtures.state) /\
    TARSEngine.chat_stream "   " Fixtures.state
      = (([text], Return tt),
         TARSEngine.with_rng (advance (Fixtures.steady 0.5)) Fixtures.state).
Proof.
  apply (blank_input_is_not_a_turn (Fixtures.two_hits 1.5 2.0) "   " true Fixtures.state).
  reflexivity.
Defined.



(** X20: the history handed to the provider in a turn is made of the
    messages that were there before the turn: the last 19 of them, or the
    last [max_messages - 1] when that is less; the user message just
    stored is not part of it (it travels as the message itself). *)
Theorem provider_history_is_recent_window
    (user_input : string) (s : TARSEngine.State) :
  (1 <= MemoryStore.max_messages (TARSEngine.memory (TARSEngine.self s)))%Z ->
  let earlier := MemoryStore.get_history None None (TARSEngine.memory (TARSEngine.self s)) in
  let window :=
    Nat.min 19 (Z.to_nat (MemoryStore.max_messages (TARSEngine.memory (TARSEngine.self s))) - 1) in
  TARSEngine.trailing_history (TARSEngine.remember "user" user_input s).2
  = drop (length earlier - window) earlier.
Proof.
  intros Hmax earlier window.
  unfold TARSEngine.trailing_history, TARSEngine.remember.
  pose proof (HistoryFacts.history_step (TARSEngine.now s) "user" user_input None
                (TARSEngine.memory (TARSEngine.self s)) Hmax) as Hstep.
  destruct (MemoryStore.add_message (TARSEngine.now s) "user" user_input None None
              (TARSEngine.memory (TARSEngine.self s))) as [msg m1].
  cbn [snd fst] in *. cbn [TARSEngine.self TARSEngine.with_memory TARSEngine.memory].
  rewrite HistoryFacts.get_history_window by lia. rewrite Hstep. fold earlier.
  set (k := length earlier + 1
            - Z.to_nat (MemoryStore.max_messages (TARSEngine.memory (TARSEngine.self s)))).
  assert (Hk : k <= length earlier) by (unfold k; lia).
  rewrite HistoryFacts.slice_from_last by lia.
  rewrite length_app, length_drop. cbn [length].
  rewrite drop_app_le by (rewrite length_drop; lia).
  rewrite HistoryFacts.all_but_last.
  rewrite drop_drop. f_equal. unfold k, window. lia.
Qed.

Lemma provider_history_is_recent_window_witness :
  TARSEngine.trailing_history (TARSEngine.remember "user" "four" Samples.chatty).2
  = [ {| rc_role := "user"; rc_content := "three" |} ].
Proof.
  rewrite (provider_history_is_recent_window "four" Samples.chatty)
    by (vm_compute; discriminate).
  vm_compute. reflexivity.
Defined.

(** X21: a retrieval that fails with an [Exception] is a retrieval that
    found nothing: [chat] gives the same result and leaves the same
    state as with a knowledge base for which [retrieve] returns the empty
    context. *)
Theorem retrieval_failure_is_empty_context
    (K1 K2 : Knowledge) (user_input : string) (enhance_response : bool)
    (s : TARSEngine.State) (rag : RAGSystem.t) (e : exn) :
  TARSEngine.rag_system (TARSEngine.self s) = Some rag ->
  RAGSystem.retrieve K1 rag (strip user_input) 3 None 0.3 = Raise e ->
  is_Exception e = true ->
  RAGSystem.retrieve K2 rag (strip user_input) 3 None 0.3 = Return "" ->
  TARSEngine.chat K1 user_input enhance_response s
  = TARSEngine.chat K2 user_input enhance_response s.
Proof.
  intros Hrag H1 He H2. apply TurnFacts.chat_context. intros m.
  unfold TARSEngine.rag_context_for, bind, get. cbn.
  rewrite Hrag. destruct (TARSEngine.use_rag (TARSEngine.self s)); [|reflexivity].
  unfold try_except, lift. rewrite H1, H2, He. reflexivity.
Qed.

Lemma retrieval_failure_is_empty_context_witness :
  TARSEngine.chat Samples.unreachable "hello" true Samples.retrieving
  = TARSEngine.chat Samples.no_hits "hello" true Samples.retrieving.
Proof.
  apply (retrieval_failure_is_empty_context Samples.unreachable Samples.no_hits
           "hello" true Samples.retrieving Fixtures.empty_rag
           (RuntimeError "model not loaded")); reflexivity.
Defined.

(** X22: what [chat_stream] stores is what it yielded: when the generator
    finishes, the assistant message added after the user message is the
    concatenation of all the chunks, the cue-light chunk included; when
    the primary handler's stream raises, the user message stays stored
    without an answer and the exception is the stream's. *)
Theorem stream_persists_what_it_yields (s : TARSEngine.State) (user_input : string)
    (r : MultiProviderLLM.t) :
  truthy (strip user_input) = true ->
  fst (TARSEngine._handle_special_commands (strip user_input) s) = Return None ->
  TARSEngine.llm (TARSEngine.self s) = IsRouter r ->
  let stored :=
    (MemoryStore.add_message (TARSEngine.now s) "user" (strip user_input)
       None None (TARSEngine.memory (TARSEngine.self s))).2 in
  let result := TARSEngine.chat_stream user_input s in
  match snd (fst result) with
  | Return _ =>
      TARSEngine.memory (TARSEngine.self (snd result))
      = (MemoryStore.add_message (TARSEngine.now s) "assistant"
           (String.concat "" (fst (fst result))) None None stored).2
  | Raise e =>
      TARSEngine.memory (TARSEngine.self (snd result)) = stored /\
      snd (BaseLLMHandler.generate_stream (MultiProviderLLM.primary_handler r)
             (strip user_input)
             (TARSEngine.trailing_history
                (TARSEngine.remember "user" (strip user_input) s).2))
      = Some e
  end.
Proof.
  intros Hne Hnone Hllm stored result.
  apply no_match_no_effect in Hnone.
  pose proof (InterceptFacts.remember_state "user" (strip user_input) s) as Hs1.
  fold stored in Hs1.
  unfold result, TARSEngine.chat_stream.
  rewrite Hne, Hnone. cbn [negb TARSEngine.answered].
  rewrite Hs1. cbn [TARSEngine.self TARSEngine.with_memory TARSEngine.llm].
  rewrite Hllm.
  destruct (BaseLLMHandler.generate_stream (MultiProviderLLM.primary_handler r)
              (strip user_input)
              (TARSEngine.trailing_history (TARSEngine.with_memory stored s)))
    as [chunks [e|]]; cbn [fst snd].
  - split; reflexivity.
  - unfold TARSEngine.randomly, zoom.
    cbn [TARSEngine.rng TARSEngine.with_calls TARSEngine.with_memory].
    destruct (maybe_add_returns 0.1 (TARSEngine.rng s)) as (cue & r' & Hq & Hcue).
    rewrite Hq. cbn [fst snd].
    unfold TARSEngine.remember. cbn.
    destruct Hcue as [->|(a & Ha & ->)]; cbn [truthy].
    + destruct (MemoryStore.add_message _ _ _ _ _ stored). reflexivity.
    + change (truthy (" " +:+ a)) with true. cbv iota.
      rewrite StringFacts.concat_snoc.
      destruct (MemoryStore.add_message _ _ _ _ _ stored). reflexivity.
Qed.

Lemma stream_persists_what_it_yields_witness :
  MemoryStore.get_history None None
    (TARSEngine.memory
       (TARSEngine.self
          (snd (TARSEngine.chat_stream "hello"
                  (Samples.state_of (Samples.built Samples.blank_reply TARSConfig.default)
                     0.05)))))
  = [ {| rc_role := "user"; rc_content := "hello" |};
      {| rc_role := "assistant"; rc_content := "    *Cue light blinks*" |} ].
Proof.
  pose proof (stream_persists_what_it_yields
                (Samples.state_of (Samples.built Samples.blank_reply TARSConfig.default) 0.05)
                "hello" (Samples.built Samples.blank_reply TARSConfig.default)
                eq_refl eq_refl eq_refl) as H.
  cbv zeta in H.
  replace (snd (fst (TARSEngine.chat_stream "hello"
             (Samples.state_of (Samples.built Samples.blank_reply TARSConfig.default) 0.05))))
    with (@Return unit tt) in H by (vm_compute; reflexivity).
  rewrite H. vm_compute. reflexivity.
Defined.

(** X23: in an engine whose router was built from the configuration and
    whose memory store writes no file (no directory, or no saving on its
    own), a turn of [chat] on an input that is not blank and that no rule
    matches raises one [Exception] only: the [IndexError] of enhancing an
    empty reply, which takes enhancement switched on and a primary
    handler that returned the empty text (a backend answer of blanks,
    once stripped).  Failures of the backend come back as reply texts,
    failures of the retrieval as an empty context.  (A store that writes
    its conversations can fail in [open] or [json.dump] as well, which is
    outside the model.) *)
Theorem built_engine_chat_failures
    (K : Knowledge) (svc : Services) (cfg : TARSConfig.t) (r : MultiProviderLLM.t)
    (user_input : string) (enhance_response : bool) (s : TARSEngine.State) (e : exn) :
  MultiProviderLLM.__init__ svc cfg = Return r ->
  TARSEngine.llm (TARSEngine.self s) = IsRouter r ->
  Persistence.writes_no_file (TARSEngine.memory (TARSEngine.self s)) ->
  truthy (strip user_input) = true ->
  fst (TARSEngine._handle_special_commands (strip user_input) s) = Return None ->
  fst (TARSEngine.chat K user_input enhance_response s) = Raise e ->
  is_Exception e = true ->
  enhance_response = true /\
  e = IndexError "string index out of range" /\
  exists message history,
    BaseLLMHandler.generate (MultiProviderLLM.primary_handler r) message history
    = Return "".
Proof.
  intros Hr Hllm _ Hne Hnone Hraise He.
  pose proof (FallbackFacts.built_contains_errors svc cfg r Hr) as Hc.
  rewrite (TurnFacts.chat_turn K user_input enhance_response s Hne Hnone) in Hraise.
  cbv zeta in Hraise. unfold bind at 1 in Hraise.
  set (s1 := (TARSEngine.remember "user" (strip user_input) s).2) in *.
  assert (Hllm1 : TARSEngine.llm (TARSEngine.self s1) = IsRouter r).
  { unfold s1. rewrite InterceptFacts.remember_state. exact Hllm. }
  destruct (Turn.answer_for K (strip user_input) enhance_response s1 s1)
    as [[resp|e'] s2] eqn:Hans.
  - unfold bind, ret, TARSEngine.remember in Hraise.
    destruct (MemoryStore.add_message _ _ _ _ _ _) in Hraise. discriminate.
  - cbn in Hraise. injection Hraise as ->.
    apply (TurnFacts.answer_for_raises K r _ _ _ _ _ _ Hllm1 Hc Hans He).
Qed.

Lemma built_engine_chat_failures_witness :
  fst (TARSEngine.chat (Fixtures.two_hits 1.5 2.0) "hello" true
         (Samples.state_of (Samples.built Samples.blank_reply TARSConfig.default) 0.25))
    = Raise (IndexError "string index out of range") /\
  exists message history,
    BaseLLMHandler.generate
      (MultiProviderLLM.primary_handler
         (Samples.built Samples.blank_reply TARSConfig.default)) message history
    = Return "".
Proof.
  assert (H : fst (TARSEngine.chat (Fixtures.two_hits 1.5 2.0) "hello" true
                     (Samples.state_of
                        (Samples.built Samples.blank_reply TARSConfig.default) 0.25))
              = Raise (IndexError "string index out of range"))
    by (vm_compute; reflexivity).
  split; [exact H|].
  apply (built_engine_chat_failures (Fixtures.two_hits 1.5 2.0) Samples.blank_reply
           TARSConfig.default (Samples.built Samples.blank_reply TARSConfig.default)
           "hello" true
           (Samples.state_of (Samples.built Samples.blank_reply TARSConfig.default) 0.25)
           (IndexError "string index out of range")
           eq_refl eq_refl (or_introl eq_refl) eq_refl eq_refl H eq_refl).
Defined.

(** X24: in an engine whose router was built from the configuration and
    whose memory store writes no file, [chat_stream] on an input that is
    not blank and that no rule matches never yields an empty chunk and
    never ends in an [Exception].  A backend stream that fails with an
    [Exception] after some chunks shows as follows: the generator
    finishes normally, having yielded the chunks that had a content, then
    one chunk with the provider's error text and the message of the
    exception, then at most the cue-light chunk. *)
Theorem built_engine_stream_failures
    (svc : Services) (cfg : TARSConfig.t) (r : MultiProviderLLM.t)
    (user_input : string) (s : TARSEngine.State) :
  MultiProviderLLM.__init__ svc cfg = Return r ->
  TARSEngine.llm (TARSEngine.self s) = IsRouter r ->
  Persistence.writes_no_file (TARSEngine.memory (TARSEngine.self s)) ->
  truthy (strip user_input) = true ->
  fst (TARSEngine._handle_special_commands (strip user_input) s) = Return None ->
  let result := TARSEngine.chat_stream user_input s in
  let history :=
    TARSEngine.trailing_history (TARSEngine.remember "user" (strip user_input) s).2 in
  Forall (fun chunk => truthy chunk = true) (fst (fst result)) /\
  (forall e, snd (fst result) = Raise e -> is_Exception e = false) /\
  (forall chunks e,
     Fallbacks.backend_stream svc cfg (strip user_input) history = (chunks, Some e) ->
     is_Exception e = true ->
     snd (fst result) = Return tt /\
     exists cue,
       fst (fst result)
       = filter (fun c => truthy c = true) chunks
           ++ [Fallbacks.stream_error_text cfg e] ++ cue /\
       (cue = [] \/ exists action, In action CueLight.ACTIONS /\ cue = [" " +:+ action])).
Proof.
  intros Hr Hllm _ Hne Hnone result history.
  pose proof (FallbackFacts.built_contains_errors svc cfg r Hr) as Hc.
  apply no_match_no_effect in Hnone.
  unfold result, TARSEngine.chat_stream.
  rewrite Hne, Hnone. cbn [negb TARSEngine.answered].
  set (s1 := (TARSEngine.remember "user" (strip user_input) s).2) in *.
  assert (Hllm1 : TARSEngine.llm (TARSEngine.self s1) = IsRouter r).
  { unfold s1. rewrite InterceptFacts.remember_state. exact Hllm. }
  rewrite Hllm1. fold history.
  destruct (Hc (strip user_input) history) as (_ & Hs & Hchunks).
  pose proof (FallbackFacts.built_stream svc cfg r (strip user_input) history Hr) as Hst.
  destruct (BaseLLMHandler.generate_stream (MultiProviderLLM.primary_handler r)
              (strip user_input) history)
    as [yielded [e0|]]; cbn [fst snd] in *.
  - split; [exact Hchunks|]. split; [intros e [= <-]; apply Hs; reflexivity|].
    intros chunks e Hb He. rewrite Hb in Hst. unfold BaseLLMHandler.guarded_stream in Hst.
    rewrite He in Hst. discriminate.
  - unfold TARSEngine.randomly, zoom.
    destruct (maybe_add_returns 0.1
                (TARSEngine.rng (TARSEngine.with_calls
                   (TARSEngine.calls s1 ++ [CallStream Primary]) s1)))
      as (cue & r' & Hq & Hcue).
    rewrite Hq. cbn [fst snd]. split; [|split; [discriminate|]].
    + destruct Hcue as [->|(a & Ha & ->)]; cbn [truthy]; [exact Hchunks|].
      change (truthy (" " +:+ a)) with true. cbv iota.
      apply Forall_app. split; [exact Hchunks|]. repeat constructor.
    + intros chunks e Hb He. split; [reflexivity|].
      rewrite Hb in Hst. unfold BaseLLMHandler.guarded_stream in Hst.
      rewrite He in Hst. injection Hst as ->.
      destruct Hcue as [->|(a & Ha & ->)]; cbn [truthy].
      * exists []. split; [rewrite app_nil_r; reflexivity|left; reflexivity].
      * change (truthy (" " +:+ a)) with true. cbv iota.
        exists [" " +:+ a]. split; [rewrite <- app_assoc; reflexivity|].
        right. exists a. split; [exact Ha|reflexivity].
Qed.

Lemma built_engine_stream_failures_witness :
  snd (fst (TARSEngine.chat_stream "hello"
              (Samples.state_of (Samples.built Fixtures.offline TARSConfig.default) 0.5)))
    = Return tt /\
  exists cue,
    fst (fst (TARSEngine.chat_stream "hello"
                (Samples.state_of (Samples.built Fixtures.offline TARSConfig.default)
                   0.5)))
    = ["*Cue light dims* Stream disrupted: Connection error."] ++ cue.
Proof.
  destruct (built_engine_stream_failures Fixtures.offline TARSConfig.default
              (Samples.built Fixtures.offline TARSConfig.default) "hello"
              (Samples.state_of (Samples.built Fixtures.offline TARSConfig.default) 0.5)
              eq_refl eq_refl (or_introl eq_refl) eq_refl eq_refl)
    as (_ & _ & Hfail).
  destruct (Hfail [] (RuntimeError "Connection error.") eq_refl eq_refl)
    as (Hend & cue & Hchunks & _).
  split; [exact Hend|]. exists cue. exact Hchunks.
Defined.

(** X25: an engine that has been constructed has an active conversation
    that exists in its memory; retrieval is on only when it was asked
    for, enabled in the configuration and available, and then the
    retriever is there (a retriever that fails to start switches
    retrieval off instead of failing the construction); a handler that
    was passed in is used as it is. *)
Theorem engine_starts_with_active_conversation
    (svc : Services) (config : TARSConfig.t) (llm_handler : option BaseLLMHandler.t)
    (memory_store : MemoryStore.t) (response_generator : ResponseGenerator.t)
    (use_rag rag_available : bool) (rag : outcome RAGSystem.t)
    (rag_stats : outcome unit) (now : datetime) (engine : TARSEngine.t) :
  TARSEngine.__init__ svc config llm_handler memory_store response_generator
    use_rag rag_available rag rag_stats now = Return engine ->
  (exists k c,
      MemoryStore.get_conversation None (TARSEngine.memory engine) = Some (k, c)) /\
  (TARSEngine.use_rag engine = true ->
   use_rag = true /\ TARSConfig.rag_enabled config = true /\ rag_available = true /\
   exists r, rag = Return r /\ TARSEngine.rag_system engine = Some r) /\
  (forall h, llm_handler = Some h -> TARSEngine.llm engine = IsHandler h).
Proof.
  unfold TARSEngine.__init__.
  destruct (match llm_handler with
            | Some h => Return (IsHandler h)
            | None => _
            end) as [llm|e] eqn:Hllm; [|discriminate].
  destruct (StartFacts.get_or_create_active_exists now memory_store) as (k & c & Hkc).
  destruct (MemoryStore.get_or_create_active now memory_store) as [c0 memory].
  cbn [snd] in Hkc.
  assert (Hh : forall h, llm_handler = Some h -> llm = IsHandler h).
  { intros h ->. congruence. }
  destruct use_rag, (TARSConfig.rag_enabled config), rag_available; cbn [andb];
    try (intros [= <-]; cbn; split; [eauto|split; [discriminate|exact Hh]]).
  destruct rag as [r|er]; [destruct rag_stats as [u|es]|].
  - intros [= <-]. cbn. split; [eauto|]. split; [|exact Hh]. intros _. eauto 8.
  - destruct (is_Exception es); [|discriminate].
    intros [= <-]. cbn. split; [eauto|]. split; [discriminate|exact Hh].
  - destruct (is_Exception er); [|discriminate].
    intros [= <-]. cbn. split; [eauto|]. split; [discriminate|exact Hh].
Qed.

Lemma engine_starts_with_active_conversation_witness :
  (exists k c,
      MemoryStore.get_conversation None (TARSEngine.memory Samples.started)
      = Some (k, c)) /\
  TARSEngine.use_rag Samples.started = false.
Proof.
  destruct (engine_starts_with_active_conversation Fixtures.offline TARSConfig.default
              None Fixtures.empty_store Fixtures.tars true true
              (Raise (ImportError "chromadb not installed")) (Return tt)
              Fixtures.noon Samples.started eq_refl) as (Hactive & _ & _).
  split; [exact Hactive|reflexivity].
Defined.
